(** * Book Finder: the resource query planner, the fallback retriever and
    the components around them

    A shallow embedding of [src/lib/resourceSearch.ts] ([RESOURCE_MAP],
    [buildQueryAttempts], [runSmartSearch]), of
    [src/components/SearchBar.tsx] ([buildSearchUrl], the suggestions,
    [mapDocsToBooks], [runSearch], [onKeyDown]), of the saving of books in
    [src/components/BookCard.tsx] and [src/components/Favorites.tsx], and of
    the controls that set the filters in [src/App.tsx] and
    [src/components/Filters.tsx], together with the ECMAScript and URL
    built-ins they call ([String.prototype.trim], [encodeURIComponent],
    [decodeURIComponent], [String.prototype.split], [URLSearchParams],
    [Array.prototype.sort], [Set]).

    Conventions of the embedding:
    - a JavaScript string is its sequence of UTF-16 code units, a [list N];
    - a Number is a value of [Number.t]: NaN, an infinity, or a sign, a
      mantissa and a binary exponent; the options [limit], [minResults] and
      [maxAttempts] and the [attempt] field of an outcome are Numbers,
      compared as ECMAScript compares them and written as [String] writes
      them;
    - the year of a document is an integer, [Z]; a loop counter and a length
      are a [nat];
    - a [throw] is the [Throw] case of [result]; an [async] function that
      rejects is a computation of [IO] that ends in [Throw];
    - the network is an oracle [net]: the response to the n-th request of an
      invocation, given its URL; every request and every pacing delay is
      logged in a trace of [Event]s;
    - the caller's AbortController is an oracle [aborted]: whether it has
      been aborted by the time the n-th request would settle;
    - a document of a search response has the fields the code reads, typed
      as the [Book] interface types them, each of them optional;
    - the state of a component is a value a handler takes and returns.

    The first part holds the model, the vocabulary of the statements and the
    scenarios. The second part holds the facts about the built-ins, the
    planner and the retriever and, in the module [Claims], the properties of
    the specification, C1 to C10; after it come the facts about the rest of
    the code and its further properties, X1 to X30. *)

From Stdlib Require Import List NArith ZArith String Ascii Bool Lia.
From Stdlib Require Import Permutation Sorted.
From Stdlib Require QArith Qpower.
From Stdlib Require Import DecimalString.
Import ListNotations.

Set Implicit Arguments.

(** ** JavaScript built-ins *)

Module JS.

Local Open Scope N_scope.

(** A string value: a finite sequence of 16-bit code units. *)
Definition jsstring := list N.

(** The code units of an ASCII literal of the source. *)
Definition lit (s : string) : jsstring :=
  List.map N_of_ascii (list_ascii_of_string s).

(** Every element of a string value is a 16-bit unsigned integer. *)
Definition isString (s : jsstring) : bool :=
  forallb (fun c => c <? 0x10000) s.

Fixpoint eqb_string (a b : jsstring) : bool :=
  match a, b with
  | [], [] => true
  | x :: a', y :: b' => (x =? y) && eqb_string a' b'
  | _, _ => false
  end.

(** The two exceptions the modelled code can raise. *)
Inductive JsError := TypeError | URIError.

Inductive result (A : Type) : Type :=
| Ok (a : A)
| Throw (e : JsError).
Arguments Ok {A} a.
Arguments Throw {A} e.

Definition bind {A B : Type} (r : result A) (k : A -> result B) : result B :=
  match r with
  | Ok a => k a
  | Throw e => Throw e
  end.

Definition fmap {A B : Type} (f : A -> B) (r : result A) : result B :=
  bind r (fun a => Ok (f a)).

Declare Scope result_scope.
Delimit Scope result_scope with result.
Notation "x <- c ;; k" := (bind c (fun x => k))
  (at level 61, c at next level, right associativity) : result_scope.

(** *** String.prototype.trim

    WhiteSpace (TAB, VT, FF, ZWNBSP and the Unicode space separators) and
    LineTerminator (LF, CR, LS, PS) code points, all in the basic plane. *)
Definition isWhiteSpace (c : N) : bool :=
  (c =? 0x09) || (c =? 0x0A) || (c =? 0x0B) || (c =? 0x0C) || (c =? 0x0D)
  || (c =? 0x20) || (c =? 0xA0) || (c =? 0x1680)
  || ((0x2000 <=? c) && (c <=? 0x200A))
  || (c =? 0x2028) || (c =? 0x2029) || (c =? 0x202F) || (c =? 0x205F)
  || (c =? 0x3000) || (c =? 0xFEFF).

Fixpoint trimStart (s : jsstring) : jsstring :=
  match s with
  | [] => []
  | c :: r => if isWhiteSpace c then trimStart r else s
  end.

Definition trimEnd (s : jsstring) : jsstring := rev (trimStart (rev s)).

Definition trim (s : jsstring) : jsstring := trimEnd (trimStart s).

(** *** UTF-8 and UTF-16 *)

Definition isLeadSurrogate (c : N) : bool := (0xD800 <=? c) && (c <=? 0xDBFF).
Definition isTrailSurrogate (c : N) : bool := (0xDC00 <=? c) && (c <=? 0xDFFF).

(** UTF16SurrogatePairToCodePoint. *)
Definition pairToCodePoint (lead trail : N) : N :=
  (lead - 0xD800) * 0x400 + (trail - 0xDC00) + 0x10000.

(** UTF16EncodeCodePoint. *)
Definition utf16 (cp : N) : jsstring :=
  if cp <? 0x10000 then [cp]
  else [0xD800 + (cp - 0x10000) / 0x400; 0xDC00 + (cp - 0x10000) mod 0x400].

(** The octets of the UTF-8 encoding of a code point. *)
Definition utf8 (cp : N) : list N :=
  if cp <? 0x80 then [cp]
  else if cp <? 0x800 then [0xC0 + cp / 0x40; 0x80 + cp mod 0x40]
  else if cp <? 0x10000 then
    [0xE0 + cp / 0x1000; 0x80 + (cp / 0x40) mod 0x40; 0x80 + cp mod 0x40]
  else
    [0xF0 + cp / 0x40000; 0x80 + (cp / 0x1000) mod 0x40;
     0x80 + (cp / 0x40) mod 0x40; 0x80 + cp mod 0x40].

Definition isContinuation (b : N) : bool := (0x80 <=? b) && (b <=? 0xBF).

(** The code point of a well-formed multi-octet UTF-8 sequence: continuation
    octets in range, no overlong form, no surrogate, at most U+10FFFF. *)
Definition utf8Decode (octets : list N) : option N :=
  match octets with
  | [b1; b2] =>
      let cp := (b1 - 0xC0) * 0x40 + (b2 - 0x80) in
      if isContinuation b2 && (0x80 <=? cp) then Some cp else None
  | [b1; b2; b3] =>
      let cp := (b1 - 0xE0) * 0x1000 + (b2 - 0x80) * 0x40 + (b3 - 0x80) in
      if isContinuation b2 && isContinuation b3 && (0x800 <=? cp)
         && negb ((0xD800 <=? cp) && (cp <=? 0xDFFF))
      then Some cp else None
  | [b1; b2; b3; b4] =>
      let cp := (b1 - 0xF0) * 0x40000 + (b2 - 0x80) * 0x1000
                + (b3 - 0x80) * 0x40 + (b4 - 0x80) in
      if isContinuation b2 && isContinuation b3 && isContinuation b4
         && (0x10000 <=? cp) && (cp <=? 0x10FFFF)
      then Some cp else None
  | _ => None
  end.

Definition isSurrogate (c : N) : bool := isLeadSurrogate c || isTrailSurrogate c.

(** [String.prototype.isWellFormed]: no unpaired surrogate. *)
Fixpoint isWellFormed (s : jsstring) : bool :=
  match s with
  | [] => true
  | c :: r =>
      if isLeadSurrogate c then
        match r with
        | d :: r' => isTrailSurrogate d && isWellFormed r'
        | [] => false
        end
      else negb (isTrailSurrogate c) && isWellFormed r
  end.

(** A Unicode scalar value: a code point that is not a surrogate. *)
Definition isScalarValue (cp : N) : bool :=
  (cp <? 0x110000) && negb ((0xD800 <=? cp) && (cp <=? 0xDFFF)).

(** A string of ASCII units only. *)
Definition isPlain (s : jsstring) : bool := forallb (fun c => c <? 0x80) s.

(** *** Percent escapes *)

Definition percent : N := 0x25.

Definition hexDigit (d : N) : N := if d <? 10 then 0x30 + d else 0x37 + d.

Definition hexValue (c : N) : option N :=
  if (0x30 <=? c) && (c <=? 0x39) then Some (c - 0x30)
  else if (0x41 <=? c) && (c <=? 0x46) then Some (c - 0x37)
  else if (0x61 <=? c) && (c <=? 0x66) then Some (c - 0x57)
  else None.

(** ParseHexOctet. *)
Definition hexOctet (h l : N) : option N :=
  match hexValue h, hexValue l with
  | Some a, Some b => Some (a * 16 + b)
  | _, _ => None
  end.

Definition escapeOctet (b : N) : jsstring :=
  [percent; hexDigit (b / 16); hexDigit (b mod 16)].

Definition escapeOctets (bs : list N) : jsstring := flat_map escapeOctet bs.

(** A percent sign followed by two hexadecimal digits, read as an octet. *)
Definition readEscape (p h l : N) : option N :=
  if p =? percent then hexOctet h l else None.

(** *** encodeURIComponent

    uriUnescaped: the ASCII letters and digits and [- _ . ! ~ * ' ( )]. *)
Definition isAlpha (c : N) : bool :=
  ((0x41 <=? c) && (c <=? 0x5A)) || ((0x61 <=? c) && (c <=? 0x7A)).
Definition isDigit (c : N) : bool := (0x30 <=? c) && (c <=? 0x39).

Definition uriUnescaped (c : N) : bool :=
  isAlpha c || isDigit c
  || (c =? 0x2D) || (c =? 0x5F) || (c =? 0x2E) || (c =? 0x21) || (c =? 0x7E)
  || (c =? 0x2A) || (c =? 0x27) || (c =? 0x28) || (c =? 0x29).

(** Encode with an empty extraUnescaped set: an unescaped unit is copied,
    any other code point is written as the escapes of its UTF-8 octets, and
    an unpaired surrogate raises URIError. *)
Fixpoint encodeURIComponent (s : jsstring) : result jsstring :=
  match s with
  | [] => Ok []
  | c :: r =>
      if uriUnescaped c then fmap (cons c) (encodeURIComponent r)
      else if isLeadSurrogate c then
        match r with
        | d :: r' =>
            if isTrailSurrogate d then
              fmap (app (escapeOctets (utf8 (pairToCodePoint c d))))
                   (encodeURIComponent r')
            else Throw URIError
        | [] => Throw URIError
        end
      else if isTrailSurrogate c then Throw URIError
      else fmap (app (escapeOctets (utf8 c))) (encodeURIComponent r)
  end.

(** *** decodeURIComponent

    Decode with an empty preserveEscapeSet. An escape whose octet is below
    0x80 stands for that unit; an octet with two, three or four leading one
    bits starts a UTF-8 sequence whose continuation octets must each be an
    escape; anything else raises URIError. *)
Definition leadingOnes (b : N) : nat :=
  if b <? 0x80 then 0%nat
  else if b <? 0xC0 then 1%nat
  else if b <? 0xE0 then 2%nat
  else if b <? 0xF0 then 3%nat
  else if b <? 0xF8 then 4%nat
  else 5%nat.

Definition decoded (octets : list N) (r : result jsstring) : result jsstring :=
  match utf8Decode octets with
  | Some cp => fmap (app (utf16 cp)) r
  | None => Throw URIError
  end.

Fixpoint decodeURIComponent (s : jsstring) : result jsstring :=
  match s with
  | [] => Ok []
  | c :: r =>
      if c =? percent then
        match r with
        | h :: l :: r1 =>
            match hexOctet h l with
            | None => Throw URIError
            | Some b =>
                match leadingOnes b with
                | 0%nat => fmap (cons b) (decodeURIComponent r1)
                | 2%nat =>
                    match r1 with
                    | p2 :: h2 :: l2 :: r2 =>
                        match readEscape p2 h2 l2 with
                        | Some b2 => decoded [b; b2] (decodeURIComponent r2)
                        | None => Throw URIError
                        end
                    | _ => Throw URIError
                    end
                | 3%nat =>
                    match r1 with
                    | p2 :: h2 :: l2 :: p3 :: h3 :: l3 :: r3 =>
                        match readEscape p2 h2 l2, readEscape p3 h3 l3 with
                        | Some b2, Some b3 =>
                            decoded [b; b2; b3] (decodeURIComponent r3)
                        | _, _ => Throw URIError
                        end
                    | _ => Throw URIError
                    end
                | 4%nat =>
                    match r1 with
                    | p2 :: h2 :: l2 :: p3 :: h3 :: l3 :: p4 :: h4 :: l4 :: r4 =>
                        match readEscape p2 h2 l2, readEscape p3 h3 l3,
                              readEscape p4 h4 l4 with
                        | Some b2, Some b3, Some b4 =>
                            decoded [b; b2; b3; b4] (decodeURIComponent r4)
                        | _, _, _ => Throw URIError
                        end
                    | _ => Throw URIError
                    end
                | _ => Throw URIError
                end
            end
        | _ => Throw URIError
        end
      else fmap (cons c) (decodeURIComponent r)
  end.

(** *** String.prototype.split, replace and Array.prototype.join *)

(** [s.split(sep)] for a separator of one code unit. *)
Fixpoint split (sep : N) (s : jsstring) : list jsstring :=
  match s with
  | [] => [[]]
  | c :: r =>
      if c =? sep then [] :: split sep r
      else match split sep r with
           | piece :: pieces => (c :: piece) :: pieces
           | [] => [[c]]
           end
  end.

Fixpoint startsWith (prefix s : jsstring) : bool :=
  match prefix, s with
  | [], _ => true
  | p :: prefix', c :: s' => (p =? c) && startsWith prefix' s'
  | _ :: _, [] => false
  end.

(** [s.replace(/^prefix/, "")] for a literal prefix. *)
Definition removePrefix (prefix s : jsstring) : jsstring :=
  if startsWith prefix s then skipn (List.length prefix) s else s.

Fixpoint join (sep : jsstring) (l : list jsstring) : jsstring :=
  match l with
  | [] => []
  | [x] => x
  | x :: r => x ++ sep ++ join sep r
  end.

(** Whether a string holds a plus sign, the separator [runSmartSearch]
    splits on. *)
Definition hasPlus (s : jsstring) : bool := existsb (N.eqb 0x2B) s.

(** *** Numbers

    A Number value: NaN, an infinity, or the finite value
    [(-1)^negative * m * 2^e]. The doubles are NaN, the infinities and the
    finite values that have a form with [m < 2^53] and [-1074 <= e <= 971];
    a value may have several forms, and the two zeros differ by their sign.
    The comparisons and [Math.min] are exact on all of them. *)
Module Number.

Import QArith_base.
Local Close Scope Q_scope.
Local Open Scope Z_scope.

Inductive t :=
| NaN
| Infinity (negative : bool)
| Finite (negative : bool) (m : N) (e : Z).

(** The Number of an integer literal, of a counter and of a length. *)
Definition ofZ (z : Z) : t := Finite (z <? 0) (Z.abs_N z) 0.

Definition ofNat (n : nat) : t := Finite false (N.of_nat n) 0.

(** The mathematical value of a finite Number. *)
Definition value (negative : bool) (m : N) (e : Z) : Q :=
  Qmult (inject_Z (if negative then - Z.of_N m else Z.of_N m))
        (Qpower (2 # 1) e).

(** How two Numbers compare; not at all when one is NaN, and the two zeros
    are equal. *)
Definition compare (x y : t) : option comparison :=
  match x, y with
  | NaN, _ | _, NaN => None
  | Infinity s1, Infinity s2 =>
      Some (match s1, s2 with
            | true, false => Lt
            | false, true => Gt
            | _, _ => Eq
            end)
  | Infinity s, Finite _ _ _ => Some (if s then Lt else Gt)
  | Finite _ _ _, Infinity s => Some (if s then Gt else Lt)
  | Finite s1 m1 e1, Finite s2 m2 e2 =>
      Some (Qcompare (value s1 m1 e1) (value s2 m2 e2))
  end.

(** [x < y] and [x >= y]: false when one of them is NaN. *)
Definition ltb (x y : t) : bool :=
  match compare x y with
  | Some Lt => true
  | _ => false
  end.

Definition geb (x y : t) : bool :=
  match compare x y with
  | Some Gt | Some Eq => true
  | _ => false
  end.

Definition isNegative (x : t) : bool :=
  match x with
  | NaN => false
  | Infinity negative => negative
  | Finite negative _ _ => negative
  end.

(** [Math.min(x, y)]: NaN when one of them is NaN, and -0 is below +0. *)
Definition min (x y : t) : t :=
  match compare x y with
  | None => NaN
  | Some Lt => x
  | Some Gt => y
  | Some Eq => if isNegative x then x else y
  end.

(** **** Number::toString, radix 10 *)

(** The double nearest to [m * 2^e] for [m > 0], ties to the even mantissa:
    its mantissa [M < 2^53] and its exponent [E >= -1074], with
    [M >= 2^52] unless [E = -1074]; [None] when it is Infinity. *)
Definition roundDouble (m e : Z) : option (Z * Z) :=
  let E := Z.max (e + (Z.log2 m + 1) - 53) (-1074) in
  let M :=
    if E <=? e then m * 2 ^ (e - E)
    else
      let q := m / 2 ^ (E - e) in
      let r := m mod 2 ^ (E - e) in
      let half := 2 ^ (E - e - 1) in
      if r <? half then q
      else if half <? r then q + 1
      else if Z.even q then q else q + 1 in
  let (M, E) := if M =? 2 ^ 53 then (2 ^ 52, E + 1) else (M, E) in
  if 971 <? E then None else Some (M, E).

(** [s * 10^t] against [B * 2^F], both brought to integers. *)
Definition compareDecimal (s t B F : Z) : comparison :=
  (s * 10 ^ Z.max t 0 * 2 ^ Z.max (- F) 0
   ?= B * 2 ^ Z.max F 0 * 10 ^ Z.max (- t) 0).

(** Whether the double nearest to [s * 10^t] is [M * 2^E]: the decimal lies
    between the midpoints to the two neighbouring doubles, a midpoint itself
    going to the even mantissa. The bounds are counted in quarters of the
    unit [2^E]; the double below the power [2^52 * 2^E] is half as far. *)
Definition roundsTo (M E s t : Z) : bool :=
  let low := if (M =? 2 ^ 52) && (-1074 <? E) then 4 * M - 1 else 4 * M - 2 in
  let high := 4 * M + 2 in
  match compareDecimal s t low (E - 2) with
  | Gt => true
  | Eq => Z.even M
  | Lt => false
  end
  && match compareDecimal s t high (E - 2) with
     | Lt => true
     | Eq => Z.even M
     | Gt => false
     end.

(** The [n] of the algorithm for a shortest decimal that does not round up
    to a power of ten: [10^(n-1) <= M * 2^E < 10^n], found upwards from an
    estimate by the binary logarithm that is too low, by four at most. *)
Fixpoint pointFrom (fuel : nat) (M E n : Z) : Z :=
  match fuel with
  | O => n
  | S fuel' =>
      match compareDecimal 1 n M E with
      | Gt => n
      | _ => pointFrom fuel' M E (n + 1)
      end
  end.

Definition point (M E : Z) : Z :=
  pointFrom 8 M E ((Z.log2 M + E) * 30103 / 100000 - 2).

(** The decimal of [k] digits that rounds to [M * 2^E], if there is one: of
    the two decimals of [k] digits around the value the one that rounds to
    it, the nearer of the two when both do, the even one when they are
    equally near. It comes with its [n]; the decimal [10^k] is written with
    the digits of [10^(k-1)] and the next [n]. *)
Definition candidate (M E n k : Z) : option (Z * Z) :=
  let t := n - k in
  let p := M * 2 ^ Z.max E 0 * 10 ^ Z.max (- t) 0 in
  let q := 2 ^ Z.max (- E) 0 * 10 ^ Z.max t 0 in
  let below := p / q in
  let above := below + 1 in
  let r := p mod q in
  let s :=
    match roundsTo M E below t, roundsTo M E above t with
    | true, true =>
        match (2 * r ?= q) with
        | Lt => Some below
        | Gt => Some above
        | Eq => Some (if Z.even below then below else above)
        end
    | true, false => Some below
    | false, true => Some above
    | false, false => None
    end in
  match s with
  | Some s => Some (if s =? 10 ^ k then (10 ^ (k - 1), n + 1) else (s, n))
  | None => None
  end.

(** The integers [s] and [n] of the algorithm: [k], the number of digits of
    [s], is as small as possible; seventeen digits tell any two doubles
    apart. *)
Fixpoint shortestFrom (fuel : nat) (M E n k : Z) : Z * Z :=
  match fuel with
  | O => (M, 0)
  | S fuel' =>
      match candidate M E n k with
      | Some sn => sn
      | None => shortestFrom fuel' M E n (k + 1)
      end
  end.

Definition shortest (M E : Z) : Z * Z := shortestFrom 17 M E (point M E) 1.

Definition digits (s : Z) : jsstring :=
  lit (NilZero.string_of_uint (N.to_uint (Z.to_N s))).

Definition zeros (n : Z) : jsstring := repeat 0x30%N (Z.to_nat n).

(** The digits [ds] of [s] laid out with the decimal point after the
    [n]-th of them: plain for [n] up to 21 and down to -5, with an exponent
    otherwise. *)
Definition layout (ds : jsstring) (n : Z) : jsstring :=
  let k := Z.of_nat (List.length ds) in
  if (k <=? n) && (n <=? 21) then ds ++ zeros (n - k)
  else if (0 <? n) && (n <=? 21)
  then firstn (Z.to_nat n) ds ++ lit "." ++ skipn (Z.to_nat n) ds
  else if (-6 <? n) && (n <=? 0) then lit "0." ++ zeros (- n) ++ ds
  else
    let e := n - 1 in
    let exponent := (if e <? 0 then lit "-" else lit "+") ++ digits (Z.abs e) in
    match ds with
    | [] => []
    | [d] => [d] ++ lit "e" ++ exponent
    | d :: rest => [d] ++ lit "." ++ rest ++ lit "e" ++ exponent
    end.

(** The text of a Number; a finite one is written as the double nearest to
    it. *)
Definition toString (x : t) : jsstring :=
  match x with
  | NaN => lit "NaN"
  | Infinity negative => if negative then lit "-Infinity" else lit "Infinity"
  | Finite negative m e =>
      match m with
      | N0 => lit "0"
      | Npos _ =>
          match roundDouble (Z.of_N m) e with
          | None => if negative then lit "-Infinity" else lit "Infinity"
          | Some (M, E) =>
              if M =? 0 then lit "0"
              else
                let (s, n) := shortest M E in
                (if negative then lit "-" else []) ++ layout (digits s) n
          end
      end
  end.

End Number.

(** [String(n)]. *)
Definition numberToString (n : Number.t) : jsstring := Number.toString n.

(** *** URLSearchParams *)

Definition URLSearchParams := list (jsstring * jsstring).

Definition append (name value : jsstring) (params : URLSearchParams)
  : URLSearchParams :=
  params ++ [(name, value)].

Fixpoint setFirst (name value : jsstring) (params : URLSearchParams)
  : URLSearchParams :=
  match params with
  | [] => []
  | (n, v) :: r =>
      if eqb_string n name
      then (n, value) :: filter (fun p => negb (eqb_string (fst p) name)) r
      else (n, v) :: setFirst name value r
  end.

(** [params.set(name, value)]: the first pair of that name takes the value
    and the others are removed; with no such pair one is appended. *)
Definition set (name value : jsstring) (params : URLSearchParams)
  : URLSearchParams :=
  if existsb (fun p => eqb_string (fst p) name) params
  then setFirst name value params
  else append name value params.

(** The scalar values of a string: an unpaired surrogate becomes U+FFFD. *)
Fixpoint toScalarValues (s : jsstring) : list N :=
  match s with
  | [] => []
  | c :: r =>
      if isLeadSurrogate c then
        match r with
        | d :: r' =>
            if isTrailSurrogate d
            then pairToCodePoint c d :: toScalarValues r'
            else 0xFFFD :: toScalarValues r
        | [] => [0xFFFD]
        end
      else if isTrailSurrogate c then 0xFFFD :: toScalarValues r
      else c :: toScalarValues r
  end.

(** The application/x-www-form-urlencoded byte serializer. *)
Definition formOctet (b : N) : jsstring :=
  if b =? 0x20 then [0x2B]
  else if isAlpha b || isDigit b
          || (b =? 0x2A) || (b =? 0x2D) || (b =? 0x2E) || (b =? 0x5F)
  then [b]
  else escapeOctet b.

Definition formEncode (s : jsstring) : jsstring :=
  flat_map formOctet (flat_map utf8 (toScalarValues s)).

Definition formPair (p : jsstring * jsstring) : jsstring :=
  formEncode (fst p) ++ lit "=" ++ formEncode (snd p).

(** [params.toString()]. *)
Definition toString (params : URLSearchParams) : jsstring :=
  join (lit "&") (List.map formPair params).

End JS.

(** ** src/lib/resourceSearch.ts *)

Module ResourceSearch.

Import JS.
Local Open Scope result_scope.

Record ResourceMapEntry := {
  slugs : list jsstring;     (* preferred subject slugs to try with subject=... *)
  keywords : list jsstring;  (* keywords used in full-text q= fallback *)
}.

Definition entry (ss ks : list string) : ResourceMapEntry :=
  {| slugs := List.map lit ss; keywords := List.map lit ks |}.

(** The own properties of the object literal, in source order. *)
Definition RESOURCE_MAP : list (jsstring * ResourceMapEntry) :=
  [ (lit "study_guide",
     entry ["study guides"; "study-guides"]
           ["study guide"; "revision guide"; "exam guide"; "study notes"]);
    (lit "textbook",
     entry ["textbooks"; "text-book"; "text books"]
           ["textbook"; "coursebook"; "introduction to"; "for students"]);
    (lit "lecture_notes",
     entry ["lecture notes"; "lecture-notes"]
           ["lecture notes"; "class notes"; "course notes"; "lecture"]);
    (lit "past_papers",
     entry ["past papers"; "exam papers"; "previous year papers"]
           ["past papers"; "exam paper"; "question paper";
            "previous year paper"]);
    (lit "problem_sets",
     entry ["problem sets"; "exercise problems"]
           ["problem set"; "exercise problems"; "worked problems";
            "practice problems"]);
    (lit "reference",
     entry ["reference"; "handbooks"; "dictionaries"; "encyclopedias"]
           ["reference"; "handbook"; "dictionary"; "encyclopedia"]);
    (lit "open_textbook",
     entry ["open textbooks"; "open-textbooks"; "open educational resources"]
           ["open textbook"; "open educational resources";
            "open access textbook"]);
    (lit "case_studies",
     entry ["case studies"; "case-studies"]
           ["case study"; "case studies"; "business case study";
            "clinical case"]) ]%string.

(** [table[key]]: the entry of that name, or [None] for [undefined]. A key
    the object only inherits ([toString], [constructor], ...) yields a value
    with no [slugs]; iterating it raises the same TypeError as reading
    [slugs] of [undefined], so both are [None] here. *)
Fixpoint lookup (table : list (jsstring * ResourceMapEntry)) (key : jsstring)
  : option ResourceMapEntry :=
  match table with
  | [] => None
  | (k, e) :: rest => if eqb_string k key then Some e else lookup rest key
  end.

Inductive AttemptType := Subject | Keyword.

Module Attempt.
Record t := mk {
  type : AttemptType;
  q : jsstring;
  description : jsstring;
}.
End Attempt.

(** Whether [if (subject)] takes its first branch: a defined, non-empty
    string. *)
Definition truthy (subject : option jsstring) : option jsstring :=
  match subject with
  | Some (c :: s) => Some (c :: s)
  | _ => None
  end.

(** The object pushed for a slug combined with the subject. *)
Definition combinedAttempt (slug subject eslug esubject : jsstring) : Attempt.t :=
  Attempt.mk Subject
    (lit "subject:" ++ eslug ++ lit "+subject:" ++ esubject)
    (lit "subject:" ++ slug ++ lit " AND subject:" ++ subject).

(** The object pushed for a slug alone. *)
Definition slugAttempt (slug eslug : jsstring) : Attempt.t :=
  Attempt.mk Subject (lit "subject:" ++ eslug) (lit "subject:" ++ slug).

Definition quoted (k : jsstring) : jsstring := [0x22%N] ++ k ++ [0x22%N].

Definition keywordPhrase (map : ResourceMapEntry) : jsstring :=
  join (lit " OR ") (List.map quoted (keywords map)).

Definition keywordSubjectAttempt (map : ResourceMapEntry) (subject equery : jsstring)
  : Attempt.t :=
  Attempt.mk Keyword equery
    (lit "q: (" ++ join (lit " OR ") (keywords map) ++ lit ") " ++ subject).

Definition keywordAttempt (map : ResourceMapEntry) (equery : jsstring) : Attempt.t :=
  Attempt.mk Keyword equery
    (lit "q: (" ++ join (lit " OR ") (keywords map) ++ lit ")").

(** The [for (const slug of map.slugs)] loop; [attempts.push(x)] is
    [attempts ++ [x]]. *)
Fixpoint slugLoop (subject : option jsstring) (slugs : list jsstring)
  (attempts : list Attempt.t) : result (list Attempt.t) :=
  match slugs with
  | [] => Ok attempts
  | slug :: rest =>
      attempts1 <-
        match truthy subject with
        | Some s =>
            eslug <- encodeURIComponent slug ;;
            esubject <- encodeURIComponent s ;;
            Ok (attempts ++ [combinedAttempt slug s eslug esubject])
        | None => Ok attempts
        end ;;
      eslug <- encodeURIComponent slug ;;
      slugLoop subject rest (attempts1 ++ [slugAttempt slug eslug])
  end.

(** *** Vocabulary of the planner's statements *)

(** An entry whose slugs and keywords are non-empty lists of ASCII strings. *)
Definition plainEntry (m : ResourceMapEntry) : bool :=
  forallb isPlain (slugs m) && forallb isPlain (keywords m)
  && negb (Nat.eqb (List.length (slugs m)) 0)
  && negb (Nat.eqb (List.length (keywords m)) 0).

(** The encoding of a string that has one. *)
Definition encoded (s : jsstring) : jsstring :=
  match encodeURIComponent s with
  | Ok e => e
  | Throw _ => []
  end.

(** The attempt list of an entry and a subject token, written out. *)
Definition planFor (m : ResourceMapEntry) (token : option jsstring)
  : list Attempt.t :=
  match token with
  | Some s =>
      flat_map (fun slug =>
                  [combinedAttempt slug s (encoded slug) (encoded s);
                   slugAttempt slug (encoded slug)])
               (slugs m)
      ++ [keywordSubjectAttempt m s (encoded (keywordPhrase m ++ lit " " ++ s));
          keywordAttempt m (encoded (keywordPhrase m))]
  | None =>
      List.map (fun slug => slugAttempt slug (encoded slug)) (slugs m)
      ++ [keywordAttempt m (encoded (keywordPhrase m))]
  end.

(** *** Effects

    What an invocation does to the outside world, in order: the requests it
    issues and the pacing delays it waits for. *)
Inductive Event :=
| EvFetch (url : jsstring)
| EvSleep (ms : Z).

(** An [async] computation: it extends the trace and either returns or
    rejects. *)
Definition IO (A : Type) : Type := list Event -> result A * list Event.

Definition ret {A : Type} (a : A) : IO A := fun trace => (Ok a, trace).

Definition lift {A : Type} (r : result A) : IO A := fun trace => (r, trace).

Definition bindIO {A B : Type} (m : IO A) (k : A -> IO B) : IO B :=
  fun trace =>
    match m trace with
    | (Ok a, trace') => k a trace'
    | (Throw e, trace') => (Throw e, trace')
    end.

Declare Scope io_scope.
Delimit Scope io_scope with io.
Notation "x <- c ;; k" := (bindIO c (fun x => k))
  (at level 61, c at next level, right associativity) : io_scope.
Notation "c ;; k" := (bindIO c (fun _ => k))
  (at level 61, right associativity) : io_scope.

(** [await new Promise((r) => setTimeout(r, ms))]. *)
Definition sleep (ms : Z) : IO unit :=
  fun trace => (Ok tt, trace ++ [EvSleep ms]).

(** The requests of a trace, oldest first. *)
Fixpoint requests (trace : list Event) : list jsstring :=
  match trace with
  | [] => []
  | EvFetch url :: rest => url :: requests rest
  | EvSleep _ :: rest => requests rest
  end.

Module Outcome.
Record t (Doc : Type) := mk {
  docs : list Doc;
  attempt : Number.t;
  description : jsstring;
  url : option jsstring;   (* [None] is [undefined] *)
}.
Arguments mk {Doc} docs attempt description url.
Arguments docs {Doc} t.
Arguments attempt {Doc} t.
Arguments description {Doc} t.
Arguments url {Doc} t.
End Outcome.

(** [a ?? b]. *)
Definition nullish {A : Type} (a : option A) (b : A) : A :=
  match a with
  | Some v => v
  | None => b
  end.

Section Retriever.

(** The raw document records of the search service ([any] in the source). *)
Variable Doc : Type.

Record SearchOptions := {
  subjectSlug : option jsstring;            (* UI subject selection *)
  limit : option Number.t;                  (* results to fetch per attempt *)
  minResults : option Number.t;             (* acceptable result count *)
  maxAttempts : option Number.t;            (* safety cap on attempts *)
  clientSideFilter : option (Doc -> bool);  (* optional heuristic filter *)
}.

(** Build an ordered list of query strings to try for the given resource
    type and subject. *)
Definition buildQueryAttempts (resourceType : jsstring) (opts : SearchOptions)
  : result (list Attempt.t) :=
  let map := lookup RESOURCE_MAP resourceType in
  let subject := option_map trim (subjectSlug opts) in
  match map with
  | None => Throw TypeError
  | Some map =>
      attempts <- slugLoop subject (slugs map) [] ;;
      match truthy subject with
      | Some s =>
          q1 <- encodeURIComponent (keywordPhrase map ++ lit " " ++ s) ;;
          q2 <- encodeURIComponent (keywordPhrase map) ;;
          Ok (attempts ++ [keywordSubjectAttempt map s q1]
                       ++ [keywordAttempt map q2])
      | None =>
          q1 <- encodeURIComponent (keywordPhrase map) ;;
          Ok (attempts ++ [keywordAttempt map q1])
      end
  end.

(** The value of [subject] where [if (subject)] holds: the trimmed subject
    when it is not empty. *)
Definition subjectToken (opts : SearchOptions) : option jsstring :=
  truthy (option_map trim (subjectSlug opts)).

(** The subject, when given, is a string value (the invariant of the
    representation), and it has no unpaired surrogate. *)
Definition stringSubject (opts : SearchOptions) : bool :=
  match subjectSlug opts with
  | Some s => isString s
  | None => true
  end.

Definition wellFormedSubject (opts : SearchOptions) : bool :=
  match subjectSlug opts with
  | Some s => isWellFormed s
  | None => true
  end.

(** *** The search service

    What [await res.json()] yields, as far as the code looks at it. *)
Inductive Json :=
| JsonError                                (* not JSON: [json()] rejects *)
| JsonNull                                 (* [null]: reading [data.docs] raises *)
| JsonValue (docs : option (list Doc)).    (* [data.docs] when it is an array *)

Record Response := {
  ok : bool;
  json : Json;
}.

Inductive Rejection := NetworkError | AbortError.

Inductive FetchResult :=
| Fulfilled (res : Response)
| Rejected (reason : Rejection).

(** The response of the service to the n-th request of the invocation. *)
Variable net : nat -> jsstring -> FetchResult.

(** Whether the caller's AbortController has been aborted by the time the
    n-th request would settle. *)
Variable aborted : nat -> bool.

(** [await fetch(url)] and [await fetch(url, { signal })]: only a request
    that was given the signal is rejected when the controller aborts. *)
Definition fetch (url : jsstring) (signal : bool) : IO FetchResult :=
  fun trace =>
    let n := List.length (requests trace) in
    (Ok (if signal && aborted n then Rejected AbortError else net n url),
     trace ++ [EvFetch url]).

(** The URL of a subject-filter attempt whose query decodes to [decodedq]:
    the query is split at the plus signs, each part loses a leading
    "subject:" and becomes one [subject] parameter, and the limit is set. *)
Definition subjectUrl (limit : Number.t) (decodedq : jsstring) : jsstring :=
  let parts :=
    List.map (removePrefix (lit "subject:")) (split 0x2B%N decodedq) in
  let params :=
    fold_left (fun ps p => append (lit "subject") p ps) parts [] in
  let params := set (lit "limit") (numberToString limit) params in
  lit "https://openlibrary.org/search.json?" ++ toString params.

(** The URL of a keyword attempt: [q] and the limit. *)
Definition keywordUrl (limit : Number.t) (decodedq : jsstring) : jsstring :=
  let params := set (lit "q") decodedq [] in
  let params := set (lit "limit") (numberToString limit) params in
  lit "https://openlibrary.org/search.json?" ++ toString params.

(** The request URL of an attempt (the first half of the loop body);
    [decodeURIComponent(a.q)] stands outside the [try] block. *)
Definition requestUrl (limit : Number.t) (a : Attempt.t) : result jsstring :=
  match Attempt.type a with
  | Subject =>
      (* a.q holds encoded "subject:slug" pairs joined by + *)
      decodedq <- decodeURIComponent (Attempt.q a) ;;
      Ok (subjectUrl limit decodedq)
  | Keyword =>
      decodedq <- decodeURIComponent (Attempt.q a) ;;
      Ok (keywordUrl limit decodedq)
  end.

(** The documents the [try] block reaches [lastResults = docs] with, or
    [None] when it leaves early: [!res.ok], or an exception caught by
    [catch] (a rejected fetch, a body that is not JSON, [null.docs]). *)
Definition readDocs (filter : option (Doc -> bool)) (r : FetchResult)
  : option (list Doc) :=
  match r with
  | Rejected _ => None
  | Fulfilled res =>
      if negb (ok res) then None
      else match json res with
           | JsonError => None
           | JsonNull => None
           | JsonValue data_docs =>
               let docs := nullish data_docs [] in
               Some (match filter with
                     | Some f => List.filter f docs
                     | None => docs
                     end)
           end
  end.

(** A response the [try] block does not survive: a rejected fetch, a
    non-success status, a body that is not JSON or is [null]. *)
Definition failed (r : FetchResult) : bool :=
  match r with
  | Rejected _ => true
  | Fulfilled res =>
      negb (ok res)
      || match json res with
         | JsonError => true
         | JsonNull => true
         | JsonValue _ => false
         end
  end.

Section Loop.

Variable attempts : list Attempt.t.
Variable limit_ : Number.t.
Variable minResults_ : Number.t.
Variable maxAttempts_ : Number.t.
Variable filter_ : option (Doc -> bool).

Local Open Scope io_scope.

(** The [for] loop at index [i], followed by the fallback return. [n]
    bounds the evaluations of the guard [i < maxAttempts] that are left;
    [runSmartSearch] allows one more than the attempts it has, and its
    [maxAttempts] is at most their number, so that the loop ends by its
    guard ([RetrieverFacts.attemptLoop_fuel] and [executed_le]). *)
Fixpoint attemptLoop (n i : nat) (lastResults : list Doc)
  : IO (Outcome.t Doc) :=
  match n with
  | O => ret (Outcome.mk lastResults maxAttempts_ (lit "fallback") None)
  | S n' =>
      if Number.ltb (Number.ofNat i) maxAttempts_ then
        a <- lift (match nth_error attempts i with
                   | Some a => Ok a
                   | None => Throw TypeError
                   end) ;;
        url <- lift (requestUrl limit_ a) ;;
        res <- fetch url false ;;
        match readDocs filter_ res with
        | None => attemptLoop n' (S i) []
        | Some docs =>
            if Number.geb (Number.ofNat (List.length docs)) minResults_ then
              ret (Outcome.mk docs (Number.ofNat (i + 1)) (Attempt.description a)
                              (Some url))
            else
              sleep (120 + Z.of_nat i * 30) ;;
              attemptLoop n' (S i) docs
        end
      else
        (* fallback: return whatever the last attempt produced *)
        ret (Outcome.mk lastResults maxAttempts_ (lit "fallback") None)
  end.

(** Vocabulary of the loop's statements: the request URL of the attempt at
    index [i], what that attempt reads when it is answered as the i-th
    request, whether it is accepted, [lastResults] after [n] further
    iterations from index [i] none of which is accepted, and the number of
    indices from [i] on, [n] at most, up to the first at which the guard
    fails. *)
Definition urlAt (i : nat) : jsstring :=
  match nth_error attempts i with
  | Some a => match requestUrl limit_ a with
              | Ok u => u
              | Throw _ => []
              end
  | None => []
  end.

Definition docsAt (i : nat) : option (list Doc) :=
  readDocs filter_ (net i (urlAt i)).

Definition acceptedAt (i : nat) : bool :=
  match docsAt i with
  | Some d => Number.geb (Number.ofNat (List.length d)) minResults_
  | None => false
  end.

Definition lastSeen (n i : nat) (lastResults : list Doc) : list Doc :=
  match n with
  | O => lastResults
  | S n' => nullish (docsAt (i + n')) []
  end.

Fixpoint iterations (n i : nat) : nat :=
  match n with
  | O => O
  | S n' =>
      if Number.ltb (Number.ofNat i) maxAttempts_
      then S (iterations n' (S i))
      else O
  end.

End Loop.

(** [opts.limit ?? 20], [opts.minResults ?? 6] and
    [Math.min(opts.maxAttempts ?? attempts.length, attempts.length)]. *)
Definition limitOf (opts : SearchOptions) : Number.t :=
  nullish (limit opts) (Number.ofZ 20).

Definition minResultsOf (opts : SearchOptions) : Number.t :=
  nullish (minResults opts) (Number.ofZ 6).

Definition maxAttemptsOf (opts : SearchOptions) (attempts : list Attempt.t)
  : Number.t :=
  Number.min (nullish (maxAttempts opts) (Number.ofNat (List.length attempts)))
             (Number.ofNat (List.length attempts)).

(** Run the smart search: try queries in order and return the first result
    set meeting minResults; fall back to the last attempt's results. *)
Definition runSmartSearch (resourceType : jsstring) (opts : SearchOptions)
  : IO (Outcome.t Doc) :=
  (attempts <- lift (buildQueryAttempts resourceType opts) ;;
   let limit := limitOf opts in
   let minResults := minResultsOf opts in
   let maxAttempts := maxAttemptsOf opts attempts in
   attemptLoop attempts limit minResults maxAttempts (clientSideFilter opts)
               (S (List.length attempts)) 0 [])%io.

End Retriever.

Arguments JsonError {Doc}.
Arguments JsonNull {Doc}.
Arguments JsonValue {Doc} docs.
Arguments Fulfilled {Doc} res.
Arguments Rejected {Doc} reason.

End ResourceSearch.

(** ** src/components/SearchBar.tsx

    [runSearch] as far as its awaits: which request function it calls and
    whether the caller's abort signal is handed to it. The mapping of the
    documents to books, the client-side filters, the sort and [setBooks]
    follow in [SearchResults]. *)

Module SearchBar.

Import JS ResourceSearch.

Record Filters := {
  language : option jsstring;
  category : option jsstring;
  resourceType : option jsstring;
}.

(** [buildSearchUrl]: [q] is always set; [language] and the trimmed
    [category] only when they are not empty. *)
Definition buildSearchUrl (query : jsstring) (filters : Filters) : jsstring :=
  let params := set (lit "q") query [] in
  let params :=
    match truthy (language filters) with
    | Some l => set (lit "language") l params
    | None => params
    end in
  let params :=
    match truthy (category filters) with
    | Some c =>
        match trim c with
        | [] => params
        | t => set (lit "subject") t params
        end
    | None => params
    end in
  let params := set (lit "limit") (lit "80") params in
  lit "https://openlibrary.org/search.json" ++ lit "?" ++ toString params.

Section RunSearch.

Variable Doc : Type.
Variable net : nat -> jsstring -> FetchResult Doc.
Variable aborted : nat -> bool.

(** What [runSearch] holds after its await. *)
Inductive Awaited :=
| Smart (res : Outcome.t Doc)        (* [await runSmartSearch(...)] *)
| Plain (res : FetchResult Doc).     (* [await fetch(url, { signal })] *)

(** The options [runSearch] passes to [runSmartSearch]. *)
Definition smartOptions (filters : Filters) : SearchOptions Doc :=
  {| subjectSlug := category filters;
     limit := Some (Number.ofZ 40);
     minResults := Some (Number.ofZ 6);
     maxAttempts := None;
     clientSideFilter := None |}.

Definition runSearch (final : jsstring) (filters : Filters) : IO Awaited :=
  match truthy (resourceType filters) with
  | Some rt =>
      bindIO (runSmartSearch net aborted rt (smartOptions filters))
             (fun res => ret (Smart res))
  | None =>
      bindIO (fetch net aborted (buildSearchUrl final filters) true)
             (fun res => ret (Plain res))
  end.

End RunSearch.

End SearchBar.

(** ** Concrete scenarios *)

Module Scenario.

Import JS ResourceSearch.

(** The fields of a document record the scenarios look at. *)
Record RawDoc := {
  key : nat;
  has_fulltext : bool;
}.

(** [n] documents, with or without the full-text flag. *)
Definition docsOf (flag : bool) (n : nat) : list RawDoc :=
  List.map (fun k => {| key := k; has_fulltext := flag |}) (seq 0 n).

Definition found (docs : list RawDoc) : FetchResult RawDoc :=
  Fulfilled {| ok := true; json := JsonValue (Some docs) |}.

Definition serverError : FetchResult RawDoc :=
  Fulfilled {| ok := false; json := JsonError |}.

(** Options that set nothing but the subject. *)
Definition subjectOnly (subject : option jsstring) : SearchOptions RawDoc :=
  {| subjectSlug := subject;
     limit := None;
     minResults := None;
     maxAttempts := None;
     clientSideFilter := None |}.

(** A service that answers the first request with eight documents of which
    four have full text, and every later one with seven full-text
    documents. *)
Definition mixedThenFull (n : nat) (_ : jsstring) : FetchResult RawDoc :=
  match n with
  | O => found (docsOf true 4 ++ docsOf false 4)
  | S _ => found (docsOf true 7)
  end.

Definition fullTextOnly : SearchOptions RawDoc :=
  {| subjectSlug := None;
     limit := None;
     minResults := None;
     maxAttempts := None;
     clientSideFilter := Some has_fulltext |}.

(** A service that never finds anything. *)
Definition nothingFound (_ : nat) (_ : jsstring) : FetchResult RawDoc :=
  found [].

(** A service whose first answer is an error status and which then finds
    nothing. *)
Definition errorThenNothing (n : nat) (_ : jsstring) : FetchResult RawDoc :=
  match n with
  | O => serverError
  | S _ => found []
  end.

(** A service that is down. *)
Definition unreachable (_ : nat) (_ : jsstring) : FetchResult RawDoc :=
  Rejected NetworkError.

(** A service that finds six documents at once. *)
Definition sixAtOnce (_ : nat) (_ : jsstring) : FetchResult RawDoc :=
  found (docsOf true 6).

(** The caller's controller: never aborted, or aborted from the start. *)
Definition neverAborted (_ : nat) : bool := false.
Definition abortedAtOnce (_ : nat) : bool := true.

(** Two attempts at most; two and a half; minus three. *)
Definition twoAttempts : SearchOptions RawDoc :=
  {| subjectSlug := None;
     limit := None;
     minResults := None;
     maxAttempts := Some (Number.ofZ 2);
     clientSideFilter := None |}.

Definition twoAndAHalf : SearchOptions RawDoc :=
  {| subjectSlug := None;
     limit := None;
     minResults := None;
     maxAttempts := Some (Number.Finite false 5 (-1));
     clientSideFilter := None |}.

Definition noAttempts : SearchOptions RawDoc :=
  {| subjectSlug := None;
     limit := None;
     minResults := None;
     maxAttempts := Some (Number.ofZ (-3));
     clientSideFilter := None |}.


(** The plan of a scenario. *)
Definition planOf (rt : jsstring) (opts : SearchOptions RawDoc) : list Attempt.t :=
  match buildQueryAttempts rt opts with
  | Ok plan => plan
  | Throw _ => []
  end.

(** The subjects of the scenarios: a word, and a string that is one unpaired
    lead surrogate. *)
Definition science : SearchOptions RawDoc := subjectOnly (Some (lit "science")).

Definition loneSurrogate : SearchOptions RawDoc := subjectOnly (Some [0xD800%N]).

(** The profile of [study_guide]. *)
Definition studyGuideEntry : ResourceMapEntry :=
  entry ["study guides"; "study-guides"]%string
        ["study guide"; "revision guide"; "exam guide"; "study notes"]%string.

(** Filters of the search bar: a resource type selected, or none. *)
Definition studyGuides : SearchBar.Filters :=
  {| SearchBar.language := None;
     SearchBar.category := None;
     SearchBar.resourceType := Some (lit "study_guide") |}.

Definition noResourceType : SearchBar.Filters :=
  {| SearchBar.language := None;
     SearchBar.category := None;
     SearchBar.resourceType := None |}.

(** Three attempts at most; a service whose first two answers hold three
    documents and whose third holds ten. *)
Definition threeAttempts : SearchOptions RawDoc :=
  {| subjectSlug := None;
     limit := None;
     minResults := Some (Number.ofZ 6);
     maxAttempts := Some (Number.ofZ 3);
     clientSideFilter := None |}.

Definition tenAtThird (n : nat) (_ : jsstring) : FetchResult RawDoc :=
  match n with
  | 0%nat | 1%nat => found (docsOf true 3)
  | _ => found (docsOf true 10)
  end.

End Scenario.

(** ** More built-ins: numbers, Array.prototype.sort, includes and Set *)

Module JSArray.

Import JS.

(** The [number]s a year comparator yields: the difference of two integers,
    or of two values one of which is [Number.POSITIVE_INFINITY]. *)
Inductive number :=
| Finite (z : Z)
| PosInfinity
| NegInfinity
| NaN.

(** [a - b]. *)
Definition minus (a b : number) : number :=
  match a, b with
  | NaN, _ | _, NaN => NaN
  | Finite x, Finite y => Finite (x - y)
  | Finite _, PosInfinity => NegInfinity
  | Finite _, NegInfinity => PosInfinity
  | PosInfinity, PosInfinity => NaN
  | PosInfinity, _ => PosInfinity
  | NegInfinity, NegInfinity => NaN
  | NegInfinity, _ => NegInfinity
  end.

(** SortCompare for defined elements: the value of the comparator, +0 when
    it is NaN. Only its sign is looked at, and that is what is kept of an
    infinite value. *)
Definition sortCompare {A : Type} (comparefn : A -> A -> number) (x y : A) : Z :=
  match comparefn x y with
  | Finite z => z
  | PosInfinity => 1
  | NegInfinity => -1
  | NaN => 0
  end%Z.

(** [x] put into a sorted list, before the first element it does not have
    to follow. *)
Fixpoint insertSorted {A : Type} (comparefn : A -> A -> number) (x : A)
  (l : list A) : list A :=
  match l with
  | [] => [x]
  | y :: r =>
      if (0 <? sortCompare comparefn x y)%Z
      then y :: insertSorted comparefn x r
      else x :: l
  end.

(** [array.sort(comparefn)] for a consistent comparator: the sort is stable,
    so the result is fixed by the comparator and not by the algorithm; it is
    computed here by insertion from the right. *)
Fixpoint sort {A : Type} (comparefn : A -> A -> number) (l : list A) : list A :=
  match l with
  | [] => []
  | x :: r => insertSorted comparefn x (sort comparefn r)
  end.

(** [s.includes(search)]. *)
Fixpoint includes (s search : jsstring) : bool :=
  startsWith search s
  || match s with
     | [] => false
     | _ :: r => includes r search
     end.

(** [set.add(x)] on the insertion-ordered elements of a Set of strings. *)
Definition add (x : jsstring) (elements : list jsstring) : list jsstring :=
  if existsb (eqb_string x) elements then elements else elements ++ [x].

(** [Array.from(new Set(list))]. *)
Definition fromSet (l : list jsstring) : list jsstring :=
  fold_left (fun elements x => add x elements) l [].

End JSArray.

(** ** src/types.ts and the documents of the search service *)

(** A document of a search response: the fields [mapDocsToBooks] and the
    suggestions read ([any] in the source), typed as the [Book] interface
    types the fields they are copied to; each may be absent. The year and
    the cover number are integers, as the service sends them. *)
Module Doc.
Import JS.
Record t := mk {
  key : option jsstring;
  cover_edition_key : option jsstring;
  title : option jsstring;
  author_name : option (list jsstring);
  first_publish_year : option Z;
  cover_i : option Z;
  subject : option (list jsstring);
  subject_facet : option (list jsstring);
  isbn : option (list jsstring);
  publisher : option (list jsstring);
  edition_key : option (list jsstring);
  has_fulltext : option bool;
}.
End Doc.

(** [interface Book]; [title] is copied from a document and may be absent
    as it may be there. *)
Module Book.
Import JS.
Record t := mk {
  key : jsstring;
  title : option jsstring;
  author_name : option (list jsstring);
  first_publish_year : option Z;
  cover_i : option Z;
  subject : option (list jsstring);
  isbn : option (list jsstring);
  publisher : option (list jsstring);
  edition_key : option (list jsstring);
  has_fulltext : option bool;
}.
End Book.

(** ** src/components/SearchBar.tsx: the suggestions, the books shown and
    the keyboard

    The rest of the component: the request and the [then] callback of the
    suggestions effect, [mapDocsToBooks], the whole of [runSearch] as far as
    [setBooks] and [setLoading] go (it also clears the suggestions when it
    succeeds), and [onKeyDown]. [String.prototype.toLowerCase] is a
    parameter: the Unicode case mappings are not part of the model. *)

Module SearchResults.

Import JS ResourceSearch JSArray.
Local Open Scope result_scope.

Record Filters := {
  sortByYear : option jsstring;     (* "newest" | "oldest" | "" *)
  language : option jsstring;
  category : option jsstring;
  format : option jsstring;         (* "ebook" | "print" | "" *)
  resourceType : option jsstring;
}.

(** The filters the requests depend on. *)
Definition requestFilters (filters : Filters) : SearchBar.Filters :=
  {| SearchBar.language := language filters;
     SearchBar.category := category filters;
     SearchBar.resourceType := resourceType filters |}.

(** [value === "literal"]. *)
Definition isLiteral (value : option jsstring) (literal : string) : bool :=
  match value with
  | Some v => eqb_string v (lit literal)
  | None => false
  end.

(** Whether an optional flag is truthy. *)
Definition flag (b : option bool) : bool := nullish b false.

(** *** The suggestions effect *)

(** The URL of the suggestions request. *)
Definition suggestionsUrl (debounced : jsstring) : result jsstring :=
  etitle <- encodeURIComponent debounced ;;
  Ok (lit "https://openlibrary.org/search.json?title=" ++ etitle
      ++ lit "&limit=8").

(** [docs.slice(0, 6).map((d) => d.title).filter(Boolean)]. *)
Definition titles (docs : list Doc.t) : list jsstring :=
  flat_map (fun d => match truthy (Doc.title d) with
                     | Some t => [t]
                     | None => []
                     end)
           (firstn 6 docs).

Record Suggest := {
  suggestions : list jsstring;
  showSuggestions : bool;
}.

(** The second [then] callback, for a response whose [docs] is an array. *)
Definition onSuggestions (docs : list Doc.t) (state : Suggest) : Suggest :=
  let list := titles docs in
  {| suggestions := fromSet list;
     showSuggestions :=
       if negb (Nat.eqb (List.length list) 0) then true
       else showSuggestions state |}.

(** Whether the effect issues a request: [debounced.trim()] is not empty. *)
Definition suggests (debounced : jsstring) : bool :=
  match trim debounced with
  | [] => false
  | _ :: _ => true
  end.

(** *** mapDocsToBooks *)

(** The key of a book; in the template literal the year is written as
    [String] writes the Number of that integer. *)
Definition bookKey (d : Doc.t) : jsstring :=
  match truthy (Doc.key d) with
  | Some k => k
  | None =>
      match truthy (Doc.cover_edition_key d) with
      | Some k => k
      | None =>
          nullish (Doc.title d) (lit "untitled") ++ lit "-"
          ++ match Doc.first_publish_year d with
             | Some y => numberToString (Number.ofZ y)
             | None => lit ""
             end
      end
  end.

(** [d.subject || d.subject_facet || []]: an array is truthy, empty or not. *)
Definition bookSubject (d : Doc.t) : list jsstring :=
  match Doc.subject d with
  | Some s => s
  | None => nullish (Doc.subject_facet d) []
  end.

(** The book of a document: the function [mapDocsToBooks] maps over the
    documents. *)
Definition toBook (d : Doc.t) : Book.t :=
  {| Book.key := bookKey d;
     Book.title := Doc.title d;
     Book.author_name := Doc.author_name d;
     Book.first_publish_year := Doc.first_publish_year d;
     Book.cover_i := Doc.cover_i d;
     Book.subject := Some (bookSubject d);
     Book.isbn := Doc.isbn d;
     Book.publisher := Doc.publisher d;
     Book.edition_key := Doc.edition_key d;
     Book.has_fulltext := Some (flag (Doc.has_fulltext d)) |}.

Definition mapDocsToBooks (docs : list Doc.t) : list Book.t :=
  List.map toBook docs.

(** *** The client-side filters and the sort of runSearch *)

(** The format filter. *)
Definition byFormat (filters : Filters) (books : list Book.t) : list Book.t :=
  if isLiteral (format filters) "ebook"
  then List.filter (fun b => flag (Book.has_fulltext b)) books
  else if isLiteral (format filters) "print"
  then List.filter (fun b => negb (flag (Book.has_fulltext b))) books
  else books.

(** The two comparators. *)
Definition newestFirst (a b : Book.t) : number :=
  minus (Finite (nullish (Book.first_publish_year b) 0%Z))
        (Finite (nullish (Book.first_publish_year a) 0%Z)).

Definition yearOrInfinity (b : Book.t) : number :=
  match Book.first_publish_year b with
  | Some y => Finite y
  | None => PosInfinity
  end.

Definition oldestFirst (a b : Book.t) : number :=
  minus (yearOrInfinity a) (yearOrInfinity b).

Definition byYear (filters : Filters) (books : list Book.t) : list Book.t :=
  if isLiteral (sortByYear filters) "newest" then sort newestFirst books
  else if isLiteral (sortByYear filters) "oldest" then sort oldestFirst books
  else books.

Section RunSearch.

Variable toLowerCase : jsstring -> jsstring.

(** Whether some subject of the book holds the category. *)
Definition inCategory (cat : jsstring) (b : Book.t) : bool :=
  existsb (fun s => includes (toLowerCase s) cat) (nullish (Book.subject b) []).

(** The permissive category filter of the plain search. *)
Definition byCategory (filters : Filters) (mapped : list Book.t) : list Book.t :=
  match truthy (category filters) with
  | Some c =>
      match trim c with
      | [] => mapped
      | t =>
          let cat := toLowerCase t in
          let before := List.length mapped in
          let filtered := List.filter (inCategory cat) mapped in
          if Nat.eqb (List.length filtered) 0 && Nat.ltb 0 before
          then mapped
          else filtered
      end
  | None => mapped
  end.

Variable net : nat -> jsstring -> FetchResult Doc.t.
Variable aborted : nat -> bool.

Record View := {
  books : list Book.t;
  loading : bool;
}.

(** What [setBooks] is called with, or [None] when it is not called, given
    what the await of [runSearch] yields. An exception of the smart search
    and a failure of the plain search reach the [catch] block, which leaves
    the books alone for an AbortError only; the plain search does not look
    at [res.ok]. A [data.docs] that is no array gives the empty list either
    way: [[]] stands for it when it is falsy, and [docs.map] raises into the
    [catch] block when it is not. *)
Definition booksToSet (filters : Filters)
  (awaited : result (SearchBar.Awaited Doc.t)) : option (list Book.t) :=
  match awaited with
  | Throw _ => Some []
  | Ok (SearchBar.Smart res) =>
      let mapped := mapDocsToBooks (Outcome.docs res) in
      Some (byYear filters (byFormat filters mapped))
  | Ok (SearchBar.Plain (Rejected AbortError)) => None
  | Ok (SearchBar.Plain (Rejected NetworkError)) => Some []
  | Ok (SearchBar.Plain (Fulfilled res)) =>
      match json res with
      | JsonError => Some []
      | JsonNull => Some []
      | JsonValue data_docs =>
          let mapped := mapDocsToBooks (nullish data_docs []) in
          Some (byYear filters (byFormat filters (byCategory filters mapped)))
      end
  end.

(** [runSearch(q)]: the await, then [setBooks], and [setLoading(false)] in
    the [finally] block. *)
Definition runSearch (q : option jsstring) (query : jsstring)
  (filters : Filters) (view : View) (trace : list Event) : View * list Event :=
  let final := nullish q query in
  let (awaited, trace') :=
    SearchBar.runSearch net aborted final (requestFilters filters) trace in
  ({| books := nullish (booksToSet filters awaited) (books view);
      loading := false |},
   trace').

End RunSearch.

(** *** onKeyDown *)

Inductive Key := ArrowDown | ArrowUp | Enter | Escape | OtherKey.

(** The state the handler reads, and what it does: the state it sets, and
    the calls of [setQuery] and [runSearch] with their argument ([None] is
    [undefined]). *)
Record Keyboard := {
  query : jsstring;
  shown : Suggest;
  highlight : Z;
}.

Record KeyEffect := {
  showSuggestions' : bool;
  highlight' : Z;
  setQuery : option (option jsstring);
  search : option (option jsstring);
  preventDefault : bool;
}.

Definition unchanged (s : Keyboard) : KeyEffect :=
  {| showSuggestions' := showSuggestions (shown s);
     highlight' := highlight s;
     setQuery := None;
     search := None;
     preventDefault := false |}.

Definition onKeyDown (key : Key) (s : Keyboard) : KeyEffect :=
  let len := Z.of_nat (List.length (suggestions (shown s))) in
  if negb (showSuggestions (shown s)) || (len =? 0)%Z then
    match key with
    | Enter =>
        {| showSuggestions' := showSuggestions (shown s);
           highlight' := highlight s;
           setQuery := None;
           search := Some None;
           preventDefault := false |}
    | _ => unchanged s
    end
  else
    match key with
    | ArrowDown =>
        {| showSuggestions' := true;
           highlight' := Z.min (highlight s + 1) (len - 1);
           setQuery := None;
           search := None;
           preventDefault := true |}
    | ArrowUp =>
        {| showSuggestions' := true;
           highlight' := Z.max (highlight s - 1) 0;
           setQuery := None;
           search := None;
           preventDefault := true |}
    | Enter =>
        let sel :=
          if (0 <=? highlight s)%Z
          then nth_error (suggestions (shown s)) (Z.to_nat (highlight s))
          else Some (query s) in
        {| showSuggestions' := true;
           highlight' := highlight s;
           setQuery := Some sel;
           search := Some sel;
           preventDefault := true |}
    | Escape =>
        {| showSuggestions' := false;
           highlight' := (-1)%Z;
           setQuery := None;
           search := None;
           preventDefault := false |}
    | OtherKey => unchanged s
    end.

End SearchResults.

(** ** src/context/AppContext.tsx, src/components/BookCard.tsx and
    src/components/Favorites.tsx: the saved books *)

(** The part of the context value the two components read and set. *)
Module AppContext.
Record t := mk {
  favorites : list Book.t;
  repository : list Book.t;   (* repository for student mode *)
  studentMode : bool;
}.
End AppContext.

Module BookCard.

Import JS AppContext.

(** [f.key === book.key]. *)
Definition sameKey (book f : Book.t) : bool :=
  eqb_string (Book.key f) (Book.key book).

Definition isSaved (ctx : AppContext.t) (book : Book.t) : bool :=
  let list := if studentMode ctx then repository ctx else favorites ctx in
  existsb (sameKey book) list.

Definition toggleSave (book : Book.t) (ctx : AppContext.t) : AppContext.t :=
  if studentMode ctx then
    let exists_ := existsb (sameKey book) (repository ctx) in
    if exists_
    then {| favorites := favorites ctx;
            repository := List.filter (fun r => negb (sameKey book r)) (repository ctx);
            studentMode := studentMode ctx |}
    else {| favorites := favorites ctx;
            repository := book :: repository ctx;
            studentMode := studentMode ctx |}
  else
    let exists_ := existsb (sameKey book) (favorites ctx) in
    if exists_
    then {| favorites := List.filter (fun f => negb (sameKey book f)) (favorites ctx);
            repository := repository ctx;
            studentMode := studentMode ctx |}
    else {| favorites := book :: favorites ctx;
            repository := repository ctx;
            studentMode := studentMode ctx |}.

End BookCard.

Module Favorites.

Import JS AppContext.

(** choose storage based on mode *)
Definition items (ctx : AppContext.t) : list Book.t :=
  if studentMode ctx then repository ctx else favorites ctx.

Definition setItems (next : list Book.t) (ctx : AppContext.t) : AppContext.t :=
  if studentMode ctx
  then {| favorites := favorites ctx;
          repository := next;
          studentMode := studentMode ctx |}
  else {| favorites := next;
          repository := repository ctx;
          studentMode := studentMode ctx |}.

Definition remove (key : jsstring) (ctx : AppContext.t) : AppContext.t :=
  setItems (List.filter (fun b => negb (eqb_string (Book.key b) key)) (items ctx))
           ctx.

Definition clearAll (ctx : AppContext.t) : AppContext.t := setItems [] ctx.

End Favorites.

(** ** src/App.tsx and src/components/Filters.tsx: how the filters are set *)

Module App.

Import JS ResourceSearch.

Record FiltersState := {
  sortByYear : option jsstring;
  language : option jsstring;
  category : option jsstring;
  subject : option jsstring;
  format : option jsstring;
  resourceType : option jsstring;
}.

(** [useState<FiltersState>({})]. *)
Definition noFilters : FiltersState :=
  {| sortByYear := None; language := None; category := None;
     subject := None; format := None; resourceType := None |}.

(** The [filters] prop of the search bar. *)
Definition searchBarFilters (f : FiltersState) : SearchResults.Filters :=
  {| SearchResults.sortByYear := sortByYear f;
     SearchResults.language := language f;
     SearchResults.category := category f;
     SearchResults.format := format f;
     SearchResults.resourceType := resourceType f |}.

Record Meta := {
  metaResourceType : option jsstring;   (* meta.resourceType *)
  metaSubject : option jsstring;        (* meta.subject *)
}.

Record Pick := {
  id : jsstring;
  label : jsstring;
  q : jsstring;
  meta : option Meta;
}.

Definition pick (id label q : string) (meta : option Meta) : Pick :=
  {| id := lit id; label := lit label; q := lit q; meta := meta |}.

Definition about (resourceType subject : option string) : option Meta :=
  Some {| metaResourceType := option_map lit resourceType;
          metaSubject := option_map lit subject |}.

Definition studentPicks : list Pick :=
  [ {| id := lit "s1";
       label := (lit "Textbooks " ++ [0x2014%N] ++ lit " Science & Math")%list;
       q := lit "textbook science";
       meta := about (Some "textbook") (Some "science") |};
    pick "s2" "Exam / Past Papers" "past papers" (about (Some "past_papers") None);
    pick "s3" "Study Guides" "study guide" (about (Some "study_guide") None);
    pick "s4" "Lecture Notes & Problem Sets" "lecture notes problem set"
         (about (Some "lecture_notes") None);
    pick "s5" "Open Textbooks (free)" "open textbook"
         (about (Some "open_textbook") None);
    pick "s6" "Career & Skill Books" "career development skills"
         (about None (Some "career"));
    pick "s7" "Student Mental Health" "college students mental health"
         (about None (Some "mental health")) ]%string.

Definition normalPicks : list Pick :=
  [ pick "n1" "Fun Reads" "light fiction humor" None;
    pick "n2" "Comics & Graphic Novels" "graphic novels comics" None;
    pick "n3" "Fiction Bestsellers" "best sellers fiction" None;
    {| id := lit "n4";
       label := (lit "Popular Sci" ++ [0x2011%N] ++ lit "Fi")%list;
       q := lit "science fiction popular";
       meta := None |};
    pick "n5" "Quick Short Reads" "short stories" None;
    pick "n6" "Award Winners" "award winning fiction" None ]%string.

Definition picks (studentMode : bool) : list Pick :=
  if studentMode then studentPicks else normalPicks.

(** The query and the filters of the application. *)
Record Ui := {
  query : jsstring;
  filters : FiltersState;
}.

(** [handlePickClick]: the query is set, and the resource type and the
    subject of the pick, where it has them, are spread over the filters. *)
Definition handlePickClick (q : jsstring) (meta : option Meta) (ui : Ui) : Ui :=
  {| query := q;
     filters :=
       match meta with
       | None => filters ui
       | Some m =>
           let prev := filters ui in
           let prev :=
             match truthy (metaResourceType m) with
             | Some rt =>
                 {| sortByYear := sortByYear prev; language := language prev;
                    category := category prev; subject := subject prev;
                    format := format prev; resourceType := Some rt |}
             | None => prev
             end in
           match truthy (metaSubject m) with
           | Some s =>
               {| sortByYear := sortByYear prev; language := language prev;
                  category := Some s; subject := Some s;
                  format := format prev; resourceType := resourceType prev |}
           | None => prev
           end
       end |}.

(** *** src/components/Filters.tsx *)

(** The keys of a list of options. *)
Definition options (keys : list string) : list jsstring := List.map lit keys.

Definition GENRES : list jsstring :=
  options [ ""; "fiction"; "fantasy"; "romance"; "mystery"; "crime"; "thriller";
            "science fiction"; "historical fiction"; "non-fiction"; "biography";
            "history"; "self-help"; "philosophy"; "business"; "technology";
            "poetry"; "humor"; "graphic novel"; "young adult"; "children" ]%string.

Definition STUDENT_SUBJECTS : list jsstring :=
  options [ ""; "health_and_wellness"; "history"; "textbooks"; "biography";
            "social_sciences"; "arts"; "business_finance";
            "science_mathematics" ]%string.

Definition RESOURCE_TYPES : list jsstring :=
  options [ ""; "study_guide"; "textbook"; "lecture_notes"; "past_papers";
            "problem_sets"; "reference"; "open_textbook"; "case_studies" ]%string.

(** The values of the language select, written out in the markup. *)
Definition LANGUAGES : list jsstring :=
  options [ ""; "eng"; "hin"; "spa"; "fre" ]%string.

(** A control of the panel set to a value. *)
Inductive Change :=
| Category (value : jsstring)
| Language (value : jsstring)
| ResourceType (value : jsstring)
| SortByYear (value : jsstring)
| Format (value : jsstring).

Definition offers (values : list jsstring) (value : jsstring) : bool :=
  existsb (eqb_string value) values.

(** Whether the panel, as rendered in that mode, has the control and the
    value. *)
Definition offered (studentMode : bool) (c : Change) : bool :=
  match c with
  | Category v => offers (if studentMode then STUDENT_SUBJECTS else GENRES) v
  | Language v => offers LANGUAGES v
  | ResourceType v => studentMode && offers RESOURCE_TYPES v
  | SortByYear v => offers (options [ ""; "newest"; "oldest" ]%string) v
  | Format v => offers (options [ ""; "ebook"; "print" ]%string) v
  end.

(** [setFilters({ ...filters, field: value })]. *)
Definition onChange (c : Change) (f : FiltersState) : FiltersState :=
  match c with
  | Category v =>
      {| sortByYear := sortByYear f; language := language f;
         category := Some v; subject := subject f;
         format := format f; resourceType := resourceType f |}
  | Language v =>
      {| sortByYear := sortByYear f; language := Some v;
         category := category f; subject := subject f;
         format := format f; resourceType := resourceType f |}
  | ResourceType v =>
      {| sortByYear := sortByYear f; language := language f;
         category := category f; subject := subject f;
         format := format f; resourceType := Some v |}
  | SortByYear v =>
      {| sortByYear := Some v; language := language f;
         category := category f; subject := subject f;
         format := format f; resourceType := resourceType f |}
  | Format v =>
      {| sortByYear := sortByYear f; language := language f;
         category := category f; subject := subject f;
         format := Some v; resourceType := resourceType f |}
  end.

(** *** What the user can do to the query and the filters *)

Inductive UiEvent :=
| PickClicked (index : nat)          (* the button of [picks[index]] *)
| Changed (c : Change)               (* a control of the filter panel *)
| Typed (text : jsstring).           (* the search input *)

(** An event in a mode of the application; the mode can be toggled between
    two events. *)
Definition step (studentMode : bool) (e : UiEvent) (ui : Ui) : Ui :=
  match e with
  | PickClicked index =>
      match nth_error (picks studentMode) index with
      | Some p => handlePickClick (q p) (meta p) ui
      | None => ui
      end
  | Changed c =>
      if offered studentMode c
      then {| query := query ui; filters := onChange c (filters ui) |}
      else ui
  | Typed text => {| query := text; filters := filters ui |}
  end.

Definition start : Ui := {| query := lit ""; filters := noFilters |}.

(** The state after a sequence of events, each with the mode it occurs in. *)
Definition after (events : list (bool * UiEvent)) : Ui :=
  fold_left (fun ui e => step (fst e) (snd e) ui) events start.

End App.

(** ** Vocabulary of the further statements *)

Module Vocabulary.

Import JS ResourceSearch.

(** How often a code unit occurs in a string. *)
Definition occurrences (c : N) (s : jsstring) : nat :=
  List.length (List.filter (N.eqb c) s).

(** The units the form serializer copies: ASCII letters and digits and
    [* - . _]. *)
Definition isFormSafe (c : N) : bool :=
  isAlpha c || isDigit c
  || (c =? 0x2A)%N || (c =? 0x2D)%N || (c =? 0x2E)%N || (c =? 0x5F)%N.

(** The units of a serialized name or value: those, the plus sign of a
    space and the percent sign of an escape. *)
Definition isFormUnit (c : N) : bool :=
  isFormSafe c || (c =? 0x2B)%N || (c =? 0x25)%N.

(** The units a serialized query is made of: ASCII letters and digits and
    [* - . _], the plus sign of a space, the percent sign of an escape, and
    the two separators [&] and [=]. *)
Definition isQueryUnit (c : N) : bool :=
  isAlpha c || isDigit c
  || (c =? 0x2A)%N || (c =? 0x2D)%N || (c =? 0x2E)%N || (c =? 0x5F)%N
  || (c =? 0x2B)%N || (c =? 0x25)%N || (c =? 0x26)%N || (c =? 0x3D)%N.

(** The pacing delays of a trace, oldest first. *)
Fixpoint pauses (trace : list Event) : list Z :=
  match trace with
  | [] => []
  | EvSleep ms :: rest => ms :: pauses rest
  | EvFetch _ :: rest => pauses rest
  end.

(** A trace that starts with the request of the attempt at index [i]: each
    request is followed by at most one delay, of 120 + 30 i milliseconds
    after the request of the attempt at index [i], and then by the request
    of the next attempt. *)
Fixpoint paced (i : nat) (trace : list Event) : bool :=
  match trace with
  | [] => true
  | EvFetch _ :: rest =>
      match rest with
      | EvSleep ms :: rest' =>
          (ms =? 120 + Z.of_nat i * 30)%Z && paced (S i) rest'
      | _ => paced (S i) rest
      end
  | EvSleep _ :: _ => false
  end.

(** The year the newest-first comparator reads, and whether a book has a
    given year or none. *)
Definition yearOrZero (b : Book.t) : Z := nullish (Book.first_publish_year b) 0%Z.

Definition hasYear (y : option Z) (b : Book.t) : bool :=
  match y, Book.first_publish_year b with
  | Some x, Some z => (x =? z)%Z
  | None, None => true
  | _, _ => false
  end.

(** The order of the years with a missing year last. *)
Definition notLater (a b : option Z) : Prop :=
  match a, b with
  | Some x, Some y => (x <= y)%Z
  | _, None => True
  | None, Some _ => False
  end.

End Vocabulary.

(** ** More scenarios *)

Module Examples.

Import JS ResourceSearch Scenario SearchResults.

(** Options with a threshold, and options under which any answer is
    acceptable. *)
Definition threshold (m : Z) : SearchOptions RawDoc :=
  {| subjectSlug := None;
     limit := None;
     minResults := Some (Number.ofZ m);
     maxAttempts := None;
     clientSideFilter := None |}.

Definition anyAnswer : SearchOptions RawDoc := threshold 0.

Definition cPlusPlus : SearchOptions RawDoc := subjectOnly (Some (lit "c++")).

(** Documents as the service returns them, and a service that is down. *)
Definition doc (key title : string) (year : option Z) (fulltext : bool) : Doc.t :=
  {| Doc.key := Some (lit key);
     Doc.cover_edition_key := None;
     Doc.title := Some (lit title);
     Doc.author_name := None;
     Doc.first_publish_year := year;
     Doc.cover_i := None;
     Doc.subject := None;
     Doc.subject_facet := None;
     Doc.isbn := None;
     Doc.publisher := None;
     Doc.edition_key := None;
     Doc.has_fulltext := Some fulltext |}.

Definition emma : Doc.t := doc "/works/OL66554W" "Emma" (Some 1815%Z) false.
Definition dune : Doc.t := doc "/works/OL893415W" "Dune" (Some 1965%Z) true.
Definition undated : Doc.t := doc "/works/OL1W" "Lecture notes" None true.

Definition library : list Doc.t := [emma; dune; undated].

(** A document with subjects, and one with nothing but a year. *)
Definition warAndPeace : Doc.t :=
  {| Doc.key := Some (lit "/works/OL267096W");
     Doc.cover_edition_key := None;
     Doc.title := Some (lit "War and Peace");
     Doc.author_name := None;
     Doc.first_publish_year := Some 1869%Z;
     Doc.cover_i := None;
     Doc.subject := Some [lit "history"; lit "russia"];
     Doc.subject_facet := None;
     Doc.isbn := None;
     Doc.publisher := None;
     Doc.edition_key := None;
     Doc.has_fulltext := Some true |}.

Definition anonymous : Doc.t :=
  {| Doc.key := None;
     Doc.cover_edition_key := None;
     Doc.title := None;
     Doc.author_name := None;
     Doc.first_publish_year := Some 1999%Z;
     Doc.cover_i := None;
     Doc.subject := None;
     Doc.subject_facet := None;
     Doc.isbn := None;
     Doc.publisher := None;
     Doc.edition_key := None;
     Doc.has_fulltext := None |}.

Definition offline (_ : nat) (_ : jsstring) : FetchResult Doc.t :=
  Rejected NetworkError.

(** Filters: the e-books of a resource type, newest first; a resource type
    that has no profile; none at all; a category. *)
Definition ebooksNewestFirst : Filters :=
  {| sortByYear := Some (lit "newest");
     language := None;
     category := None;
     format := Some (lit "ebook");
     resourceType := Some (lit "textbook") |}.

Definition thesis : Filters :=
  {| sortByYear := None;
     language := None;
     category := None;
     format := None;
     resourceType := Some (lit "thesis") |}.

Definition plain : Filters :=
  {| sortByYear := None;
     language := None;
     category := None;
     format := None;
     resourceType := None |}.

Definition aboutHistory : Filters :=
  {| sortByYear := None;
     language := None;
     category := Some (lit " history ");
     format := None;
     resourceType := None |}.

(** What the search bar shows before a search. *)
Definition shownBefore : View :=
  {| books := mapDocsToBooks library; loading := true |}.

(** The outcome of a smart search that returns the three documents. *)
Definition threeFound : Outcome.t Doc.t :=
  Outcome.mk library (Number.ofZ 1) (lit "subject:textbooks")
    (Some (lit "https://openlibrary.org/search.json?subject=textbooks&limit=40")).

(** The keyboard with two suggestions shown and none highlighted. *)
Definition typing : Keyboard :=
  {| query := lit "dun";
     shown := {| suggestions := [lit "Dune"; lit "Dune Messiah"];
                 showSuggestions := true |};
     highlight := (-1)%Z |}.

(** A reader with one favorite. *)
Definition reader : AppContext.t :=
  {| AppContext.favorites := mapDocsToBooks [emma];
     AppContext.repository := [];
     AppContext.studentMode := false |}.

End Examples.

(** ** Proof automation *)

(** Case analysis on the comparisons of a goal, comparisons of a hypothesis
    as propositions, linear arithmetic with division by constants, and the
    splitting of a conjunction into its parts. *)
Ltac ncases :=
  repeat match goal with
         | |- context [N.ltb ?a ?b] => destruct (N.ltb_spec a b)
         | |- context [N.leb ?a ?b] => destruct (N.leb_spec a b)
         | |- context [N.eqb ?a ?b] => destruct (N.eqb_spec a b)
         end.

Ltac nprop H :=
  rewrite ?orb_true_iff, ?andb_true_iff, ?negb_true_iff, ?orb_false_iff,
    ?andb_false_iff, ?N.eqb_eq, ?N.leb_le, ?N.ltb_lt, ?N.eqb_neq, ?N.leb_gt,
    ?N.ltb_ge in H.

Ltac nlia := zify; Z.to_euclidean_division_equations; lia.

Ltac splits := repeat match goal with |- _ /\ _ => split end.

Unset Implicit Arguments.

(** * Facts about the built-ins *)

Module JSFacts.

Import JS.
Local Open Scope N_scope.

(** ** Percent escapes and UTF-8 *)

Lemma leb_true (a b : N) : a <= b -> (a <=? b) = true.
Proof. apply N.leb_le. Qed.

(** A hexadecimal digit reads back as its value. *)
Lemma hexValue_hexDigit (d : N) : d < 16 -> hexValue (hexDigit d) = Some d.
Proof.
  intros Hd. unfold hexValue, hexDigit.
  ncases; cbn [andb]; try (f_equal; lia); try lia.
Qed.

(** The two digits of an escape read back as its octet. *)
Lemma hexOctet_escape (b : N) :
  b < 256 -> hexOctet (hexDigit (b / 16)) (hexDigit (b mod 16)) = Some b.
Proof.
  intros Hb. unfold hexOctet.
  rewrite !hexValue_hexDigit by nlia.
  f_equal. nlia.
Qed.

Lemma readEscape_escape (b : N) :
  b < 256 -> readEscape percent (hexDigit (b / 16)) (hexDigit (b mod 16)) = Some b.
Proof. intros Hb. unfold readEscape. rewrite N.eqb_refl. now apply hexOctet_escape. Qed.

(** One step of [decodeURIComponent] at a percent sign. *)
Lemma decode_percent (h l : N) (r1 : jsstring) :
  decodeURIComponent (percent :: h :: l :: r1) =
  match hexOctet h l with
  | None => Throw URIError
  | Some b =>
      match leadingOnes b with
      | 0%nat => fmap (cons b) (decodeURIComponent r1)
      | 2%nat =>
          match r1 with
          | p2 :: h2 :: l2 :: r2 =>
              match readEscape p2 h2 l2 with
              | Some b2 => decoded [b; b2] (decodeURIComponent r2)
              | None => Throw URIError
              end
          | _ => Throw URIError
          end
      | 3%nat =>
          match r1 with
          | p2 :: h2 :: l2 :: p3 :: h3 :: l3 :: r3 =>
              match readEscape p2 h2 l2, readEscape p3 h3 l3 with
              | Some b2, Some b3 => decoded [b; b2; b3] (decodeURIComponent r3)
              | _, _ => Throw URIError
              end
          | _ => Throw URIError
          end
      | 4%nat =>
          match r1 with
          | p2 :: h2 :: l2 :: p3 :: h3 :: l3 :: p4 :: h4 :: l4 :: r4 =>
              match readEscape p2 h2 l2, readEscape p3 h3 l3,
                    readEscape p4 h4 l4 with
              | Some b2, Some b3, Some b4 =>
                  decoded [b; b2; b3; b4] (decodeURIComponent r4)
              | _, _, _ => Throw URIError
              end
          | _ => Throw URIError
          end
      | _ => Throw URIError
      end
  end.
Proof. reflexivity. Qed.

(** One step of [decodeURIComponent] at any other unit. *)
Lemma decode_plain (c : N) (r : jsstring) :
  c <> percent ->
  decodeURIComponent (c :: r) = fmap (cons c) (decodeURIComponent r).
Proof.
  intros Hc. cbn [decodeURIComponent].
  destruct (N.eqb_spec c percent); [contradiction | reflexivity].
Qed.

Lemma leadingOnes_0 b : b < 0x80 -> leadingOnes b = 0%nat.
Proof. intros. unfold leadingOnes. ncases; try reflexivity; lia. Qed.

Lemma leadingOnes_2 b : 0xC0 <= b < 0xE0 -> leadingOnes b = 2%nat.
Proof. intros. unfold leadingOnes. ncases; try reflexivity; lia. Qed.

Lemma leadingOnes_3 b : 0xE0 <= b < 0xF0 -> leadingOnes b = 3%nat.
Proof. intros. unfold leadingOnes. ncases; try reflexivity; lia. Qed.

Lemma leadingOnes_4 b : 0xF0 <= b < 0xF8 -> leadingOnes b = 4%nat.
Proof. intros. unfold leadingOnes. ncases; try reflexivity; lia. Qed.

(** The UTF-8 octets of a scalar value beyond ASCII decode to it: the
    sequence is well formed. *)
Lemma utf8Decode_utf8 (cp : N) :
  isScalarValue cp = true -> 0x80 <= cp -> utf8Decode (utf8 cp) = Some cp.
Proof.
  unfold isScalarValue. intros Hs Hcp.
  apply andb_prop in Hs as [Hlt Hns]. apply N.ltb_lt in Hlt.
  apply negb_true_iff in Hns.
  unfold utf8.
  destruct (N.ltb_spec cp 0x80); [lia|].
  destruct (N.ltb_spec cp 0x800); [|destruct (N.ltb_spec cp 0x10000)];
    unfold utf8Decode, isContinuation.
  - replace ((0xC0 + cp / 0x40 - 0xC0) * 0x40 + (0x80 + cp mod 0x40 - 0x80))
      with cp by nlia.
    now rewrite !leb_true by nlia.
  - replace ((0xE0 + cp / 0x1000 - 0xE0) * 0x1000
             + (0x80 + (cp / 0x40) mod 0x40 - 0x80) * 0x40
             + (0x80 + cp mod 0x40 - 0x80))
      with cp by nlia.
    rewrite Hns. now rewrite !leb_true by nlia.
  - replace ((0xF0 + cp / 0x40000 - 0xF0) * 0x40000
             + (0x80 + (cp / 0x1000) mod 0x40 - 0x80) * 0x1000
             + (0x80 + (cp / 0x40) mod 0x40 - 0x80) * 0x40
             + (0x80 + cp mod 0x40 - 0x80))
      with cp by nlia.
    now rewrite !leb_true by nlia.
Qed.

Lemma fmap_Ok_inv {A B : Type} (f : A -> B) (r : result A) (b : B) :
  fmap f r = Ok b -> exists a, r = Ok a /\ b = f a.
Proof. destruct r; cbn; intros H; inversion H; eauto. Qed.

(** The escapes of the octets of a scalar value decode to its UTF-16 units,
    whatever follows them. *)
Lemma decode_escapeOctets_utf8 (cp : N) (t : jsstring) :
  isScalarValue cp = true ->
  decodeURIComponent (escapeOctets (utf8 cp) ++ t) =
  fmap (app (utf16 cp)) (decodeURIComponent t).
Proof.
  intros Hs.
  destruct (N.ltb_spec cp 0x80) as [Hlo|Hhi].
  - unfold utf8, utf16.
    destruct (N.ltb_spec cp 0x80); [|lia].
    destruct (N.ltb_spec cp 0x10000); [|lia].
    cbn [escapeOctets flat_map escapeOctet app].
    rewrite decode_percent, hexOctet_escape by lia.
    rewrite leadingOnes_0 by lia. reflexivity.
  - pose proof (utf8Decode_utf8 cp Hs Hhi) as Hdec.
    unfold isScalarValue in Hs.
    apply andb_prop in Hs as [Hlt _]. apply N.ltb_lt in Hlt.
    unfold utf8 in *.
    destruct (N.ltb_spec cp 0x80); [lia|].
    destruct (N.ltb_spec cp 0x800); [|destruct (N.ltb_spec cp 0x10000)];
      cbn [escapeOctets flat_map escapeOctet app];
      rewrite decode_percent, hexOctet_escape by nlia.
    + rewrite leadingOnes_2 by nlia.
      rewrite readEscape_escape by nlia.
      unfold decoded. now rewrite Hdec.
    + rewrite leadingOnes_3 by nlia.
      rewrite !readEscape_escape by nlia.
      unfold decoded. now rewrite Hdec.
    + rewrite leadingOnes_4 by nlia.
      rewrite !readEscape_escape by nlia.
      unfold decoded. now rewrite Hdec.
Qed.

(** A surrogate pair is the UTF-16 form of the code point it stands for. *)
Lemma utf16_pair (c d : N) :
  isLeadSurrogate c = true -> isTrailSurrogate d = true ->
  utf16 (pairToCodePoint c d) = [c; d]
  /\ isScalarValue (pairToCodePoint c d) = true.
Proof.
  unfold isLeadSurrogate, isTrailSurrogate, utf16, pairToCodePoint, isScalarValue.
  intros Hc Hd.
  apply andb_prop in Hc as [Hc1 Hc2]. apply andb_prop in Hd as [Hd1 Hd2].
  apply N.leb_le in Hc1, Hc2, Hd1, Hd2.
  split.
  - destruct (N.ltb_spec ((c - 0xD800) * 0x400 + (d - 0xDC00) + 0x10000) 0x10000); [lia|].
    f_equal; [nlia|]. f_equal. nlia.
  - ncases; cbn [andb negb]; try reflexivity; lia.
Qed.

Lemma uriUnescaped_not_percent (c : N) : uriUnescaped c = true -> c <> percent.
Proof. intros H ->. discriminate H. Qed.

(** ** decodeURIComponent undoes encodeURIComponent *)

(** The round trip with text after the encoding, by induction on a bound of
    the length: a surrogate pair takes two units at once. *)
Lemma decode_encode_app :
  forall (n : nat) (s e t : jsstring),
    (List.length s <= n)%nat ->
    isString s = true ->
    encodeURIComponent s = Ok e ->
    decodeURIComponent (e ++ t) = fmap (app s) (decodeURIComponent t).
Proof.
  induction n as [|n IH]; intros s e t Hlen Hstr Henc.
  - destruct s; [|cbn in Hlen; lia]. cbn in Henc. inversion Henc; subst.
    cbn [app]. now destruct (decodeURIComponent t).
  - destruct s as [|c r].
    + cbn in Henc. inversion Henc; subst. cbn [app].
      now destruct (decodeURIComponent t).
    + cbn [isString forallb] in Hstr. apply andb_prop in Hstr as [Hc Hr].
      apply N.ltb_lt in Hc. cbn [List.length] in Hlen.
      cbn [encodeURIComponent] in Henc.
      destruct (uriUnescaped c) eqn:Hun.
      * apply fmap_Ok_inv in Henc as (e' & He' & ->).
        cbn [app]. rewrite decode_plain by now apply uriUnescaped_not_percent.
        rewrite (IH r e' t) by (assumption || lia).
        now destruct (decodeURIComponent t).
      * destruct (isLeadSurrogate c) eqn:Hlead.
        -- destruct r as [|d r']; [discriminate|].
           destruct (isTrailSurrogate d) eqn:Htrail; [|discriminate].
           apply fmap_Ok_inv in Henc as (e' & He' & ->).
           cbn [forallb] in Hr. apply andb_prop in Hr as [_ Hr'].
           cbn [List.length] in Hlen.
           destruct (utf16_pair c d Hlead Htrail) as [H16 Hsc].
           rewrite <- app_assoc, decode_escapeOctets_utf8 by assumption.
           rewrite (IH r' e' t) by (assumption || lia).
           rewrite H16. now destruct (decodeURIComponent t).
        -- destruct (isTrailSurrogate c) eqn:Htrail; [discriminate|].
           apply fmap_Ok_inv in Henc as (e' & He' & ->).
           rewrite <- app_assoc, decode_escapeOctets_utf8.
           ++ rewrite (IH r e' t) by (assumption || lia).
              unfold utf16. destruct (N.ltb_spec c 0x10000); [|lia].
              now destruct (decodeURIComponent t).
           ++ unfold isScalarValue, isLeadSurrogate, isTrailSurrogate in *.
              revert Hlead Htrail. ncases; cbn [andb negb]; try reflexivity; try discriminate; lia.
Qed.

(** [decodeURIComponent(encodeURIComponent(s))] is [s]. *)
Lemma decode_encode (s e : jsstring) :
  isString s = true ->
  encodeURIComponent s = Ok e ->
  decodeURIComponent e = Ok s.
Proof.
  intros Hs He.
  pose proof (decode_encode_app _ s e [] (Nat.le_refl _) Hs He) as H.
  rewrite app_nil_r in H. rewrite H. cbn. now rewrite app_nil_r.
Qed.

(** A text without percent sign decodes to itself. *)
Lemma decode_literal (p x : jsstring) :
  forallb (fun c => negb (c =? percent)) p = true ->
  decodeURIComponent (p ++ x) = fmap (app p) (decodeURIComponent x).
Proof.
  induction p as [|c p IH]; cbn [forallb app]; intros H.
  - now destruct (decodeURIComponent x).
  - apply andb_prop in H as [Hc Hp]. apply negb_true_iff, N.eqb_neq in Hc.
    rewrite decode_plain by assumption. rewrite IH by assumption.
    now destruct (decodeURIComponent x).
Qed.

(** ** Well-formed strings *)

Lemma isWellFormed_cons (c : N) (r : jsstring) :
  isSurrogate c = false -> isWellFormed (c :: r) = isWellFormed r.
Proof.
  unfold isSurrogate. intros H. apply orb_false_elim in H as [H1 H2].
  cbn [isWellFormed]. now rewrite H1, H2.
Qed.

Lemma below_0x80_not_surrogate (c : N) : c < 0x80 -> isSurrogate c = false.
Proof.
  unfold isSurrogate, isLeadSurrogate, isTrailSurrogate.
  ncases; cbn [andb orb]; intros; try reflexivity; lia.
Qed.

Lemma uriUnescaped_not_surrogate (c : N) :
  uriUnescaped c = true -> isSurrogate c = false.
Proof.
  intros H. apply below_0x80_not_surrogate.
  unfold uriUnescaped, isAlpha, isDigit in H. nprop H. lia.
Qed.

Lemma whiteSpace_not_surrogate (c : N) :
  isWhiteSpace c = true -> isSurrogate c = false.
Proof.
  intros H. unfold isWhiteSpace in H. nprop H.
  unfold isSurrogate, isLeadSurrogate, isTrailSurrogate.
  apply orb_false_intro; apply andb_false_iff; rewrite !N.leb_gt; lia.
Qed.

(** [encodeURIComponent] returns exactly on the well-formed strings, and its
    only exception is URIError. *)
Lemma encode_spec :
  forall (n : nat) (s : jsstring),
    (List.length s <= n)%nat ->
    if isWellFormed s
    then exists e, encodeURIComponent s = Ok e
    else encodeURIComponent s = Throw URIError.
Proof.
  induction n as [|n IH]; intros s Hlen.
  - destruct s; [|cbn in Hlen; lia]. cbn. eauto.
  - destruct s as [|c r]; [cbn; eauto|].
    cbn [List.length] in Hlen.
    cbn [encodeURIComponent].
    destruct (uriUnescaped c) eqn:Hun.
    + rewrite isWellFormed_cons by now apply uriUnescaped_not_surrogate.
      specialize (IH r ltac:(lia)).
      destruct (isWellFormed r).
      * destruct IH as [e ->]. cbn. eauto.
      * now rewrite IH.
    + cbn [isWellFormed].
      destruct (isLeadSurrogate c).
      * destruct r as [|d r']; [reflexivity|].
        cbn [List.length] in Hlen.
        destruct (isTrailSurrogate d); [|reflexivity].
        specialize (IH r' ltac:(lia)). cbn [andb].
        destruct (isWellFormed r').
        -- destruct IH as [e ->]. cbn. eauto.
        -- now rewrite IH.
      * destruct (isTrailSurrogate c); [reflexivity|].
        specialize (IH r ltac:(lia)). cbn [andb negb].
        destruct (isWellFormed r).
        -- destruct IH as [e ->]. cbn. eauto.
        -- now rewrite IH.
Qed.

Lemma encode_wellFormed (s : jsstring) :
  isWellFormed s = true -> exists e, encodeURIComponent s = Ok e.
Proof.
  intros H. pose proof (encode_spec _ s (Nat.le_refl _)) as E.
  now rewrite H in E.
Qed.

Lemma encode_illFormed (s : jsstring) :
  isWellFormed s = false -> encodeURIComponent s = Throw URIError.
Proof.
  intros H. pose proof (encode_spec _ s (Nat.le_refl _)) as E.
  now rewrite H in E.
Qed.

(** Units that are no surrogates, before or after a string, do not change
    whether it is well formed. *)
Lemma isWellFormed_app_l (a b : jsstring) :
  forallb (fun c => negb (isSurrogate c)) a = true ->
  isWellFormed (a ++ b) = isWellFormed b.
Proof.
  induction a as [|c a IH]; [reflexivity|].
  cbn [forallb app]. intros H. apply andb_prop in H as [Hc Ha].
  apply negb_true_iff in Hc.
  rewrite isWellFormed_cons by assumption. auto.
Qed.

Lemma isWellFormed_no_surrogates (w : jsstring) :
  forallb (fun c => negb (isSurrogate c)) w = true -> isWellFormed w = true.
Proof.
  intros H. rewrite <- (app_nil_r w). now rewrite isWellFormed_app_l.
Qed.

Lemma isWellFormed_app_r :
  forall (n : nat) (a w : jsstring),
    (List.length a <= n)%nat ->
    forallb (fun c => negb (isSurrogate c)) w = true ->
    isWellFormed (a ++ w) = isWellFormed a.
Proof.
  induction n as [|n IH]; intros a w Hlen Hw.
  - destruct a; [|cbn in Hlen; lia].
    now apply isWellFormed_no_surrogates.
  - destruct a as [|c r].
    + now apply isWellFormed_no_surrogates.
    + cbn [List.length] in Hlen. cbn [app isWellFormed].
      destruct (isLeadSurrogate c).
      * destruct r as [|d r'].
        -- cbn [app]. destruct w as [|d w']; [reflexivity|].
           cbn [forallb] in Hw. apply andb_prop in Hw as [Hd _].
           apply negb_true_iff in Hd. unfold isSurrogate in Hd.
           apply orb_false_elim in Hd as [_ ->]. reflexivity.
        -- cbn [app List.length] in *. rewrite (IH r' w) by (assumption || lia).
           reflexivity.
      * rewrite (IH r w) by (assumption || lia). reflexivity.
Qed.

(** ** trim *)

Lemma trimStart_split (s : jsstring) :
  exists ws, s = ws ++ trimStart s /\ forallb isWhiteSpace ws = true.
Proof.
  induction s as [|c r (ws & Hr & Hws)]; [now exists []|].
  cbn [trimStart]. destruct (isWhiteSpace c) eqn:Hc.
  - exists (c :: ws). cbn [app forallb]. rewrite Hc, Hws. split; [|reflexivity].
    now f_equal.
  - now exists [].
Qed.

Lemma trimEnd_split (s : jsstring) :
  exists ws, s = trimEnd s ++ ws /\ forallb isWhiteSpace ws = true.
Proof.
  unfold trimEnd. destruct (trimStart_split (rev s)) as (ws & Hs & Hws).
  exists (rev ws). split.
  - rewrite <- rev_app_distr, <- Hs. now rewrite rev_involutive.
  - rewrite forallb_forall in *. intros c Hc. apply Hws. now apply in_rev.
Qed.

(** A string is its trimmed part between two runs of white space. *)
Lemma trim_split (s : jsstring) :
  exists ws1 ws2,
    s = ws1 ++ trim s ++ ws2
    /\ forallb isWhiteSpace ws1 = true /\ forallb isWhiteSpace ws2 = true.
Proof.
  unfold trim.
  destruct (trimStart_split s) as (ws1 & H1 & Hw1).
  destruct (trimEnd_split (trimStart s)) as (ws2 & H2 & Hw2).
  exists ws1, ws2. repeat split; try assumption.
  now rewrite <- H2.
Qed.

Lemma whiteSpace_no_surrogates (ws : jsstring) :
  forallb isWhiteSpace ws = true ->
  forallb (fun c => negb (isSurrogate c)) ws = true.
Proof.
  rewrite !forallb_forall. intros H c Hc.
  now rewrite whiteSpace_not_surrogate by auto.
Qed.

(** Trimming keeps a string a string, and well formed or not. *)
Lemma isWellFormed_trim (s : jsstring) : isWellFormed (trim s) = isWellFormed s.
Proof.
  destruct (trim_split s) as (ws1 & ws2 & Hs & H1 & H2).
  rewrite Hs at 2.
  rewrite isWellFormed_app_l by now apply whiteSpace_no_surrogates.
  symmetry. apply (isWellFormed_app_r (List.length (trim s))); [lia|].
  now apply whiteSpace_no_surrogates.
Qed.

Lemma isString_trim (s : jsstring) : isString s = true -> isString (trim s) = true.
Proof.
  destruct (trim_split s) as (ws1 & ws2 & Hs & _).
  unfold isString. rewrite Hs at 1. rewrite !forallb_app.
  intros H. apply andb_prop in H as [_ H]. now apply andb_prop in H as [H _].
Qed.

(** White space only trims to the empty string. *)
Lemma trim_whiteSpace (s : jsstring) :
  forallb isWhiteSpace s = true -> trim s = [].
Proof.
  intros H. unfold trim.
  assert (Hs : trimStart s = []).
  { induction s as [|c r IH]; [reflexivity|].
    cbn [forallb] in H. apply andb_prop in H as [Hc Hr].
    cbn [trimStart]. rewrite Hc. auto. }
  now rewrite Hs.
Qed.

(** ** ASCII strings *)

Lemma isPlain_no_surrogates (s : jsstring) :
  isPlain s = true -> forallb (fun c => negb (isSurrogate c)) s = true.
Proof.
  unfold isPlain. rewrite !forallb_forall. intros H c Hc.
  apply H in Hc. apply N.ltb_lt in Hc.
  now rewrite below_0x80_not_surrogate.
Qed.

Lemma isPlain_wellFormed (s : jsstring) : isPlain s = true -> isWellFormed s = true.
Proof. intros H. now apply isWellFormed_no_surrogates, isPlain_no_surrogates. Qed.

Lemma isPlain_isString (s : jsstring) : isPlain s = true -> isString s = true.
Proof.
  unfold isPlain, isString. rewrite !forallb_forall. intros H c Hc.
  apply H in Hc. apply N.ltb_lt in Hc. apply N.ltb_lt. lia.
Qed.

Lemma isPlain_app (a b : jsstring) : isPlain (a ++ b) = isPlain a && isPlain b.
Proof. apply forallb_app. Qed.

Lemma isPlain_join (sep : jsstring) (l : list jsstring) :
  isPlain sep = true -> forallb isPlain l = true -> isPlain (join sep l) = true.
Proof.
  intros Hsep. induction l as [|x [|y r] IH]; cbn [join forallb]; intros H.
  - reflexivity.
  - now apply andb_prop in H as [-> _].
  - apply andb_prop in H as [Hx Hr].
    rewrite !isPlain_app, Hx, Hsep. cbn [andb]. now apply IH.
Qed.

Lemma isString_app (a b : jsstring) : isString (a ++ b) = isString a && isString b.
Proof. apply forallb_app. Qed.

(** ** split and replace *)

(** Splitting a text with no separator, and at the first separator. *)
Lemma split_without_separator (sep : N) (a : jsstring) :
  existsb (N.eqb sep) a = false -> split sep a = [a].
Proof.
  induction a as [|c a IH]; [reflexivity|].
  cbn [existsb split]. intros H. apply orb_false_elim in H as [Hc Ha].
  rewrite N.eqb_sym in Hc. rewrite Hc, (IH Ha). reflexivity.
Qed.

Lemma split_at_separator (sep : N) (a b : jsstring) :
  existsb (N.eqb sep) a = false ->
  split sep (a ++ sep :: b) = a :: split sep b.
Proof.
  induction a as [|c a IH]; cbn [existsb split app]; intros H.
  - now rewrite N.eqb_refl.
  - apply orb_false_elim in H as [Hc Ha].
    rewrite N.eqb_sym in Hc. rewrite Hc, (IH Ha). reflexivity.
Qed.

Lemma startsWith_app (p x : jsstring) : startsWith p (p ++ x) = true.
Proof.
  induction p as [|c p IH]; [reflexivity|].
  cbn [startsWith app]. now rewrite N.eqb_refl.
Qed.

(** The prefix a text starts with is removed. *)
Lemma removePrefix_app (p x : jsstring) : removePrefix p (p ++ x) = x.
Proof.
  unfold removePrefix. rewrite startsWith_app.
  induction p as [|c p IH]; [reflexivity|]. exact IH.
Qed.

Lemma hasPlus_app (a b : jsstring) : hasPlus (a ++ b) = hasPlus a || hasPlus b.
Proof. apply existsb_app. Qed.

End JSFacts.

(** * Facts about Numbers *)

Module NumberFacts.

Import JS QArith_base.
Local Close Scope Q_scope.

(** ** Counters, lengths and integer literals *)

Lemma value_ofNat (i : nat) :
  Qeq (Number.value false (N.of_nat i) 0) (inject_Z (Z.of_nat i)).
Proof.
  unfold Number.value. rewrite nat_N_Z. cbn [Qpower]. apply Qmult_1_r.
Qed.

Lemma value_ofZ (z : Z) :
  Qeq (Number.value (z <? 0)%Z (Z.abs_N z) 0) (inject_Z z).
Proof.
  unfold Number.value. cbn [Qpower]. rewrite Qmult_1_r.
  rewrite N2Z.inj_abs_N.
  destruct (Z.ltb_spec z 0); [rewrite Z.abs_neq by lia | rewrite Z.abs_eq by lia];
    now rewrite ?Z.opp_involutive.
Qed.

Lemma compare_ofNat_Finite (i : nat) (s : bool) (m : N) (e : Z) :
  Number.compare (Number.ofNat i) (Number.Finite s m e) =
  Some (Qcompare (inject_Z (Z.of_nat i)) (Number.value s m e)).
Proof. cbn [Number.compare Number.ofNat]. now rewrite value_ofNat. Qed.

Lemma compare_Finite_ofNat (i : nat) (s : bool) (m : N) (e : Z) :
  Number.compare (Number.Finite s m e) (Number.ofNat i) =
  Some (Qcompare (Number.value s m e) (inject_Z (Z.of_nat i))).
Proof. cbn [Number.compare Number.ofNat]. now rewrite value_ofNat. Qed.

Lemma compare_ofNat (i n : nat) :
  Number.compare (Number.ofNat i) (Number.ofNat n) = Some (Nat.compare i n).
Proof.
  unfold Number.ofNat at 2. rewrite compare_ofNat_Finite, value_ofNat.
  f_equal. unfold Qcompare. cbn [inject_Z Qnum Qden]. rewrite !Z.mul_1_r.
  apply Nat2Z.inj_compare.
Qed.

(** [i < n] and [k >= n] on counters are those of the natural numbers. *)
Lemma ltb_ofNat (i n : nat) :
  Number.ltb (Number.ofNat i) (Number.ofNat n) = Nat.ltb i n.
Proof.
  unfold Number.ltb. rewrite compare_ofNat.
  destruct (Nat.compare_spec i n), (Nat.ltb_spec i n); try reflexivity; lia.
Qed.

Lemma geb_ofNat (k n : nat) :
  Number.geb (Number.ofNat k) (Number.ofNat n) = Nat.leb n k.
Proof.
  unfold Number.geb. rewrite compare_ofNat.
  destruct (Nat.compare_spec k n), (Nat.leb_spec n k); try reflexivity; lia.
Qed.


Lemma ofZ_ofNat (n : nat) : Number.ofZ (Z.of_nat n) = Number.ofNat n.
Proof.
  unfold Number.ofZ, Number.ofNat.
  replace (Z.of_nat n <? 0)%Z with false by (symmetry; apply Z.ltb_ge; lia).
  f_equal. lia.
Qed.

Lemma compare_ofNat_ofZ (i : nat) (z : Z) :
  Number.compare (Number.ofNat i) (Number.ofZ z) = Some (Z.compare (Z.of_nat i) z).
Proof.
  unfold Number.ofZ. rewrite compare_ofNat_Finite, value_ofZ.
  f_equal. unfold Qcompare. cbn [inject_Z Qnum Qden]. now rewrite !Z.mul_1_r.
Qed.

Lemma ltb_ofNat_ofZ (i : nat) (z : Z) :
  Number.ltb (Number.ofNat i) (Number.ofZ z) = (Z.of_nat i <? z)%Z.
Proof. unfold Number.ltb. rewrite compare_ofNat_ofZ. unfold Z.ltb. now destruct (_ ?= _)%Z. Qed.

Lemma geb_ofNat_ofZ (k : nat) (z : Z) :
  Number.geb (Number.ofNat k) (Number.ofZ z) = (z <=? Z.of_nat k)%Z.
Proof.
  unfold Number.geb. rewrite compare_ofNat_ofZ.
  rewrite Z.leb_antisym. unfold Z.ltb. now destruct (_ ?= _)%Z.
Qed.

(** ** The guard of a counting loop *)

(** A counter below a Number stays below it when it is lowered. *)
Lemma ltb_ofNat_le (x : Number.t) (i j : nat) :
  (j <= i)%nat ->
  Number.ltb (Number.ofNat i) x = true -> Number.ltb (Number.ofNat j) x = true.
Proof.
  intros Hji. unfold Number.ltb.
  destruct x as [|s|s m e]; [discriminate|destruct s; trivial|].
  rewrite !compare_ofNat_Finite.
  destruct (Qcompare_spec (inject_Z (Z.of_nat i)) (Number.value s m e)) as [|Hlt|];
    try discriminate.
  intros _.
  assert (H : Qlt (inject_Z (Z.of_nat j)) (Number.value s m e)).
  { eapply Qle_lt_trans; [|exact Hlt]. rewrite <- Zle_Qle. lia. }
  apply Qlt_alt in H.
  change (Qcompare (inject_Z (Z.of_nat j)) (Number.value s m e) = Lt) in H.
  now rewrite H.
Qed.

(** ** The order of the Numbers *)

Lemma compare_antisym (x y : Number.t) :
  Number.compare y x = option_map CompOpp (Number.compare x y).
Proof.
  destruct x as [|[]|s1 m1 e1], y as [|[]|s2 m2 e2]; cbn; try reflexivity;
    try (destruct s1; reflexivity); try (destruct s2; reflexivity).
  f_equal. symmetry. apply Qcompare_antisym.
Qed.

Lemma compare_None_ofNat (x : Number.t) (n : nat) :
  Number.compare x (Number.ofNat n) = None -> x = Number.NaN.
Proof. destruct x as [|[]|s m e]; cbn; congruence. Qed.

(** Equal Numbers compare alike with any other. *)
Lemma compare_eq_r (x y z : Number.t) :
  Number.compare x y = Some Eq -> Number.compare z x = Number.compare z y.
Proof.
  destruct x as [|[]|s1 m1 e1], y as [|[]|s2 m2 e2]; cbn; try discriminate;
    try reflexivity;
    try (destruct s1; discriminate); try (destruct s2; discriminate).
  intros [= H]. apply Qeq_alt in H.
  destruct z as [|[]|s3 m3 e3]; cbn; try reflexivity. now rewrite H.
Qed.

Lemma compare_lt_trans (x y z : Number.t) :
  Number.compare x y = Some Lt -> Number.compare y z = Some Lt ->
  Number.compare x z = Some Lt.
Proof.
  destruct x as [|[]|s1 m1 e1], y as [|[]|s2 m2 e2], z as [|[]|s3 m3 e3]; cbn;
    try discriminate; try reflexivity.
  intros [= H1] [= H2]. f_equal.
  apply Qlt_alt in H1, H2. apply Qlt_alt. now apply Qlt_trans with (Number.value s2 m2 e2).
Qed.

Lemma compare_lt_eq (x y z : Number.t) :
  Number.compare x y = Some Lt -> Number.compare y z = Some Eq ->
  Number.compare x z = Some Lt.
Proof. intros H1 H2. now rewrite <- (compare_eq_r y z x H2). Qed.

Lemma compare_eq_lt (x y z : Number.t) :
  Number.compare x y = Some Eq -> Number.compare y z = Some Lt ->
  Number.compare x z = Some Lt.
Proof.
  intros H1 H2. rewrite compare_antisym in H2.
  rewrite compare_antisym in H1.
  destruct (Number.compare y x) as [[]|] eqn:Hyx; try discriminate H1.
  rewrite compare_antisym. rewrite (compare_eq_r y x z Hyx) in H2.
  destruct (Number.compare z x) as [[]|]; try discriminate H2. reflexivity.
Qed.

Lemma ltb_compare (x y : Number.t) :
  Number.ltb x y = true <-> Number.compare x y = Some Lt.
Proof.
  unfold Number.ltb. destruct (Number.compare x y) as [[]|]; split; congruence.
Qed.

Lemma geb_compare (x y : Number.t) :
  Number.geb x y = true <->
  Number.compare y x = Some Lt \/ Number.compare y x = Some Eq.
Proof.
  unfold Number.geb. rewrite (compare_antisym x y).
  destruct (Number.compare x y) as [[]|]; cbn; split; intros H;
    try reflexivity; try discriminate; try (now left); try (now right);
    destruct H; discriminate.
Qed.

(** [k >= x] follows from [k >= y] and [y >= x]. *)
Lemma geb_trans (x y z : Number.t) :
  Number.geb x y = true -> Number.geb y z = true -> Number.geb x z = true.
Proof.
  rewrite !geb_compare. intros [H1|H1] [H2|H2].
  - left. now apply compare_lt_trans with y.
  - left. now apply compare_eq_lt with y.
  - left. now apply compare_lt_eq with y.
  - right. now rewrite <- (compare_eq_r y x z H1).
Qed.

(** A counter is not below a Number that is at most zero, and every length
    is at least such a Number. *)
Lemma geb_ltb (x y : Number.t) :
  Number.geb x y = true -> Number.ltb x y = false.
Proof.
  unfold Number.geb, Number.ltb. now destruct (Number.compare x y) as [[]|].
Qed.

Lemma geb_ofNat_0 (k : nat) : Number.geb (Number.ofNat k) (Number.ofZ 0) = true.
Proof. rewrite geb_ofNat_ofZ. apply Z.leb_le. lia. Qed.

Lemma geb_nonpositive (x : Number.t) (k : nat) :
  Number.geb (Number.ofZ 0) x = true -> Number.geb (Number.ofNat k) x = true.
Proof. intros H. apply geb_trans with (Number.ofZ 0); [apply geb_ofNat_0 | exact H]. Qed.

Lemma ltb_nonpositive (x : Number.t) (i : nat) :
  Number.geb (Number.ofZ 0) x = true -> Number.ltb (Number.ofNat i) x = false.
Proof. intros H. now apply geb_ltb, geb_nonpositive. Qed.

(** ** Math.min with a length *)

Lemma min_ofNat (n : nat) : Number.min (Number.ofNat n) (Number.ofNat n) = Number.ofNat n.
Proof.
  unfold Number.min. rewrite compare_ofNat, Nat.compare_refl. reflexivity.
Qed.

(** The guard against [Math.min(x, n)]: the counter is below [x] and below
    [n]. *)
Lemma ltb_min (x : Number.t) (n i : nat) :
  Number.ltb (Number.ofNat i) (Number.min x (Number.ofNat n)) =
  Number.ltb (Number.ofNat i) x && Nat.ltb i n.
Proof.
  unfold Number.min.
  destruct (Number.compare x (Number.ofNat n)) as [[]|] eqn:Hc.
  - assert (Hx : Number.ltb (Number.ofNat i)
                   (if Number.isNegative x then x else Number.ofNat n)
                 = Number.ltb (Number.ofNat i) x).
    { destruct (Number.isNegative x); [reflexivity|].
      unfold Number.ltb. now rewrite (compare_eq_r x (Number.ofNat n) _ Hc). }
    rewrite Hx. unfold Number.ltb at 1 2.
    rewrite (compare_eq_r x (Number.ofNat n) _ Hc), compare_ofNat.
    destruct (Nat.compare_spec i n), (Nat.ltb_spec i n); try reflexivity; lia.
  - destruct (Number.ltb (Number.ofNat i) x) eqn:Hi; [|reflexivity].
    apply ltb_compare in Hi.
    pose proof (compare_lt_trans _ _ _ Hi Hc) as Hin.
    rewrite compare_ofNat in Hin. injection Hin as Hin.
    apply Nat.compare_lt_iff in Hin. symmetry. now apply Nat.ltb_lt.
  - rewrite ltb_ofNat. destruct (Nat.ltb_spec i n) as [Hin|Hin];
      [|now rewrite andb_false_r].
    rewrite andb_true_r. symmetry. apply ltb_compare.
    apply compare_lt_trans with (Number.ofNat n).
    + rewrite compare_ofNat. f_equal. now apply Nat.compare_lt_iff.
    + rewrite compare_antisym, Hc. reflexivity.
  - apply compare_None_ofNat in Hc. subst x. reflexivity.
Qed.

(** [Math.min(x, n)] is [n] when [x] is at least [n], and [x] when [x] is
    at most zero, for a length that is not zero. *)
Lemma min_large (x : Number.t) (n : nat) :
  (0 < n)%nat -> Number.geb x (Number.ofNat n) = true ->
  Number.min x (Number.ofNat n) = Number.ofNat n.
Proof.
  intros Hn Hge. unfold Number.min, Number.geb in *.
  destruct (Number.compare x (Number.ofNat n)) as [[]|] eqn:Hc; try discriminate;
    [|reflexivity].
  destruct x as [|[]|[] m e]; cbn [Number.isNegative]; try reflexivity;
    try discriminate Hc.
  exfalso. rewrite compare_Finite_ofNat in Hc. injection Hc as Hc.
  apply Qeq_alt in Hc.
  assert (Hle : Qle (Number.value true m e) (inject_Z 0)).
  { unfold Number.value.
    rewrite <- (Qmult_0_l (Qpower (2 # 1) e)). apply Qmult_le_compat_r.
    - change (Qle (inject_Z (- Z.of_N m)) (inject_Z 0)). rewrite <- Zle_Qle. lia.
    - apply Qlt_le_weak, Qpower.Qpower_0_lt. reflexivity. }
  rewrite Hc in Hle. rewrite <- Zle_Qle in Hle. lia.
Qed.

Lemma min_nonpositive (x : Number.t) (n : nat) :
  (0 < n)%nat -> Number.geb (Number.ofZ 0) x = true ->
  Number.min x (Number.ofNat n) = x.
Proof.
  intros Hn Hle. unfold Number.min.
  assert (Hc : Number.compare x (Number.ofNat n) = Some Lt).
  { apply geb_compare in Hle.
    assert (H0 : Number.compare (Number.ofZ 0) (Number.ofNat n) = Some Lt).
    { change (Number.ofZ 0) with (Number.ofNat 0). rewrite compare_ofNat.
      f_equal. now apply Nat.compare_lt_iff. }
    destruct Hle as [Hle|Hle].
    - now apply compare_lt_trans with (Number.ofZ 0).
    - now apply compare_eq_lt with (Number.ofZ 0). }
  now rewrite Hc.
Qed.

Lemma min_ofNat_ofNat (k n : nat) :
  Number.min (Number.ofNat k) (Number.ofNat n) = Number.ofNat (Nat.min k n).
Proof.
  unfold Number.min. rewrite compare_ofNat.
  destruct (Nat.compare_spec k n); cbn [Number.isNegative Number.ofNat];
    f_equal; f_equal; lia.
Qed.

(** Two natural numbers with the same numbers below them are equal. *)
Lemma nat_lt_ext (a b : nat) : (forall j, (j < a)%nat <-> (j < b)%nat) -> a = b.
Proof.
  intros H. destruct (Nat.lt_trichotomy a b) as [Hlt|[Heq|Hgt]]; [|assumption|].
  - apply H in Hlt. lia.
  - apply H in Hgt. lia.
Qed.

End NumberFacts.

(** * Facts about the planner *)

Module PlannerFacts.

Import JS ResourceSearch JSFacts.
Local Open Scope N_scope.

(** ** The profile table *)

(** An entry that is looked up is one of the table. *)
Lemma lookup_In (table : list (jsstring * ResourceMapEntry)) (key : jsstring)
  (e : ResourceMapEntry) :
  lookup table key = Some e -> In e (List.map snd table).
Proof.
  induction table as [|[k e'] rest IH]; [discriminate|].
  cbn [lookup List.map snd]. destruct (eqb_string k key).
  - intros [= ->]. now left.
  - intros H. right. auto.
Qed.

(** Every profile of the table has slugs and keywords, all ASCII, and no slug
    holds a plus sign. *)
Lemma RESOURCE_MAP_plain (key : jsstring) (e : ResourceMapEntry) :
  lookup RESOURCE_MAP key = Some e -> plainEntry e = true.
Proof.
  intros H. apply lookup_In in H.
  assert (Hall : forallb plainEntry (List.map snd RESOURCE_MAP) = true)
    by (vm_compute; reflexivity).
  rewrite forallb_forall in Hall. auto.
Qed.

Lemma RESOURCE_MAP_no_plus (key : jsstring) (e : ResourceMapEntry) :
  lookup RESOURCE_MAP key = Some e ->
  forallb (fun s => negb (hasPlus s)) (slugs e) = true.
Proof.
  intros H. apply lookup_In in H.
  assert (Hall : forallb (fun e => forallb (fun s => negb (hasPlus s)) (slugs e))
                         (List.map snd RESOURCE_MAP) = true)
    by (vm_compute; reflexivity).
  rewrite forallb_forall in Hall. auto.
Qed.

Lemma isPlain_keywordPhrase (m : ResourceMapEntry) :
  forallb isPlain (keywords m) = true -> isPlain (keywordPhrase m) = true.
Proof.
  intros H. unfold keywordPhrase. apply isPlain_join; [reflexivity|].
  rewrite forallb_forall in *. intros x Hx.
  apply in_map_iff in Hx as (k & <- & Hk). unfold quoted.
  rewrite !isPlain_app. rewrite (H k Hk). reflexivity.
Qed.

(** The encoding of a well-formed string. *)
Lemma encode_encoded (s : jsstring) :
  isWellFormed s = true -> encodeURIComponent s = Ok (encoded s).
Proof.
  intros H. unfold encoded. now destruct (encode_wellFormed s H) as [e ->].
Qed.

(** ** The slug loop *)

(** The slug loop written out: without a subject token, with one, and with
    one that cannot be encoded. *)
Lemma slugLoop_without_subject (subject : option jsstring)
  (slugs : list jsstring) (acc : list Attempt.t) :
  truthy subject = None ->
  forallb isPlain slugs = true ->
  slugLoop subject slugs acc =
  Ok (acc ++ List.map (fun slug => slugAttempt slug (encoded slug)) slugs).
Proof.
  intros Hs. revert acc.
  induction slugs as [|slug rest IH]; intros acc Hp; cbn [slugLoop List.map].
  - now rewrite app_nil_r.
  - cbn [forallb] in Hp. apply andb_prop in Hp as [Hslug Hrest].
    rewrite Hs. cbn [bind].
    rewrite encode_encoded by now apply isPlain_wellFormed.
    cbn [bind]. rewrite IH by assumption. now rewrite <- app_assoc.
Qed.

Lemma slugLoop_with_subject (subject : option jsstring) (s : jsstring)
  (slugs : list jsstring) (acc : list Attempt.t) :
  truthy subject = Some s ->
  isWellFormed s = true ->
  forallb isPlain slugs = true ->
  slugLoop subject slugs acc =
  Ok (acc ++ flat_map (fun slug =>
                         [combinedAttempt slug s (encoded slug) (encoded s);
                          slugAttempt slug (encoded slug)]) slugs).
Proof.
  intros Hs Hwf. revert acc.
  induction slugs as [|slug rest IH]; intros acc Hp; cbn [slugLoop flat_map].
  - now rewrite app_nil_r.
  - cbn [forallb] in Hp. apply andb_prop in Hp as [Hslug Hrest].
    rewrite Hs.
    rewrite (encode_encoded slug) by now apply isPlain_wellFormed.
    rewrite (encode_encoded s) by assumption.
    cbn [bind]. rewrite IH by assumption.
    rewrite <- !app_assoc. reflexivity.
Qed.

Lemma slugLoop_illFormed_subject (subject : option jsstring) (s : jsstring)
  (slug : jsstring) (rest : list jsstring) (acc : list Attempt.t) :
  truthy subject = Some s ->
  isWellFormed s = false ->
  isPlain slug = true ->
  slugLoop subject (slug :: rest) acc = Throw URIError.
Proof.
  intros Hs Hwf Hslug. cbn [slugLoop]. rewrite Hs.
  rewrite (encode_encoded slug) by now apply isPlain_wellFormed.
  rewrite (encode_illFormed s) by assumption. reflexivity.
Qed.

(** The loop only looks at the subject through [if (subject)]. *)
Lemma slugLoop_truthy (s1 s2 : option jsstring) (slugs : list jsstring)
  (acc : list Attempt.t) :
  truthy s1 = truthy s2 -> slugLoop s1 slugs acc = slugLoop s2 slugs acc.
Proof.
  intros H. revert acc. induction slugs as [|slug rest IH]; intros acc; [reflexivity|].
  cbn [slugLoop]. rewrite H.
  destruct (match truthy s2 with
            | Some s => _
            | None => Ok acc
            end) as [acc1|e]; [|reflexivity].
  cbn [bind]. destruct (encodeURIComponent slug); [|reflexivity].
  cbn [bind]. apply IH.
Qed.

(** ** Lists of paired attempts *)

Section PairedPlan.

Variables (A B : Type) (f g : A -> B).

Lemma length_flat_map_pair (l : list A) :
  List.length (flat_map (fun x => [f x; g x]) l) = (2 * List.length l)%nat.
Proof. induction l as [|x l IH]; cbn [flat_map List.length app]; lia. Qed.

Lemma nth_error_flat_map_pair (tail : list B) (xs : list A) (k : nat) (x : A) :
  nth_error xs k = Some x ->
  nth_error (flat_map (fun x => [f x; g x]) xs ++ tail) (2 * k) = Some (f x)
  /\ nth_error (flat_map (fun x => [f x; g x]) xs ++ tail) (2 * k + 1) = Some (g x).
Proof.
  revert k. induction xs as [|y xs IH]; intros [|k] H; try discriminate.
  - injection H as ->. split; reflexivity.
  - cbn [nth_error] in H. destruct (IH k H) as [H1 H2].
    replace (2 * S k)%nat with (S (S (2 * k))) by lia.
    replace (S (S (2 * k)) + 1)%nat with (S (S (2 * k + 1))) by lia.
    cbn [flat_map app nth_error]. split; assumption.
Qed.

End PairedPlan.

Lemma nth_error_app_length {A : Type} (l tail : list A) (k : nat) :
  nth_error (l ++ tail) (List.length l + k) = nth_error tail k.
Proof. rewrite nth_error_app2 by lia. f_equal. lia. Qed.

(** In a list of subject attempts followed by keyword attempts, every subject
    attempt stands before every keyword attempt. *)
Lemma subject_before_keyword (l1 l2 : list Attempt.t) (i j : nat) (a b : Attempt.t) :
  Forall (fun x => Attempt.type x = Subject) l1 ->
  Forall (fun x => Attempt.type x = Keyword) l2 ->
  nth_error (l1 ++ l2) i = Some a -> nth_error (l1 ++ l2) j = Some b ->
  Attempt.type a = Subject -> Attempt.type b = Keyword -> (i < j)%nat.
Proof.
  intros H1 H2 Ha Hb Hta Htb.
  rewrite Forall_forall in H1, H2.
  assert (Hi : (i < List.length l1)%nat).
  { destruct (Nat.lt_ge_cases i (List.length l1)) as [|Hge]; [assumption|].
    rewrite nth_error_app2 in Ha by assumption.
    apply nth_error_In, H2 in Ha. congruence. }
  assert (Hj : (List.length l1 <= j)%nat).
  { destruct (Nat.lt_ge_cases j (List.length l1)) as [Hlt|]; [|assumption].
    rewrite nth_error_app1 in Hb by assumption.
    apply nth_error_In, H1 in Hb. congruence. }
  lia.
Qed.

Lemma planFor_split (m : ResourceMapEntry) (token : option jsstring) :
  exists l1 l2,
    planFor m token = l1 ++ l2
    /\ Forall (fun x => Attempt.type x = Subject) l1
    /\ Forall (fun x => Attempt.type x = Keyword) l2.
Proof.
  unfold planFor. destruct token as [s|]; eexists _, _; (split; [reflexivity|]); split.
  - apply Forall_forall. intros x Hx.
    apply in_flat_map in Hx as (slug & _ & [<-|[<-|[]]]); reflexivity.
  - repeat constructor.
  - apply Forall_forall. intros x Hx.
    apply in_map_iff in Hx as (slug & <- & _). reflexivity.
  - repeat constructor.
Qed.

(** ** The query of an attempt decodes, and its URL *)

Lemma decode_encoded_app (s t : jsstring) :
  isString s = true -> isWellFormed s = true ->
  decodeURIComponent (encoded s ++ t) = fmap (app s) (decodeURIComponent t).
Proof.
  intros Hs Hwf.
  apply (decode_encode_app (List.length s)); [lia | assumption |].
  now apply encode_encoded.
Qed.

Lemma decode_encoded (s : jsstring) :
  isString s = true -> isWellFormed s = true ->
  decodeURIComponent (encoded s) = Ok s.
Proof. intros Hs Hwf. apply decode_encode; [assumption | now apply encode_encoded]. Qed.

(** The query of a planned attempt decodes to the text it was built from. *)
Lemma decode_slugAttempt (slug : jsstring) :
  isPlain slug = true ->
  decodeURIComponent (Attempt.q (slugAttempt slug (encoded slug))) =
  Ok (lit "subject:" ++ slug).
Proof.
  intros Hp. cbn [Attempt.q slugAttempt].
  rewrite decode_literal by reflexivity.
  rewrite decode_encoded by (now apply isPlain_isString || now apply isPlain_wellFormed).
  reflexivity.
Qed.

Lemma decode_combinedAttempt (slug s : jsstring) :
  isPlain slug = true -> isString s = true -> isWellFormed s = true ->
  decodeURIComponent (Attempt.q (combinedAttempt slug s (encoded slug) (encoded s))) =
  Ok (lit "subject:" ++ slug ++ lit "+subject:" ++ s).
Proof.
  intros Hp Hs Hwf. cbn [Attempt.q combinedAttempt].
  rewrite decode_literal by reflexivity.
  rewrite decode_encoded_app by (now apply isPlain_isString || now apply isPlain_wellFormed).
  rewrite decode_literal by reflexivity.
  rewrite decode_encoded by assumption.
  reflexivity.
Qed.

(** The request URL of each kind of planned attempt. *)
Lemma requestUrl_slugAttempt (limit : Number.t) (slug : jsstring) :
  isPlain slug = true ->
  requestUrl limit (slugAttempt slug (encoded slug)) =
  Ok (subjectUrl limit (lit "subject:" ++ slug)).
Proof.
  intros Hp. unfold requestUrl. cbn [Attempt.type slugAttempt].
  change (Attempt.q _) with (Attempt.q (slugAttempt slug (encoded slug))).
  now rewrite decode_slugAttempt.
Qed.

Lemma requestUrl_combinedAttempt (limit : Number.t) (slug s : jsstring) :
  isPlain slug = true -> isString s = true -> isWellFormed s = true ->
  requestUrl limit (combinedAttempt slug s (encoded slug) (encoded s)) =
  Ok (subjectUrl limit (lit "subject:" ++ slug ++ lit "+subject:" ++ s)).
Proof.
  intros Hp Hs Hwf. unfold requestUrl. cbn [Attempt.type combinedAttempt].
  change (Attempt.q _)
    with (Attempt.q (combinedAttempt slug s (encoded slug) (encoded s))).
  now rewrite decode_combinedAttempt.
Qed.

Lemma requestUrl_keyword (limit : Number.t) (x descr : jsstring) :
  isString x = true -> isWellFormed x = true ->
  requestUrl limit (Attempt.mk Keyword (encoded x) descr) =
  Ok (keywordUrl limit x).
Proof.
  intros Hs Hwf. unfold requestUrl. cbn [Attempt.type Attempt.q].
  now rewrite decode_encoded.
Qed.

(** Every planned attempt has a request URL: building it raises nothing. *)
Lemma planFor_urls (m : ResourceMapEntry) (token : option jsstring) (limit : Number.t) :
  plainEntry m = true ->
  (forall s, token = Some s -> isString s = true /\ isWellFormed s = true) ->
  forall a, In a (planFor m token) -> exists u, requestUrl limit a = Ok u.
Proof.
  intros Hp Htok a Ha. unfold plainEntry in Hp.
  apply andb_prop in Hp as [Hp _]. apply andb_prop in Hp as [Hp _].
  apply andb_prop in Hp as [Hslugs Hkw].
  rewrite forallb_forall in Hslugs.
  pose proof (isPlain_keywordPhrase m Hkw) as Hphrase.
  assert (Hkey : exists u,
             requestUrl limit (keywordAttempt m (encoded (keywordPhrase m))) = Ok u).
  { eexists. apply requestUrl_keyword;
      [now apply isPlain_isString | now apply isPlain_wellFormed]. }
  unfold planFor in Ha. destruct token as [s|].
  - destruct (Htok s eq_refl) as [Hs Hwf].
    apply in_app_or in Ha as [Ha|Ha].
    + apply in_flat_map in Ha as (slug & Hslug & [<-|[<-|[]]]).
      * eexists. apply requestUrl_combinedAttempt; auto.
      * eexists. apply requestUrl_slugAttempt; auto.
    + destruct Ha as [<-|[<-|[]]]; [|exact Hkey].
      eexists. apply requestUrl_keyword.
      * rewrite !isString_app, Hs, (isPlain_isString _ Hphrase). reflexivity.
      * rewrite app_assoc, isWellFormed_app_l; [assumption|].
        apply isPlain_no_surrogates. now rewrite isPlain_app, Hphrase.
  - apply in_app_or in Ha as [Ha|Ha].
    + apply in_map_iff in Ha as (slug & <- & Hslug).
      eexists. apply requestUrl_slugAttempt; auto.
    + destruct Ha as [<-|[]]. exact Hkey.
Qed.

(** Without plus signs the subject parameters are the original strings. *)
Lemma requestUrl_one_subject (limit : Number.t) (slug : jsstring) :
  isPlain slug = true -> hasPlus slug = false ->
  requestUrl limit (slugAttempt slug (encoded slug)) =
  Ok (lit "https://openlibrary.org/search.json?"
      ++ toString [(lit "subject", slug); (lit "limit", numberToString limit)]).
Proof.
  intros Hp Hplus. rewrite requestUrl_slugAttempt by assumption.
  unfold subjectUrl. rewrite split_without_separator.
  - cbn [List.map fold_left]. now rewrite removePrefix_app.
  - change (existsb (N.eqb 0x2B) (lit "subject:" ++ slug))
      with (hasPlus (lit "subject:" ++ slug)).
    now rewrite hasPlus_app, Hplus.
Qed.

Lemma requestUrl_two_subjects (limit : Number.t) (slug s : jsstring) :
  isPlain slug = true -> hasPlus slug = false ->
  isString s = true -> isWellFormed s = true -> hasPlus s = false ->
  requestUrl limit (combinedAttempt slug s (encoded slug) (encoded s)) =
  Ok (lit "https://openlibrary.org/search.json?"
      ++ toString [(lit "subject", slug); (lit "subject", s);
                   (lit "limit", numberToString limit)]).
Proof.
  intros Hp Hplus Hs Hwf Hsplus.
  rewrite requestUrl_combinedAttempt by assumption.
  unfold subjectUrl.
  change (lit "subject:" ++ slug ++ lit "+subject:" ++ s)
    with (lit "subject:" ++ slug ++ 0x2B :: lit "subject:" ++ s).
  rewrite app_assoc, split_at_separator, split_without_separator.
  - cbn [List.map fold_left]. now rewrite !removePrefix_app.
  - change (existsb (N.eqb 0x2B) (lit "subject:" ++ s))
      with (hasPlus (lit "subject:" ++ s)).
    now rewrite hasPlus_app, Hsplus.
  - change (existsb (N.eqb 0x2B) (lit "subject:" ++ slug))
      with (hasPlus (lit "subject:" ++ slug)).
    now rewrite hasPlus_app, Hplus.
Qed.

Lemma requestUrl_query (limit : Number.t) (x descr : jsstring) :
  isString x = true -> isWellFormed x = true ->
  requestUrl limit (Attempt.mk Keyword (encoded x) descr) =
  Ok (lit "https://openlibrary.org/search.json?"
      ++ toString [(lit "q", x); (lit "limit", numberToString limit)]).
Proof. intros Hs Hwf. now rewrite requestUrl_keyword. Qed.

(** ** buildQueryAttempts *)

Section Planner.
Variable Doc : Type.
Implicit Types opts : SearchOptions Doc.

Lemma buildQueryAttempts_unknown (rt : jsstring) opts :
  lookup RESOURCE_MAP rt = None -> buildQueryAttempts rt opts = Throw TypeError.
Proof. intros H. unfold buildQueryAttempts. now rewrite H. Qed.

Lemma buildQueryAttempts_planFor (rt : jsstring) opts (m : ResourceMapEntry) :
  lookup RESOURCE_MAP rt = Some m ->
  (forall s, subjectToken opts = Some s -> isWellFormed s = true) ->
  buildQueryAttempts rt opts = Ok (planFor m (subjectToken opts)).
Proof.
  intros Hm Hwf. pose proof (RESOURCE_MAP_plain _ _ Hm) as Hp.
  unfold plainEntry in Hp. 
  apply andb_prop in Hp as [Hp _]. apply andb_prop in Hp as [Hp _].
  apply andb_prop in Hp as [Hslugs Hkw].
  unfold buildQueryAttempts. rewrite Hm.
  unfold subjectToken in *.
  destruct (truthy (option_map trim (subjectSlug opts))) as [s|] eqn:Hs.
  - specialize (Hwf s eq_refl).
    rewrite (slugLoop_with_subject _ _ _ [] Hs Hwf Hslugs). cbn [bind app].
    rewrite !encode_encoded.
    + reflexivity.
    + now apply isPlain_wellFormed, isPlain_keywordPhrase.
    + rewrite app_assoc, isWellFormed_app_l; [assumption|].
      apply isPlain_no_surrogates. rewrite isPlain_app.
      now rewrite isPlain_keywordPhrase.
  - rewrite (slugLoop_without_subject _ _ [] Hs Hslugs). cbn [bind app].
    rewrite encode_encoded by now apply isPlain_wellFormed, isPlain_keywordPhrase.
    reflexivity.
Qed.

Lemma buildQueryAttempts_illFormed (rt : jsstring) opts (m : ResourceMapEntry)
  (s : jsstring) :
  lookup RESOURCE_MAP rt = Some m ->
  subjectToken opts = Some s -> isWellFormed s = false ->
  buildQueryAttempts rt opts = Throw URIError.
Proof.
  intros Hm Hs Hwf. pose proof (RESOURCE_MAP_plain _ _ Hm) as Hp.
  unfold plainEntry in Hp.
  apply andb_prop in Hp as [Hp _]. apply andb_prop in Hp as [Hp Hne].
  apply andb_prop in Hp as [Hslugs Hkw].
  unfold buildQueryAttempts. rewrite Hm. unfold subjectToken in Hs.
  destruct (slugs m) as [|slug rest]; [discriminate|].
  cbn [forallb] in Hslugs. apply andb_prop in Hslugs as [Hslug _].
  now rewrite (slugLoop_illFormed_subject _ _ _ _ [] Hs Hwf Hslug).
Qed.

End Planner.

Section PlannerInversion.

Variable Doc : Type.
Implicit Types opts : SearchOptions Doc.

Lemma truthy_Some (subject : option jsstring) (s : jsstring) :
  truthy subject = Some s -> subject = Some s.
Proof. destruct subject as [[|c r]|]; cbn; congruence. Qed.

Lemma subjectToken_trim opts (s : jsstring) :
  subjectToken opts = Some s -> exists s0, subjectSlug opts = Some s0 /\ s = trim s0.
Proof.
  unfold subjectToken. intros Hs. apply truthy_Some in Hs.
  destruct (subjectSlug opts) as [s0|]; [|discriminate].
  cbn in Hs. injection Hs as <-. now exists s0.
Qed.

Lemma stringSubject_token opts (s : jsstring) :
  stringSubject opts = true -> subjectToken opts = Some s -> isString s = true.
Proof.
  unfold stringSubject. intros Hv Hs.
  destruct (subjectToken_trim opts s Hs) as (s0 & Hs0 & ->).
  rewrite Hs0 in Hv. now apply isString_trim.
Qed.

Lemma wellFormedSubject_token opts (s : jsstring) :
  wellFormedSubject opts = true -> subjectToken opts = Some s ->
  isWellFormed s = true.
Proof.
  unfold wellFormedSubject. intros Hv Hs.
  destruct (subjectToken_trim opts s Hs) as (s0 & Hs0 & ->).
  rewrite Hs0 in Hv. now rewrite isWellFormed_trim.
Qed.

Lemma buildQueryAttempts_Ok_inv (rt : jsstring) opts (plan : list Attempt.t) :
  buildQueryAttempts rt opts = Ok plan ->
  exists m, lookup RESOURCE_MAP rt = Some m.
Proof.
  unfold buildQueryAttempts. destruct (lookup RESOURCE_MAP rt) as [m|]; [eauto|discriminate].
Qed.

Lemma buildQueryAttempts_wellFormed (rt : jsstring) opts (m : ResourceMapEntry) :
  lookup RESOURCE_MAP rt = Some m -> wellFormedSubject opts = true ->
  buildQueryAttempts rt opts = Ok (planFor m (subjectToken opts)).
Proof.
  intros Hm Hv. apply buildQueryAttempts_planFor; [assumption|].
  intros s Hs. now apply (wellFormedSubject_token opts s Hv).
Qed.

(** A plan that was returned is the plan written out, and its subject token
    was well formed. *)
Lemma buildQueryAttempts_Ok_planFor (rt : jsstring) opts (m : ResourceMapEntry)
  (plan : list Attempt.t) :
  lookup RESOURCE_MAP rt = Some m ->
  buildQueryAttempts rt opts = Ok plan ->
  plan = planFor m (subjectToken opts)
  /\ forall s, subjectToken opts = Some s -> isWellFormed s = true.
Proof.
  intros Hm Hb.
  assert (Hwf : forall s, subjectToken opts = Some s -> isWellFormed s = true).
  { intros s Hs. destruct (isWellFormed s) eqn:Hw; [reflexivity|].
    rewrite (buildQueryAttempts_illFormed Doc rt opts m s Hm Hs Hw) in Hb.
    discriminate. }
  split; [|exact Hwf].
  rewrite (buildQueryAttempts_planFor Doc rt opts m Hm Hwf) in Hb. congruence.
Qed.

(** Every attempt of a returned plan has a request URL. *)
Lemma plan_urls_ok (rt : jsstring) opts (plan : list Attempt.t) :
  stringSubject opts = true -> buildQueryAttempts rt opts = Ok plan ->
  forall i a, nth_error plan i = Some a ->
              exists u, requestUrl (limitOf opts) a = Ok u.
Proof.
  intros Hv Hb i a Ha.
  destruct (buildQueryAttempts_Ok_inv rt opts plan Hb) as [m Hm].
  destruct (buildQueryAttempts_Ok_planFor rt opts m plan Hm Hb) as [-> Hwf].
  apply (planFor_urls m (subjectToken opts) (limitOf opts)).
  - exact (RESOURCE_MAP_plain _ _ Hm).
  - intros s Hs. split; [now apply (stringSubject_token opts s Hv) | now apply Hwf].
  - eapply nth_error_In; eassumption.
Qed.

Lemma illFormed_subject_token opts (s : jsstring) :
  subjectSlug opts = Some s -> isWellFormed s = false ->
  subjectToken opts = Some (trim s) /\ isWellFormed (trim s) = false.
Proof.
  intros Hs Hw. rewrite <- isWellFormed_trim in Hw.
  unfold subjectToken. rewrite Hs. cbn [option_map].
  destruct (trim s) as [|c r]; [discriminate|]. now split.
Qed.

End PlannerInversion.

Section UrlsWithoutPlus.

Variable Doc : Type.
Implicit Types opts : SearchOptions Doc.

(** Where the subject token holds no plus sign, every attempt of a plan has
    the request URL the planner's account of it promises: a subject-filter
    attempt one [subject] parameter for the slug, followed by one for the
    token when the attempt combines them, and a keyword attempt a single [q]
    parameter with the OR'd phrase (followed by the token when combined);
    each with the limit, and each string as it was given. *)
Lemma request_urls_without_plus (rt : jsstring) opts (m : ResourceMapEntry)
  (plan : list Attempt.t) (limit_ : Number.t) :
  lookup RESOURCE_MAP rt = Some m ->
  stringSubject opts = true ->
  buildQueryAttempts rt opts = Ok plan ->
  (forall s, subjectToken opts = Some s -> hasPlus s = false) ->
  forall a, In a plan ->
    match Attempt.type a with
    | Subject =>
        exists slug,
          In slug (slugs m)
          /\ (requestUrl limit_ a =
              Ok (lit "https://openlibrary.org/search.json?"
                  ++ toString [(lit "subject", slug);
                               (lit "limit", numberToString limit_)])
              \/ exists s,
                  subjectToken opts = Some s
                  /\ requestUrl limit_ a =
                     Ok (lit "https://openlibrary.org/search.json?"
                         ++ toString [(lit "subject", slug); (lit "subject", s);
                                      (lit "limit", numberToString limit_)]))
    | Keyword =>
        exists x,
          requestUrl limit_ a =
          Ok (lit "https://openlibrary.org/search.json?"
              ++ toString [(lit "q", x); (lit "limit", numberToString limit_)])
          /\ (x = keywordPhrase m
              \/ exists s, subjectToken opts = Some s
                           /\ x = keywordPhrase m ++ lit " " ++ s)
    end.
Proof.
  intros Hm Hstr Hb Hplus a Ha.
  destruct (buildQueryAttempts_Ok_planFor Doc rt opts m plan Hm Hb) as [-> Hwf].
  pose proof (RESOURCE_MAP_plain rt m Hm) as Hp. unfold plainEntry in Hp.
  apply andb_prop in Hp as [Hp _]. apply andb_prop in Hp as [Hp _].
  apply andb_prop in Hp as [Hslugs Hkw].
  pose proof (RESOURCE_MAP_no_plus rt m Hm) as Hnp.
  rewrite forallb_forall in Hslugs, Hnp.
  pose proof (isPlain_keywordPhrase m Hkw) as Hphrase.
  assert (Hone : forall slug, In slug (slugs m) ->
                   requestUrl limit_ (slugAttempt slug (encoded slug)) =
                   Ok (lit "https://openlibrary.org/search.json?"
                       ++ toString [(lit "subject", slug);
                                    (lit "limit", numberToString limit_)])).
  { intros slug Hslug. apply requestUrl_one_subject; [now apply Hslugs|].
    now apply negb_true_iff, Hnp. }
  assert (Hq : requestUrl limit_ (keywordAttempt m (encoded (keywordPhrase m))) =
               Ok (lit "https://openlibrary.org/search.json?"
                   ++ toString [(lit "q", keywordPhrase m);
                                (lit "limit", numberToString limit_)])).
  { apply requestUrl_query;
      [now apply isPlain_isString | now apply isPlain_wellFormed]. }
  unfold planFor in Ha. destruct (subjectToken opts) as [s|] eqn:Hs.
  - pose proof (stringSubject_token Doc opts s Hstr Hs) as Hss.
    specialize (Hwf s eq_refl). specialize (Hplus s eq_refl).
    apply in_app_or in Ha as [Ha|Ha].
    + apply in_flat_map in Ha as (slug & Hslug & [<-|[<-|[]]]);
        cbn [Attempt.type combinedAttempt slugAttempt]; exists slug;
        (split; [assumption|]).
      * right. exists s. split; [reflexivity|].
        apply requestUrl_two_subjects; try assumption; [now apply Hslugs|].
        now apply negb_true_iff, Hnp.
      * left. now apply Hone.
    + destruct Ha as [<-|[<-|[]]]; cbn [Attempt.type keywordSubjectAttempt keywordAttempt].
      * exists (keywordPhrase m ++ lit " " ++ s). split.
        -- apply requestUrl_query.
           ++ rewrite !isString_app, Hss, (isPlain_isString _ Hphrase). reflexivity.
           ++ rewrite app_assoc, isWellFormed_app_l; [assumption|].
              apply isPlain_no_surrogates. now rewrite isPlain_app, Hphrase.
        -- right. now exists s.
      * exists (keywordPhrase m). split; [exact Hq | now left].
  - apply in_app_or in Ha as [Ha|Ha].
    + apply in_map_iff in Ha as (slug & <- & Hslug).
      cbn [Attempt.type slugAttempt]. exists slug. split; [assumption|].
      left. now apply Hone.
    + destruct Ha as [<-|[]]. cbn [Attempt.type keywordAttempt].
      exists (keywordPhrase m). split; [exact Hq | now left].
Qed.

End UrlsWithoutPlus.

End PlannerFacts.

(** * Facts about the retriever *)

Module RetrieverFacts.

Import JS ResourceSearch JSFacts NumberFacts PlannerFacts.

(** The requests of a trace extended. *)
Lemma requests_app (t1 t2 : list Event) :
  requests (t1 ++ t2) = requests t1 ++ requests t2.
Proof.
  induction t1 as [|[u|ms] t1 IH]; cbn [app requests]; [reflexivity| |assumption].
  now rewrite IH.
Qed.

Lemma skipn_nth_error {A : Type} (l : list A) (i : nat) (a : A) :
  nth_error l i = Some a -> skipn i l = a :: skipn (S i) l.
Proof.
  revert i. induction l as [|x l IH]; intros [|i] H; try discriminate.
  - now injection H as ->.
  - cbn [nth_error] in H. now apply IH.
Qed.

Lemma seq_snoc (m : nat) : seq 0 (S m) = seq 0 m ++ [m].
Proof. now rewrite seq_S. Qed.

(** ** The loop *)

Section LoopFacts.

Variable Doc : Type.
Variable net : nat -> jsstring -> FetchResult Doc.
Variable aborted : nat -> bool.
Variable attempts : list Attempt.t.
Variable limit_ minResults_ maxAttempts_ : Number.t.
Variable filter_ : option (Doc -> bool).

Local Abbreviation loop :=
  (attemptLoop net aborted attempts limit_ minResults_ maxAttempts_ filter_).
Local Abbreviation guard i := (Number.ltb (Number.ofNat i) maxAttempts_).
Local Abbreviation fallback lastResults :=
  (Outcome.mk lastResults maxAttempts_ (lit "fallback") None).
Local Abbreviation urlAt := (urlAt attempts limit_).
Local Abbreviation docsAt := (docsAt net attempts limit_ filter_).
Local Abbreviation acceptedAt := (acceptedAt net attempts limit_ minResults_ filter_).
Local Abbreviation lastSeen := (lastSeen net attempts limit_ filter_).

(** One evaluation of the guard and, where it holds, one iteration. *)
Lemma attemptLoop_cases (n i : nat) (lastResults : list Doc) (trace : list Event) :
  loop (S n) i lastResults trace =
  if guard i then
    match nth_error attempts i with
    | None => (Throw TypeError, trace)
    | Some a =>
        match requestUrl limit_ a with
        | Throw e => (Throw e, trace)
        | Ok u =>
            match readDocs filter_ (net (List.length (requests trace)) u) with
            | None => loop n (S i) [] (trace ++ [EvFetch u])
            | Some d =>
                if Number.geb (Number.ofNat (List.length d)) minResults_
                then (Ok (Outcome.mk d (Number.ofNat (i + 1))
                                     (Attempt.description a) (Some u)),
                      trace ++ [EvFetch u])
                else loop n (S i) d
                          ((trace ++ [EvFetch u])
                           ++ [EvSleep (120 + Z.of_nat i * 30)])
            end
        end
    end
  else (Ok (fallback lastResults), trace).
Proof.
  cbn [attemptLoop]. destruct (guard i); [|reflexivity].
  unfold bindIO at 1. unfold lift at 1.
  destruct (nth_error attempts i) as [a|]; [|reflexivity].
  unfold bindIO at 1. unfold lift at 1.
  destruct (requestUrl limit_ a) as [u|e]; [|reflexivity].
  unfold bindIO, fetch, sleep, ret. cbn [andb].
  destruct (readDocs filter_ (net (List.length (requests trace)) u)) as [d|];
    [|reflexivity].
  now destruct (Number.geb (Number.ofNat (List.length d)) minResults_).
Qed.

(** The loop ends by its guard: fuel beyond the indices at which the guard
    holds changes nothing. *)
Lemma attemptLoop_fuel :
  forall (n i : nat) (lastResults : list Doc) (trace : list Event),
    loop n i lastResults trace =
    loop (iterations maxAttempts_ n i) i lastResults trace.
Proof.
  induction n as [|n IH]; intros i lastResults trace; [reflexivity|].
  cbn [iterations]. destruct (guard i) eqn:Hg.
  - rewrite !attemptLoop_cases, Hg.
    destruct (nth_error attempts i) as [a|]; [|reflexivity].
    destruct (requestUrl limit_ a) as [u|e]; [|reflexivity].
    destruct (readDocs filter_ (net (List.length (requests trace)) u)) as [d|];
      [|apply IH].
    destruct (Number.geb (Number.ofNat (List.length d)) minResults_);
      [reflexivity | apply IH].
  - rewrite attemptLoop_cases, Hg. reflexivity.
Qed.

Lemma iterations_le : forall n i, (iterations maxAttempts_ n i <= n)%nat.
Proof.
  induction n as [|n IH]; intros i; cbn [iterations]; [lia|].
  destruct (guard i); [specialize (IH (S i))|]; lia.
Qed.

Lemma iterations_guard :
  forall n i j, (i <= j < i + iterations maxAttempts_ n i)%nat -> guard j = true.
Proof.
  induction n as [|n IH]; intros i j; cbn [iterations]; [lia|].
  destruct (guard i) eqn:Hg; [|lia]. intros Hj.
  destruct (Nat.eq_dec j i) as [->|Hne]; [assumption|].
  apply (IH (S i)). lia.
Qed.

Lemma iterations_stop :
  forall n i, (iterations maxAttempts_ n i < n)%nat ->
              guard (i + iterations maxAttempts_ n i) = false.
Proof.
  induction n as [|n IH]; intros i; cbn [iterations]; [lia|].
  destruct (guard i) eqn:Hg.
  - intros H. rewrite Nat.add_succ_r. apply (IH (S i)). lia.
  - intros _. now rewrite Nat.add_0_r.
Qed.

Hypothesis urls_ok :
  forall i a, nth_error attempts i = Some a -> exists u, requestUrl limit_ a = Ok u.

Lemma urlAt_eq (i : nat) (a : Attempt.t) (u : jsstring) :
  nth_error attempts i = Some a -> requestUrl limit_ a = Ok u -> urlAt i = u.
Proof. intros Ha Hu. unfold ResourceSearch.urlAt. now rewrite Ha, Hu. Qed.

Lemma attemptLoop_step (n i : nat) (lastResults : list Doc)
  (trace : list Event) (a : Attempt.t) (u : jsstring) :
  guard i = true ->
  nth_error attempts i = Some a ->
  requestUrl limit_ a = Ok u ->
  loop (S n) i lastResults trace =
  match readDocs filter_ (net (List.length (requests trace)) u) with
  | None => loop n (S i) [] (trace ++ [EvFetch u])
  | Some d =>
      if Number.geb (Number.ofNat (List.length d)) minResults_
      then (Ok (Outcome.mk d (Number.ofNat (i + 1)) (Attempt.description a) (Some u)),
            trace ++ [EvFetch u])
      else loop n (S i) d
                ((trace ++ [EvFetch u]) ++ [EvSleep (120 + Z.of_nat i * 30)])
  end.
Proof. intros Hg Ha Hu. now rewrite attemptLoop_cases, Hg, Ha, Hu. Qed.

(** The loop over [n] indices at which the guard holds. *)
Lemma attemptLoop_spec :
  forall (n i : nat) (lastResults : list Doc) (trace : list Event),
    List.length (requests trace) = i ->
    (i + n <= List.length attempts)%nat ->
    (forall j, (i <= j < i + n)%nat -> guard j = true) ->
    exists out trace',
      loop n i lastResults trace = (Ok out, trace')
      /\ ((exists k a d,
              (i <= k < i + n)%nat
              /\ nth_error attempts k = Some a
              /\ docsAt k = Some d
              /\ Number.geb (Number.ofNat (List.length d)) minResults_ = true
              /\ (forall j, (i <= j < k)%nat -> acceptedAt j = false)
              /\ out = Outcome.mk d (Number.ofNat (k + 1)) (Attempt.description a)
                                  (Some (urlAt k))
              /\ requests trace' =
                 requests trace ++ List.map urlAt (seq i (S k - i)))
          \/ ((forall j, (i <= j < i + n)%nat -> acceptedAt j = false)
              /\ out = fallback (lastSeen n i lastResults)
              /\ requests trace' =
                 requests trace ++ List.map urlAt (seq i n))).
Proof.
  induction n as [|n IH]; intros i lastResults trace Hi Hlen Hguard.
  - exists (fallback lastResults), trace.
    split; [reflexivity|]. right. splits.
    + intros j Hj. lia.
    + reflexivity.
    + cbn. now rewrite app_nil_r.
  - destruct (nth_error attempts i) as [a|] eqn:Ha.
    2:{ apply nth_error_None in Ha. lia. }
    destruct (urls_ok i a Ha) as [u Hu].
    pose proof (urlAt_eq i a u Ha Hu) as Hurl.
    rewrite (attemptLoop_step n i lastResults trace a u (Hguard i ltac:(lia)) Ha Hu).
    rewrite Hi, <- Hurl. fold (docsAt i).
    assert (Hreq : requests (trace ++ [EvFetch (urlAt i)]) = requests trace ++ [urlAt i]).
    { now rewrite requests_app. }
    assert (Hi1 : List.length (requests (trace ++ [EvFetch (urlAt i)])) = S i).
    { rewrite Hreq, length_app. cbn. lia. }
    assert (Hnot : forall j, acceptedAt i = false ->
                   (forall j', (S i <= j' < j)%nat -> acceptedAt j' = false) ->
                   forall j', (i <= j' < j)%nat -> acceptedAt j' = false).
    { intros j Hai Hrest j' Hj'. destruct (Nat.eq_dec j' i) as [->|Hne];
        [assumption | apply Hrest; lia]. }
    assert (Hseq : forall m, requests trace ++ [urlAt i] ++ List.map urlAt (seq (S i) m)
                   = requests trace ++ List.map urlAt (seq i (S m))) by reflexivity.
    assert (Hguard' : forall j, (S i <= j < S i + n)%nat -> guard j = true).
    { intros j Hj. apply Hguard. lia. }
    destruct (docsAt i) as [d|] eqn:Hd.
    + destruct (Number.geb (Number.ofNat (List.length d)) minResults_) eqn:Hacc.
      * eexists _, _. split; [reflexivity|]. left.
        exists i, a, d. splits.
        -- lia.
        -- lia.
        -- assumption.
        -- assumption.
        -- assumption.
        -- intros j Hj. lia.
        -- reflexivity.
        -- rewrite Hreq. replace (S i - i)%nat with 1%nat by lia. reflexivity.
      * assert (Hai : acceptedAt i = false)
          by (unfold ResourceSearch.acceptedAt; now rewrite Hd).
        set (trace2 := (trace ++ [EvFetch (urlAt i)]) ++ [EvSleep (120 + Z.of_nat i * 30)]).
        assert (Hreq2 : requests trace2 = requests trace ++ [urlAt i]).
        { unfold trace2. rewrite requests_app, Hreq. cbn. now rewrite app_nil_r. }
        destruct (IH (S i) d trace2) as (out & trace' & Hrun & Hcases).
        { now rewrite Hreq2, <- Hreq. }
        { lia. }
        { exact Hguard'. }
        exists out, trace'. split; [exact Hrun|].
        destruct Hcases as [(k & a' & d' & Hk & Ha' & Hd' & Hmin & Hfirst & Hout & Htr)
                           |(Hnone & Hout & Htr)].
        -- left. exists k, a', d'. splits; try assumption; try lia.
           ++ now apply Hnot.
           ++ rewrite Htr, Hreq2, <- app_assoc, Hseq.
              now replace (S k - i)%nat with (S (S k - S i)) by lia.
        -- right. splits.
           ++ apply Hnot; [assumption|]. intros j' Hj'. apply Hnone. lia.
           ++ rewrite Hout. f_equal. destruct n as [|n']; cbn [ResourceSearch.lastSeen].
              ** now rewrite Nat.add_0_r, Hd.
              ** now rewrite Nat.add_succ_comm.
           ++ now rewrite Htr, Hreq2, <- app_assoc, Hseq.
    + assert (Hai : acceptedAt i = false)
        by (unfold ResourceSearch.acceptedAt; now rewrite Hd).
      set (trace1 := trace ++ [EvFetch (urlAt i)]) in *.
      destruct (IH (S i) [] trace1) as (out & trace' & Hrun & Hcases).
      { exact Hi1. }
      { lia. }
      { exact Hguard'. }
      exists out, trace'. split; [exact Hrun|].
      destruct Hcases as [(k & a' & d' & Hk & Ha' & Hd' & Hmin & Hfirst & Hout & Htr)
                         |(Hnone & Hout & Htr)].
      * left. exists k, a', d'. splits; try assumption; try lia.
        -- now apply Hnot.
        -- rewrite Htr, Hreq, <- app_assoc, Hseq.
           now replace (S k - i)%nat with (S (S k - S i)) by lia.
      * right. splits.
        -- apply Hnot; [assumption|]. intros j' Hj'. apply Hnone. lia.
        -- rewrite Hout. f_equal. destruct n as [|n']; cbn [ResourceSearch.lastSeen].
           ++ now rewrite Nat.add_0_r, Hd.
           ++ now rewrite Nat.add_succ_comm.
        -- now rewrite Htr, Hreq, <- app_assoc, Hseq.
Qed.

End LoopFacts.

Section LoopRequests.

Variable Doc : Type.
Variable net : nat -> jsstring -> FetchResult Doc.
Variable aborted : nat -> bool.
Variable attempts : list Attempt.t.
Variable limit_ minResults_ maxAttempts_ : Number.t.
Variable filter_ : option (Doc -> bool).

Local Abbreviation loop :=
  (attemptLoop net aborted attempts limit_ minResults_ maxAttempts_ filter_).

(** Whatever the loop does, it issues at most one request per iteration,
    each the URL of the attempt of that iteration. *)
Lemma attemptLoop_requests :
  forall (n i : nat) (lastResults : list Doc) (trace : list Event),
  exists r trace' us,
    loop n i lastResults trace = (r, trace')
    /\ requests trace' = requests trace ++ us
    /\ (List.length us <= n)%nat
    /\ Forall2 (fun a u => requestUrl limit_ a = Ok u)
               (firstn (List.length us) (skipn i attempts)) us.
Proof.
  induction n as [|n IH]; intros i lastResults trace.
  - eexists _, trace, []. splits; [reflexivity | now rewrite app_nil_r | cbn; lia | constructor].
  - assert (Hstop : forall r : result (Outcome.t Doc),
               exists r' trace' us,
                 (r, trace) = (r', trace')
                 /\ requests trace' = requests trace ++ us
                 /\ (List.length us <= S n)%nat
                 /\ Forall2 (fun a u => requestUrl limit_ a = Ok u)
                            (firstn (List.length us) (skipn i attempts)) us).
    { intros r. eexists _, trace, []. splits;
        [reflexivity | now rewrite app_nil_r | cbn; lia | constructor]. }
    rewrite attemptLoop_cases.
    destruct (Number.ltb (Number.ofNat i) maxAttempts_); [|apply Hstop].
    destruct (nth_error attempts i) as [a|] eqn:Ha; [|apply Hstop].
    destruct (requestUrl limit_ a) as [u|e] eqn:Hu; [|apply Hstop].
    rewrite (skipn_nth_error attempts i a Ha).
    assert (Hcont : forall last' trace1,
               requests trace1 = requests trace ++ [u] ->
               exists r trace' us,
                 loop n (S i) last' trace1 = (r, trace')
                 /\ requests trace' = requests trace ++ us
                 /\ (List.length us <= S n)%nat
                 /\ Forall2 (fun a u => requestUrl limit_ a = Ok u)
                            (firstn (List.length us) (a :: skipn (S i) attempts)) us).
    { intros last' trace1 Hreq.
      destruct (IH (S i) last' trace1) as (r & trace' & us' & Hrun & Htr & Hlen & Hall).
      exists r, trace', (u :: us'). splits.
      - exact Hrun.
      - now rewrite Htr, Hreq, <- app_assoc.
      - cbn [List.length]. lia.
      - cbn [List.length firstn]. now constructor. }
    destruct (readDocs filter_ (net (List.length (requests trace)) u)) as [d|].
    + destruct (Number.geb (Number.ofNat (List.length d)) minResults_).
      * eexists _, _, [u]. splits.
        -- reflexivity.
        -- now rewrite requests_app.
        -- cbn. lia.
        -- cbn [List.length firstn]. constructor; [assumption | constructor].
      * apply Hcont. rewrite !requests_app. cbn. now rewrite app_nil_r.
    + apply Hcont. now rewrite requests_app.
Qed.

End LoopRequests.

Section UrlLists.

Variable attempts : list Attempt.t.
Variable limit_ : Number.t.

Hypothesis urls_ok :
  forall i a, nth_error attempts i = Some a -> exists u, requestUrl limit_ a = Ok u.

(** The URLs of the first [m] attempts are the requests of the first [m]
    attempts, one each and in order. *)
Lemma urls_firstn (m : nat) :
  (m <= List.length attempts)%nat ->
  Forall2 (fun a u => requestUrl limit_ a = Ok u)
          (firstn m attempts) (List.map (urlAt attempts limit_) (seq 0 m)).
Proof.
  induction m as [|m IH]; intros Hm; [constructor|].
  destruct (nth_error attempts m) as [a|] eqn:Ha.
  2:{ apply nth_error_None in Ha. lia. }
  destruct (urls_ok m a Ha) as [u Hu].
  rewrite seq_snoc, map_app.
  assert (Hf : firstn (S m) attempts = firstn m attempts ++ [a]).
  { clear IH urls_ok Hu. revert m Hm Ha.
    induction attempts as [|x l IHl]; intros m Hm Ha; [destruct m; discriminate|].
    destruct m as [|m]; cbn in *.
    - now injection Ha as ->.
    - f_equal. apply IHl; [lia | assumption]. }
  rewrite Hf. apply Forall2_app; [apply IH; lia|].
  constructor; [|constructor]. now rewrite (urlAt_eq attempts limit_ m a u Ha Hu).
Qed.

End UrlLists.

(** ** runSmartSearch *)

Section RunFacts.

Variable Doc : Type.
Variable net : nat -> jsstring -> FetchResult Doc.
Variable aborted : nat -> bool.
Implicit Types opts : SearchOptions Doc.

(** The failed responses are those [readDocs] reads nothing from. *)
Lemma readDocs_failed (f : option (Doc -> bool)) (r : FetchResult Doc) :
  readDocs f r = None <-> failed r = true.
Proof.
  destruct r as [[o j]|reason]; cbn; [|tauto].
  destruct o, j; cbn; split; intros H; try reflexivity; discriminate H.
Qed.

(** The number of attempts an invocation executes when none is accepted:
    the indices below [maxAttempts]. *)
Local Abbreviation executed opts plan :=
  (iterations (maxAttemptsOf opts plan) (S (List.length plan)) 0).

Lemma executed_lt opts (plan : list Attempt.t) (j : nat) :
  (j < executed opts plan)%nat <->
  Number.ltb (Number.ofNat j) (maxAttemptsOf opts plan) = true.
Proof.
  split.
  - intros Hj. apply (iterations_guard _ (S (List.length plan)) 0). lia.
  - intros Hg.
    destruct (Nat.lt_ge_cases j (executed opts plan)) as [Hlt|Hge]; [assumption|].
    assert (Hlen : (j < List.length plan)%nat).
    { unfold maxAttemptsOf in Hg. rewrite ltb_min in Hg.
      apply andb_prop in Hg as [_ Hg]. now apply Nat.ltb_lt. }
    pose proof (iterations_stop (maxAttemptsOf opts plan) (S (List.length plan)) 0
                  ltac:(lia)) as Hstop.
    cbn [Nat.add] in Hstop.
    now rewrite (ltb_ofNat_le _ j _ Hge Hg) in Hstop.
Qed.

Lemma executed_le opts (plan : list Attempt.t) :
  (executed opts plan <= List.length plan)%nat.
Proof.
  destruct (Nat.le_gt_cases (executed opts plan) (List.length plan)) as [H|H];
    [assumption|].
  assert (Hg : Number.ltb (Number.ofNat (List.length plan)) (maxAttemptsOf opts plan)
               = true) by (apply executed_lt; lia).
  unfold maxAttemptsOf in Hg. rewrite ltb_min, Nat.ltb_irrefl, andb_false_r in Hg.
  discriminate Hg.
Qed.

(** [runSmartSearch] is the loop over the plan, or the exception of the
    builder with no request issued. *)
Lemma runSmartSearch_loop (rt : jsstring) opts (plan : list Attempt.t) :
  buildQueryAttempts rt opts = Ok plan ->
  runSmartSearch net aborted rt opts [] =
  attemptLoop net aborted plan (limitOf opts) (minResultsOf opts)
              (maxAttemptsOf opts plan) (clientSideFilter opts)
              (executed opts plan) 0 [] [].
Proof.
  intros Hb. unfold runSmartSearch, bindIO, lift. rewrite Hb.
  apply attemptLoop_fuel.
Qed.

Lemma runSmartSearch_throw (rt : jsstring) opts (e : JsError) :
  buildQueryAttempts rt opts = Throw e ->
  runSmartSearch net aborted rt opts [] = (Throw e, []).
Proof. intros Hb. unfold runSmartSearch, bindIO, lift. now rewrite Hb. Qed.

(** A plan has an attempt. *)
Lemma plan_not_empty (rt : jsstring) opts (plan : list Attempt.t) :
  buildQueryAttempts rt opts = Ok plan -> (0 < List.length plan)%nat.
Proof.
  intros Hb.
  destruct (buildQueryAttempts_Ok_inv Doc rt opts plan Hb) as [m Hm].
  destruct (buildQueryAttempts_Ok_planFor Doc rt opts m plan Hm Hb) as [-> _].
  unfold planFor. destruct (subjectToken opts); rewrite length_app; cbn; lia.
Qed.

(** With no [maxAttempts], or one that is an integer and not negative, the
    cap is the number of attempts below it. *)
Lemma executed_integer opts (plan : list Attempt.t) :
  (maxAttempts opts = None
   \/ exists m, maxAttempts opts = Some (Number.ofZ m) /\ (0 <= m)%Z) ->
  maxAttemptsOf opts plan = Number.ofNat (executed opts plan).
Proof.
  intros Hint.
  assert (Hcap : exists k, maxAttemptsOf opts plan = Number.ofNat k).
  { unfold maxAttemptsOf. destruct Hint as [->|(m & -> & Hm)]; cbn [nullish].
    - exists (List.length plan). apply min_ofNat.
    - rewrite <- (Z2Nat.id m Hm), ofZ_ofNat, min_ofNat_ofNat. eauto. }
  destruct Hcap as [k Hk]. rewrite Hk. f_equal.
  apply nat_lt_ext. intros j.
  rewrite <- (Nat.ltb_lt j k), <- ltb_ofNat, <- Hk. symmetry. apply executed_lt.
Qed.

(** The two ways an invocation with a plan ends. *)
Lemma runSmartSearch_spec (rt : jsstring) opts (plan : list Attempt.t) :
  stringSubject opts = true ->
  buildQueryAttempts rt opts = Ok plan ->
  exists out trace,
    runSmartSearch net aborted rt opts [] = (Ok out, trace)
    /\ ((exists k a d,
            (k < executed opts plan)%nat
            /\ nth_error plan k = Some a
            /\ docsAt net plan (limitOf opts) (clientSideFilter opts) k = Some d
            /\ Number.geb (Number.ofNat (List.length d)) (minResultsOf opts) = true
            /\ (forall j, (j < k)%nat ->
                  acceptedAt net plan (limitOf opts) (minResultsOf opts)
                             (clientSideFilter opts) j = false)
            /\ out = Outcome.mk d (Number.ofNat (k + 1)) (Attempt.description a)
                                (Some (urlAt plan (limitOf opts) k))
            /\ requests trace = List.map (urlAt plan (limitOf opts)) (seq 0 (S k)))
        \/ ((forall j, (j < executed opts plan)%nat ->
                acceptedAt net plan (limitOf opts) (minResultsOf opts)
                           (clientSideFilter opts) j = false)
            /\ out = Outcome.mk
                       (lastSeen net plan (limitOf opts) (clientSideFilter opts)
                                 (executed opts plan) 0 [])
                       (maxAttemptsOf opts plan) (lit "fallback") None
            /\ requests trace =
               List.map (urlAt plan (limitOf opts))
                        (seq 0 (executed opts plan)))).
Proof.
  intros Hv Hb.
  pose proof (plan_urls_ok Doc rt opts plan Hv Hb) as Hurls.
  rewrite (runSmartSearch_loop rt opts plan Hb).
  destruct (attemptLoop_spec Doc net aborted plan (limitOf opts) (minResultsOf opts)
              (maxAttemptsOf opts plan) (clientSideFilter opts) Hurls
              (executed opts plan) 0 [] [] eq_refl
              (executed_le opts plan))
    as (out & trace & Hrun & Hcases).
  { intros j Hj. apply executed_lt. lia. }
  exists out, trace. split; [exact Hrun|].
  destruct Hcases as [(k & a & d & Hk & Ha & Hd & Hmin & Hfirst & Hout & Htr)
                     |(Hnone & Hout & Htr)].
  - left. exists k, a, d. splits; try assumption; try lia.
    intros j Hj. apply Hfirst. lia.
  - right. splits; try assumption.
    intros j Hj. apply Hnone. lia.
Qed.

Lemma docsAt_eq (plan : list Attempt.t) (limit_ : Number.t) (f : option (Doc -> bool))
  (i : nat) (a : Attempt.t) (u : jsstring) :
  nth_error plan i = Some a -> requestUrl limit_ a = Ok u ->
  docsAt net plan limit_ f i = readDocs f (net i u).
Proof. intros Ha Hu. unfold docsAt. now rewrite (urlAt_eq plan limit_ i a u Ha Hu). Qed.

(** The requests of the smart search are issued without the signal. *)
Lemma attemptLoop_ignores_abort (aborted' : nat -> bool)
  (attempts : list Attempt.t) (limit_ minResults_ maxAttempts_ : Number.t)
  (filter_ : option (Doc -> bool)) :
  forall (n i : nat) (lastResults : list Doc) (trace : list Event),
    attemptLoop net aborted attempts limit_ minResults_ maxAttempts_ filter_
                n i lastResults trace =
    attemptLoop net aborted' attempts limit_ minResults_ maxAttempts_ filter_
                n i lastResults trace.
Proof.
  induction n as [|n IH]; intros i lastResults trace; [reflexivity|].
  rewrite !attemptLoop_cases.
  destruct (Number.ltb (Number.ofNat i) maxAttempts_); [|reflexivity].
  destruct (nth_error attempts i) as [a|]; [|reflexivity].
  destruct (requestUrl limit_ a) as [u|e]; [|reflexivity].
  destruct (readDocs filter_ (net (List.length (requests trace)) u)) as [d|].
  - destruct (Number.geb (Number.ofNat (List.length d)) minResults_);
      [reflexivity | apply IH].
  - apply IH.
Qed.

Lemma runSmartSearch_ignores_abort (aborted' : nat -> bool) (rt : jsstring) opts
  (trace : list Event) :
  runSmartSearch net aborted rt opts trace =
  runSmartSearch net aborted' rt opts trace.
Proof.
  unfold runSmartSearch, bindIO, lift.
  destruct (buildQueryAttempts rt opts) as [plan|e]; [|reflexivity].
  apply attemptLoop_ignores_abort.
Qed.

End RunFacts.

End RetrieverFacts.

(** * The claims *)

Module Claims.

Import JS ResourceSearch SearchBar Scenario.
Import JSFacts NumberFacts PlannerFacts RetrieverFacts.

(** ** The plan builder *)

Section PlannerClaims.

Variable Doc : Type.
Implicit Types opts : SearchOptions Doc.

(** C3 (amended). For every configured resource category and every subject
    that is absent or has no unpaired surrogate, [buildQueryAttempts]
    returns a non-empty attempt list whose length is the number of subject
    slugs of the category's profile, times 2 if a non-empty subject token
    (the trimmed subject) is supplied and 1 otherwise, plus 2 keyword
    attempts if a token is supplied and 1 otherwise; the slug list and the
    keyword list of every category are non-empty. *)
Theorem plan_length (rt : jsstring) opts (m : ResourceMapEntry) :
  lookup RESOURCE_MAP rt = Some m ->
  wellFormedSubject opts = true ->
  slugs m <> [] /\ keywords m <> []
  /\ exists plan,
      buildQueryAttempts rt opts = Ok plan
      /\ plan <> []
      /\ List.length plan =
         (List.length (slugs m)
          * (match subjectToken opts with Some _ => 2 | None => 1 end)
          + (match subjectToken opts with Some _ => 2 | None => 1 end))%nat.
Proof.
  intros Hm Hwf.
  pose proof (RESOURCE_MAP_plain rt m Hm) as Hp. unfold plainEntry in Hp.
  apply andb_prop in Hp as [Hp Hk]. apply andb_prop in Hp as [_ Hs].
  split; [intros E; rewrite E in Hs; discriminate|].
  split; [intros E; rewrite E in Hk; discriminate|].
  exists (planFor m (subjectToken opts)).
  assert (Hlen : List.length (planFor m (subjectToken opts)) =
                 (List.length (slugs m)
                  * (match subjectToken opts with Some _ => 2 | None => 1 end)
                  + (match subjectToken opts with Some _ => 2 | None => 1 end))%nat).
  { unfold planFor. destruct (subjectToken opts) as [s|]; rewrite length_app.
    - rewrite length_flat_map_pair. cbn [List.length]. lia.
    - rewrite length_map. cbn [List.length]. lia. }
  splits.
  - now apply buildQueryAttempts_wellFormed.
  - intros E. rewrite E in Hlen. cbn [List.length] in Hlen.
    destruct (subjectToken opts); lia.
  - exact Hlen.
Qed.

(** C4. In every attempt list [buildQueryAttempts] produces, every
    subject-filter attempt stands before every keyword-search attempt; and
    when a subject token is supplied, the attempt combining the k-th slug
    with the subject stands at position 2k, immediately before the attempt
    with that slug alone at position 2k+1, and after all of them the keyword
    attempt combining the OR'd phrase with the subject stands immediately
    before the keyword attempt with the phrase alone. *)
Theorem plan_order (rt : jsstring) opts (m : ResourceMapEntry)
  (plan : list Attempt.t) :
  lookup RESOURCE_MAP rt = Some m ->
  buildQueryAttempts rt opts = Ok plan ->
  (forall i j a b,
      nth_error plan i = Some a -> nth_error plan j = Some b ->
      Attempt.type a = Subject -> Attempt.type b = Keyword -> (i < j)%nat)
  /\ (forall s,
         subjectToken opts = Some s ->
         (forall k slug,
             nth_error (slugs m) k = Some slug ->
             exists eslug esubject,
               encodeURIComponent slug = Ok eslug
               /\ encodeURIComponent s = Ok esubject
               /\ nth_error plan (2 * k) =
                  Some (combinedAttempt slug s eslug esubject)
               /\ nth_error plan (2 * k + 1) = Some (slugAttempt slug eslug))
         /\ exists q1 q2,
             encodeURIComponent (keywordPhrase m ++ lit " " ++ s) = Ok q1
             /\ encodeURIComponent (keywordPhrase m) = Ok q2
             /\ nth_error plan (2 * List.length (slugs m)) =
                Some (keywordSubjectAttempt m s q1)
             /\ nth_error plan (2 * List.length (slugs m) + 1) =
                Some (keywordAttempt m q2)).
Proof.
  intros Hm Hb.
  destruct (buildQueryAttempts_Ok_planFor Doc rt opts m plan Hm Hb) as [-> Hwf].
  pose proof (RESOURCE_MAP_plain rt m Hm) as Hp. unfold plainEntry in Hp.
  apply andb_prop in Hp as [Hp _]. apply andb_prop in Hp as [Hp _].
  apply andb_prop in Hp as [Hslugs Hkw].
  pose proof (isPlain_keywordPhrase m Hkw) as Hphrase.
  split.
  - destruct (planFor_split m (subjectToken opts)) as (l1 & l2 & -> & H1 & H2).
    intros i j a b. now apply subject_before_keyword.
  - intros s Hs. rewrite Hs. specialize (Hwf s Hs). cbn [planFor]. split.
    + intros k slug Hk.
      assert (Hslug : isPlain slug = true).
      { rewrite forallb_forall in Hslugs. eapply Hslugs, nth_error_In, Hk. }
      exists (encoded slug), (encoded s).
      split; [now apply encode_encoded, isPlain_wellFormed|].
      split; [now apply encode_encoded|].
      exact (nth_error_flat_map_pair _ _
               (fun slug => combinedAttempt slug s (encoded slug) (encoded s))
               (fun slug => slugAttempt slug (encoded slug))
               _ (slugs m) k slug Hk).
    + exists (encoded (keywordPhrase m ++ lit " " ++ s)), (encoded (keywordPhrase m)).
      split.
      { apply encode_encoded. rewrite app_assoc, isWellFormed_app_l; [assumption|].
        apply isPlain_no_surrogates. now rewrite isPlain_app, Hphrase. }
      split; [now apply encode_encoded, isPlain_wellFormed|].
      rewrite <- (length_flat_map_pair _ _
                    (fun slug => combinedAttempt slug s (encoded slug) (encoded s))
                    (fun slug => slugAttempt slug (encoded slug)) (slugs m)).
      split.
      * rewrite <- (Nat.add_0_r (List.length _)). now rewrite nth_error_app_length.
      * now rewrite nth_error_app_length.
Qed.

(** C10. A [subjectSlug] that is empty or consists of white space only gives
    exactly the result of no [subjectSlug] at all, for every resource type:
    the same attempt list (length, order, query strings, descriptions), or
    the same exception. *)
Theorem blank_subject_is_no_subject (rt : jsstring) opts opts' (s : jsstring) :
  subjectSlug opts = Some s ->
  forallb isWhiteSpace s = true ->
  subjectSlug opts' = None ->
  buildQueryAttempts rt opts = buildQueryAttempts rt opts'.
Proof.
  intros Hs Hws Hnone. unfold buildQueryAttempts. rewrite Hs, Hnone.
  cbn [option_map]. rewrite (trim_whiteSpace s Hws).
  destruct (lookup RESOURCE_MAP rt) as [m|]; [|reflexivity].
  now rewrite slugLoop_truthy with (s2 := None) by reflexivity.
Qed.

End PlannerClaims.

(** ** The retriever *)

Section RetrieverClaims.

Variable Doc : Type.
Variable net : nat -> jsstring -> FetchResult Doc.
Variable aborted : nat -> bool.
Implicit Types opts : SearchOptions Doc.

(** C1. If the attempt at position [i] (attempt number [i + 1], within the
    first [min(maxAttempts, plan length)] attempts) is the first whose
    response yields documents of which at least [minResults] (6 by default)
    remain after [clientSideFilter], then [runSmartSearch] returns exactly
    those filtered documents, the attempt number [i + 1], that attempt's
    description and that attempt's request URL, and the requests issued are
    those of the attempts up to [i], one each, and no later one. The count
    compared with the threshold is the one after the filter ([readDocs]
    applies it); an attempt that fails has no documents to count. *)
Theorem first_acceptable_attempt_is_returned
  (rt : jsstring) opts (plan : list Attempt.t)
  (i : nat) (a : Attempt.t) (url : jsstring) (docs : list Doc) :
  stringSubject opts = true ->
  buildQueryAttempts rt opts = Ok plan ->
  Number.ltb (Number.ofNat i) (maxAttemptsOf opts plan) = true ->
  nth_error plan i = Some a ->
  requestUrl (limitOf opts) a = Ok url ->
  readDocs (clientSideFilter opts) (net i url) = Some docs ->
  Number.geb (Number.ofNat (List.length docs)) (minResultsOf opts) = true ->
  (forall j b u d,
      (j < i)%nat -> nth_error plan j = Some b ->
      requestUrl (limitOf opts) b = Ok u ->
      readDocs (clientSideFilter opts) (net j u) = Some d ->
      Number.geb (Number.ofNat (List.length d)) (minResultsOf opts) = false) ->
  exists trace,
    runSmartSearch net aborted rt opts [] =
    (Ok (Outcome.mk docs (Number.ofNat (i + 1)) (Attempt.description a) (Some url)),
     trace)
    /\ List.length (requests trace) = S i
    /\ Forall2 (fun b u => requestUrl (limitOf opts) b = Ok u)
               (firstn (S i) plan) (requests trace).
Proof.
  intros Hv Hb Hi Ha Hu Hd Hmin Hbefore.
  pose proof (plan_urls_ok Doc rt opts plan Hv Hb) as Hurls.
  pose proof (executed_le Doc opts plan) as Hcap.
  apply executed_lt in Hi.
  pose proof (docsAt_eq Doc net plan (limitOf opts) (clientSideFilter opts) i a url Ha Hu) as Hdi.
  assert (Hacc : acceptedAt net plan (limitOf opts) (minResultsOf opts)
                            (clientSideFilter opts) i = true).
  { unfold acceptedAt. now rewrite Hdi, Hd. }
  destruct (runSmartSearch_spec Doc net aborted rt opts plan Hv Hb)
    as (out & trace & Hrun & [(k & a' & d' & Hk & Ha' & Hd' & Hmin' & Hfirst & Hout & Htr)
                             |(Hnone & _)]).
  2:{ rewrite Hnone in Hacc by exact Hi. discriminate. }
  assert (Hki : k = i).
  { destruct (Nat.lt_trichotomy k i) as [Hlt|[Heq|Hgt]]; [|assumption|].
    - destruct (Hurls k a' Ha') as [u' Hu'].
      rewrite (docsAt_eq Doc net plan _ _ k a' u' Ha' Hu') in Hd'.
      rewrite (Hbefore k a' u' d' Hlt Ha' Hu' Hd') in Hmin'. discriminate.
    - rewrite (Hfirst i Hgt) in Hacc. discriminate. }
  subst k. rewrite Ha in Ha'. injection Ha' as <-.
  rewrite Hdi, Hd in Hd'. injection Hd' as <-.
  rewrite (urlAt_eq plan (limitOf opts) i a url Ha Hu) in Hout.
  exists trace. splits.
  - now rewrite Hrun, Hout.
  - now rewrite Htr, length_map, length_seq.
  - rewrite Htr. apply urls_firstn; [assumption|].
    apply nth_error_Some. now rewrite Ha.
Qed.


(** C5 (amended). An invocation issues a request only for an attempt whose
    index is below [min(maxAttempts, plan length)], so never more requests
    than the plan has attempts, never more than [maxAttempts] when that is
    an integer that is not negative, and none when [maxAttempts] is zero,
    negative or NaN (nor when the plan builder raises). The j-th request is
    the URL of the j-th attempt, so each executed attempt issues exactly
    one; a [maxAttempts] that is at least the plan length is ignored, and an
    absent one defaults to the plan length. *)
Theorem requests_never_exceed_the_cap (rt : jsstring) opts :
  let trace := snd (runSmartSearch net aborted rt opts []) in
  match buildQueryAttempts rt opts with
  | Throw _ => requests trace = []
  | Ok plan =>
      (forall j, (j < List.length (requests trace))%nat ->
                 Number.ltb (Number.ofNat j) (maxAttemptsOf opts plan) = true)
      /\ (List.length (requests trace) <= List.length plan)%nat
      /\ Forall2 (fun a u => requestUrl (limitOf opts) a = Ok u)
                 (firstn (List.length (requests trace)) plan) (requests trace)
      /\ (maxAttempts opts = None ->
          maxAttemptsOf opts plan = Number.ofNat (List.length plan))
      /\ (forall m, maxAttempts opts = Some m ->
                    Number.geb m (Number.ofNat (List.length plan)) = true ->
                    maxAttemptsOf opts plan = Number.ofNat (List.length plan))
      /\ (forall m, maxAttempts opts = Some (Number.ofZ m) -> (0 <= m)%Z ->
                    (Z.of_nat (List.length (requests trace))
                     <= Z.min m (Z.of_nat (List.length plan)))%Z)
      /\ (forall m, maxAttempts opts = Some m ->
                    Number.geb (Number.ofZ 0) m = true \/ m = Number.NaN ->
                    requests trace = [])
  end.
Proof.
  intros trace. subst trace.
  destruct (buildQueryAttempts rt opts) as [plan|e] eqn:Hb.
  2:{ now rewrite (runSmartSearch_throw Doc net aborted rt opts e Hb). }
  rewrite (runSmartSearch_loop Doc net aborted rt opts plan Hb).
  destruct (attemptLoop_requests Doc net aborted plan (limitOf opts)
              (minResultsOf opts) (maxAttemptsOf opts plan) (clientSideFilter opts)
              (iterations (maxAttemptsOf opts plan) (S (List.length plan)) 0) 0 [] [])
    as (r & trace' & us & Hrun & Htr & Hlen & Hall).
  rewrite Hrun. cbn [snd]. cbn [requests app] in Htr. rewrite Htr.
  cbn [skipn] in Hall.
  pose proof (executed_le Doc opts plan) as Hcap.
  pose proof (plan_not_empty Doc rt opts plan Hb) as Hne.
  assert (Hbelow : forall j, (j < List.length us)%nat ->
                     Number.ltb (Number.ofNat j) (maxAttemptsOf opts plan) = true).
  { intros j Hj. apply executed_lt. lia. }
  splits.
  - exact Hbelow.
  - lia.
  - exact Hall.
  - intros Hm. unfold maxAttemptsOf. rewrite Hm. cbn [nullish]. apply min_ofNat.
  - intros m Hm Hge. unfold maxAttemptsOf. rewrite Hm. cbn [nullish].
    now apply min_large.
  - intros m Hm Hpos.
    assert (Hex : maxAttemptsOf opts plan =
                  Number.ofNat (iterations (maxAttemptsOf opts plan)
                                           (S (List.length plan)) 0)).
    { apply executed_integer. right. now exists m. }
    destruct us as [|u us']; [cbn [List.length]; lia|].
    pose proof (Hbelow (List.length us') ltac:(cbn [List.length]; lia)) as Hg.
    unfold maxAttemptsOf in Hg. rewrite Hm in Hg. cbn [nullish] in Hg.
    rewrite ltb_min in Hg. apply andb_prop in Hg as [Hg1 Hg2].
    rewrite ltb_ofNat_ofZ in Hg1. apply Z.ltb_lt in Hg1. apply Nat.ltb_lt in Hg2.
    cbn [List.length]. lia.
  - intros m Hm Hz. destruct us as [|u us']; [reflexivity|].
    pose proof (Hbelow 0%nat ltac:(cbn [List.length]; lia)) as Hg.
    unfold maxAttemptsOf in Hg. rewrite Hm in Hg. cbn [nullish] in Hg.
    rewrite ltb_min in Hg. apply andb_prop in Hg as [Hg _].
    destruct Hz as [Hz| ->]; [|discriminate Hg].
    rewrite (ltb_nonpositive m 0 Hz) in Hg. discriminate Hg.
Qed.

(** C6 (amended). A resource type with no entry in the profile table makes
    the call fail with the TypeError of reading the missing profile (the
    spec's UnknownCategory), raised by the plan builder before any request.
    It is not the only error: with a known resource type, a subject that
    holds an unpaired surrogate makes the plan builder raise URIError, again
    before any request. Nothing else is surfaced: with a known resource type
    and a well-formed subject the call returns an outcome, and whenever it
    fails it failed in one of these two ways with no request issued. *)
Theorem only_the_planner_raises (rt : jsstring) opts :
  (lookup RESOURCE_MAP rt = None ->
   runSmartSearch net aborted rt opts [] = (Throw TypeError, []))
  /\ (forall s,
         lookup RESOURCE_MAP rt <> None ->
         subjectSlug opts = Some s -> isWellFormed s = false ->
         runSmartSearch net aborted rt opts [] = (Throw URIError, []))
  /\ (lookup RESOURCE_MAP rt <> None ->
      stringSubject opts = true -> wellFormedSubject opts = true ->
      exists out trace, runSmartSearch net aborted rt opts [] = (Ok out, trace))
  /\ (forall e trace,
         stringSubject opts = true ->
         runSmartSearch net aborted rt opts [] = (Throw e, trace) ->
         trace = []
         /\ ((e = TypeError /\ lookup RESOURCE_MAP rt = None)
             \/ (e = URIError /\ lookup RESOURCE_MAP rt <> None
                 /\ exists s, subjectSlug opts = Some s
                              /\ isWellFormed s = false))).
Proof.
  assert (H1 : lookup RESOURCE_MAP rt = None ->
               runSmartSearch net aborted rt opts [] = (Throw TypeError, [])).
  { intros Hm. apply runSmartSearch_throw. now apply buildQueryAttempts_unknown. }
  assert (H2 : forall s,
             lookup RESOURCE_MAP rt <> None ->
             subjectSlug opts = Some s -> isWellFormed s = false ->
             runSmartSearch net aborted rt opts [] = (Throw URIError, [])).
  { intros s Hm Hs Hw. apply runSmartSearch_throw.
    destruct (lookup RESOURCE_MAP rt) as [m|] eqn:Em; [|contradiction].
    destruct (illFormed_subject_token Doc opts s Hs Hw) as [Ht Hwt].
    exact (buildQueryAttempts_illFormed Doc rt opts m (trim s) Em Ht Hwt). }
  assert (H3 : lookup RESOURCE_MAP rt <> None ->
               stringSubject opts = true -> wellFormedSubject opts = true ->
               exists out trace,
                 runSmartSearch net aborted rt opts [] = (Ok out, trace)).
  { intros Hm Hstr Hv.
    destruct (lookup RESOURCE_MAP rt) as [m|] eqn:Em; [|contradiction].
    pose proof (buildQueryAttempts_wellFormed Doc rt opts m Em Hv) as Hb.
    destruct (runSmartSearch_spec Doc net aborted rt opts _ Hstr Hb)
      as (out & trace & Hrun & _).
    now exists out, trace. }
  splits; try assumption.
  intros e trace Hstr Hrun.
  destruct (lookup RESOURCE_MAP rt) as [m|] eqn:Em.
  - destruct (wellFormedSubject opts) eqn:Hv.
    + destruct (H3 ltac:(discriminate) Hstr eq_refl) as (out & trace' & Hrun').
      rewrite Hrun' in Hrun. discriminate.
    + unfold wellFormedSubject in Hv.
      destruct (subjectSlug opts) as [s|] eqn:Hs; [|discriminate].
      rewrite (H2 s ltac:(discriminate) eq_refl Hv) in Hrun.
      injection Hrun as <- <-. split; [reflexivity|]. right.
      splits; [reflexivity | discriminate | now exists s].
  - rewrite (H1 eq_refl) in Hrun. injection Hrun as <- <-.
    split; [reflexivity|]. left. now split.
Qed.


End RetrieverClaims.

(** ** Counterexamples *)

(** C3, counterexample: for the configured category [study_guide] and a
    subject that is one unpaired surrogate, [buildQueryAttempts] raises
    URIError and returns no attempt list. *)
Lemma ill_formed_subject_has_no_plan :
  ~ (forall (rt : jsstring) (opts : SearchOptions RawDoc) (m : ResourceMapEntry),
        lookup RESOURCE_MAP rt = Some m ->
        exists plan, buildQueryAttempts rt opts = Ok plan /\ plan <> []).
Proof.
  intros H.
  destruct (H (lit "study_guide") loneSurrogate studyGuideEntry eq_refl)
    as (plan & Hplan & _).
  discriminate Hplan.
Qed.

(** C6, counterexample: the call for the configured category [study_guide]
    with that subject fails, so an unknown category is not the only error
    condition. *)
Lemma unknown_category_is_not_the_only_error :
  ~ (forall (net : nat -> jsstring -> FetchResult RawDoc) (aborted : nat -> bool)
            (rt : jsstring) (opts : SearchOptions RawDoc)
            (e : JsError) (trace : list Event),
        runSmartSearch net aborted rt opts [] = (Throw e, trace) ->
        lookup RESOURCE_MAP rt = None).
Proof.
  intros H.
  specialize (H unreachable neverAborted (lit "study_guide") loneSurrogate
                URIError [] eq_refl).
  discriminate H.
Qed.


(** C5, counterexample: with [maxAttempts] 2.5 and the four attempts of
    [past_papers], none of which finds anything, three requests are issued,
    more than [min(maxAttempts, plan length)], which is 2.5. *)
Lemma fractional_cap_is_exceeded :
  ~ (forall (net : nat -> jsstring -> FetchResult RawDoc) (aborted : nat -> bool)
            (rt : jsstring) (opts : SearchOptions RawDoc) (plan : list Attempt.t),
        buildQueryAttempts rt opts = Ok plan ->
        Number.geb (maxAttemptsOf opts plan)
                   (Number.ofNat
                      (List.length
                         (requests (snd (runSmartSearch net aborted rt opts [])))))
        = true).
Proof.
  intros H.
  specialize (H nothingFound neverAborted (lit "past_papers") twoAndAHalf
                (planOf (lit "past_papers") twoAndAHalf)).
  assert (Hplan : buildQueryAttempts (lit "past_papers") twoAndAHalf =
                  Ok (planOf (lit "past_papers") twoAndAHalf))
    by (vm_compute; reflexivity).
  specialize (H Hplan). vm_compute in H. discriminate H.
Qed.

(** ** The code against its own account *)

(** C8. For the subject "c++" the first attempt of [study_guide] combines
    the slug "study guides" and the subject, and the URL [runSmartSearch]
    requests for it carries four [subject] parameters ("study guides", "c",
    "", ""), not two: the query is decoded before it is split at the plus
    signs, so the plus signs of the subject split it. The URL with one
    parameter for each of the two original strings is another one. *)
Theorem plus_in_the_subject_is_split :
  runSmartSearch sixAtOnce neverAborted (lit "study_guide")
                 (subjectOnly (Some (lit "c++"))) [] =
  (Ok (Outcome.mk (docsOf true 6) (Number.ofNat 1)
         (lit "subject:study guides AND subject:c++")
         (Some (lit "https://openlibrary.org/search.json?subject=study+guides&subject=c&subject=&subject=&limit=20"))),
   [EvFetch (lit "https://openlibrary.org/search.json?subject=study+guides&subject=c&subject=&subject=&limit=20")])
  /\ nth_error (planOf (lit "study_guide") (subjectOnly (Some (lit "c++")))) 0 =
     Some (combinedAttempt (lit "study guides") (lit "c++")
                           (lit "study%20guides") (lit "c%2B%2B"))
  /\ lit "https://openlibrary.org/search.json?"
     ++ toString [(lit "subject", lit "study guides"); (lit "subject", lit "c++");
                  (lit "limit", lit "20")] =
     lit "https://openlibrary.org/search.json?subject=study+guides&subject=c%2B%2B&limit=20".
Proof. repeat split; vm_compute; reflexivity. Qed.

(** C9. With a resource type selected, [runSearch] awaits [runSmartSearch],
    whose requests do not carry the caller's signal: although the controller
    is aborted from the start, the request is issued and answered, the
    threshold is evaluated and the outcome of attempt 1 is returned, exactly
    as when the controller is never aborted. Without a resource type the
    request carries the signal and is rejected with AbortError. *)
Theorem abort_does_not_stop_the_smart_search :
  runSearch sixAtOnce abortedAtOnce (lit "guides") studyGuides [] =
  (Ok (Smart (Outcome.mk (docsOf true 6) (Number.ofNat 1) (lit "subject:study guides")
                (Some (lit "https://openlibrary.org/search.json?subject=study+guides&limit=40")))),
   [EvFetch (lit "https://openlibrary.org/search.json?subject=study+guides&limit=40")])
  /\ runSearch sixAtOnce abortedAtOnce (lit "guides") studyGuides [] =
     runSearch sixAtOnce neverAborted (lit "guides") studyGuides []
  /\ runSearch sixAtOnce abortedAtOnce (lit "guides") noResourceType [] =
     (Ok (Plain (Rejected AbortError)),
      [EvFetch (lit "https://openlibrary.org/search.json?q=guides&limit=80")]).
Proof. repeat split; vm_compute; reflexivity. Qed.

(** The scenario of the specification: [past_papers], no subject,
    [minResults] 6, [maxAttempts] 3, fewer than six documents twice and then
    ten: the outcome is attempt 3 with its ten documents and its
    description. *)
Example third_attempt_of_past_papers :
  fst (runSmartSearch tenAtThird neverAborted (lit "past_papers") threeAttempts []) =
  Ok (Outcome.mk (docsOf true 10) (Number.ofNat 3) (lit "subject:previous year papers")
        (Some (lit "https://openlibrary.org/search.json?subject=previous+year+papers&limit=20"))).
Proof. vm_compute. reflexivity. Qed.

(** ** Witnesses *)

Lemma first_acceptable_attempt_is_returned_witness :
  exists trace,
    runSmartSearch mixedThenFull neverAborted (lit "study_guide") fullTextOnly [] =
    (Ok (Outcome.mk (docsOf true 7) (Number.ofNat 2) (lit "subject:study-guides")
           (Some (lit "https://openlibrary.org/search.json?subject=study-guides&limit=20"))),
     trace)
    /\ List.length (requests trace) = 2%nat
    /\ Forall2 (fun b u => requestUrl (Number.ofZ 20) b = Ok u)
               (firstn 2 (planOf (lit "study_guide") fullTextOnly))
               (requests trace).
Proof.
  apply (first_acceptable_attempt_is_returned RawDoc mixedThenFull neverAborted
           (lit "study_guide") fullTextOnly
           (planOf (lit "study_guide") fullTextOnly) 1
           (slugAttempt (lit "study-guides") (lit "study-guides"))
           (lit "https://openlibrary.org/search.json?subject=study-guides&limit=20")
           (docsOf true 7)).
  - reflexivity.
  - vm_compute. reflexivity.
  - vm_compute. reflexivity.
  - vm_compute. reflexivity.
  - vm_compute. reflexivity.
  - vm_compute. reflexivity.
  - vm_compute. reflexivity.
  - intros j b u d Hj _ _ Hd. destruct j as [|j]; [|lia].
    vm_compute in Hd. injection Hd as <-. vm_compute. reflexivity.
Defined.


Lemma plan_length_witness :
  slugs studyGuideEntry <> [] /\ keywords studyGuideEntry <> []
  /\ exists plan,
      buildQueryAttempts (lit "study_guide") science = Ok plan
      /\ plan <> []
      /\ List.length plan = (2 * 2 + 2)%nat.
Proof.
  apply (plan_length RawDoc (lit "study_guide") science studyGuideEntry).
  - reflexivity.
  - reflexivity.
Defined.

Lemma plan_order_witness :
  (forall i j a b,
      nth_error (planOf (lit "study_guide") science) i = Some a ->
      nth_error (planOf (lit "study_guide") science) j = Some b ->
      Attempt.type a = Subject -> Attempt.type b = Keyword -> (i < j)%nat)
  /\ (forall s,
         subjectToken science = Some s ->
         (forall k slug,
             nth_error (slugs studyGuideEntry) k = Some slug ->
             exists eslug esubject,
               encodeURIComponent slug = Ok eslug
               /\ encodeURIComponent s = Ok esubject
               /\ nth_error (planOf (lit "study_guide") science) (2 * k) =
                  Some (combinedAttempt slug s eslug esubject)
               /\ nth_error (planOf (lit "study_guide") science) (2 * k + 1) =
                  Some (slugAttempt slug eslug))
         /\ exists q1 q2,
             encodeURIComponent (keywordPhrase studyGuideEntry ++ lit " " ++ s) = Ok q1
             /\ encodeURIComponent (keywordPhrase studyGuideEntry) = Ok q2
             /\ nth_error (planOf (lit "study_guide") science)
                          (2 * List.length (slugs studyGuideEntry)) =
                Some (keywordSubjectAttempt studyGuideEntry s q1)
             /\ nth_error (planOf (lit "study_guide") science)
                          (2 * List.length (slugs studyGuideEntry) + 1) =
                Some (keywordAttempt studyGuideEntry q2)).
Proof.
  apply (plan_order RawDoc (lit "study_guide") science studyGuideEntry
           (planOf (lit "study_guide") science)).
  - reflexivity.
  - vm_compute. reflexivity.
Defined.

Lemma requests_never_exceed_the_cap_witness :
  (List.length (requests (snd (runSmartSearch nothingFound neverAborted
                                 (lit "past_papers") twoAttempts [])))
   <= 2)%nat
  /\ Forall2 (fun a u => requestUrl (Number.ofZ 20) a = Ok u)
             (firstn (List.length
                        (requests (snd (runSmartSearch nothingFound neverAborted
                                          (lit "past_papers") twoAttempts []))))
                     (planOf (lit "past_papers") twoAttempts))
             (requests (snd (runSmartSearch nothingFound neverAborted
                               (lit "past_papers") twoAttempts []))).
Proof.
  pose proof (requests_never_exceed_the_cap RawDoc nothingFound neverAborted
                (lit "past_papers") twoAttempts) as H.
  cbv zeta in H.
  change (buildQueryAttempts (lit "past_papers") twoAttempts)
    with (Ok (A := list Attempt.t) (planOf (lit "past_papers") twoAttempts)) in H.
  cbv iota beta in H.
  destruct H as (_ & _ & H2 & _ & _ & H3 & _). split; [|exact H2].
  specialize (H3 2%Z eq_refl ltac:(lia)). lia.
Defined.

Lemma only_the_planner_raises_witness :
  runSmartSearch unreachable neverAborted (lit "thesis") science [] =
  (Throw TypeError, [])
  /\ runSmartSearch unreachable neverAborted (lit "study_guide") loneSurrogate [] =
     (Throw URIError, [])
  /\ exists out trace,
      runSmartSearch unreachable neverAborted (lit "study_guide") science [] =
      (Ok out, trace).
Proof.
  split; [|split].
  - apply (only_the_planner_raises RawDoc unreachable neverAborted (lit "thesis") science).
    reflexivity.
  - apply (proj1 (proj2 (only_the_planner_raises RawDoc unreachable neverAborted
                           (lit "study_guide") loneSurrogate)) [0xD800%N]).
    + discriminate.
    + reflexivity.
    + reflexivity.
  - apply (only_the_planner_raises RawDoc unreachable neverAborted
             (lit "study_guide") science).
    + discriminate.
    + reflexivity.
    + reflexivity.
Defined.


Lemma blank_subject_is_no_subject_witness :
  buildQueryAttempts (lit "textbook") (subjectOnly (Some (lit "   "))) =
  buildQueryAttempts (lit "textbook") (subjectOnly None).
Proof.
  apply (blank_subject_is_no_subject RawDoc (lit "textbook")
           (subjectOnly (Some (lit "   "))) (subjectOnly None) (lit "   "));
    reflexivity.
Defined.

End Claims.

Module MoreJSFacts.

Import JS JSFacts.
Local Open Scope N_scope.

(** ** Equality of strings *)

Lemma eqb_string_eq (a b : jsstring) : eqb_string a b = true <-> a = b.
Proof.
  revert b. induction a as [|x a IH]; intros [|y b]; cbn [eqb_string];
    try (split; [discriminate|discriminate]); [tauto|].
  rewrite andb_true_iff, N.eqb_eq, IH. split.
  - now intros [-> ->].
  - now intros [= -> ->].
Qed.

Lemma eqb_string_refl (a : jsstring) : eqb_string a a = true.
Proof. now apply eqb_string_eq. Qed.

Lemma eqb_string_neq (a b : jsstring) : eqb_string a b = false <-> a <> b.
Proof.
  rewrite <- eqb_string_eq. destruct (eqb_string a b); split; congruence.
Qed.

Lemma eqb_string_sym (a b : jsstring) : eqb_string a b = eqb_string b a.
Proof.
  destruct (eqb_string a b) eqn:H.
  - apply eqb_string_eq in H as ->. now rewrite eqb_string_refl.
  - symmetry. apply eqb_string_neq. apply eqb_string_neq in H. congruence.
Qed.

(** ** trim is idempotent *)

Lemma trimStart_head (c : N) (r : jsstring) :
  isWhiteSpace c = false -> trimStart (c :: r) = c :: r.
Proof. intros H. cbn [trimStart]. now rewrite H. Qed.

Lemma trimStart_cases (s : jsstring) :
  trimStart s = [] \/ exists c r, trimStart s = c :: r /\ isWhiteSpace c = false.
Proof.
  induction s as [|c r IH]; [now left|].
  cbn [trimStart]. destruct (isWhiteSpace c) eqn:Hc; [exact IH|].
  right. now exists c, r.
Qed.

Lemma trimStart_idem (s : jsstring) : trimStart (trimStart s) = trimStart s.
Proof.
  destruct (trimStart_cases s) as [->|(c & r & -> & Hc)]; [reflexivity|].
  now apply trimStart_head.
Qed.

Lemma trimEnd_idem (s : jsstring) : trimEnd (trimEnd s) = trimEnd s.
Proof. unfold trimEnd. now rewrite rev_involutive, trimStart_idem. Qed.

(** Trimming the end of a string that starts with no white space leaves a
    string that starts with none. *)
Lemma trimStart_trimEnd (s : jsstring) :
  trimStart s = s -> trimStart (trimEnd s) = trimEnd s.
Proof.
  intros Hs. destruct (trimEnd_split s) as (ws & Heq & Hws).
  destruct (trimEnd s) as [|c r] eqn:He; [reflexivity|].
  rewrite Heq in Hs. cbn [app trimStart] in Hs.
  destruct (isWhiteSpace c) eqn:Hc; [|now apply trimStart_head].
  exfalso.
  assert (Hlen : (List.length (trimStart (r ++ ws)) <= List.length (r ++ ws))%nat).
  { generalize (r ++ ws). intros l. induction l as [|x l IH]; cbn [trimStart]; [lia|].
    destruct (isWhiteSpace x); cbn [List.length]; lia. }
  rewrite Hs in Hlen. cbn [List.length] in Hlen. lia.
Qed.

Lemma trim_idem (s : jsstring) : trim (trim s) = trim s.
Proof.
  unfold trim. rewrite (trimStart_trimEnd (trimStart s) (trimStart_idem s)).
  apply trimEnd_idem.
Qed.

End MoreJSFacts.

(** * Facts about the serialized queries *)

Module UrlFacts.

Import JS JSFacts MoreJSFacts ResourceSearch Vocabulary PlannerFacts.
Local Open Scope N_scope.

Lemma occurrences_app (c : N) (a b : jsstring) :
  occurrences c (a ++ b) = (occurrences c a + occurrences c b)%nat.
Proof. unfold occurrences. now rewrite filter_app, length_app. Qed.

(** ** The units of the serializer's output *)

Lemma isFormUnit_query (c : N) : isFormUnit c = true -> isQueryUnit c = true.
Proof.
  unfold isFormUnit, isFormSafe, isQueryUnit.
  destruct (isAlpha c); [reflexivity|]. destruct (isDigit c); [reflexivity|].
  destruct (c =? 0x2A); [reflexivity|]. destruct (c =? 0x2D); [reflexivity|].
  destruct (c =? 0x2E); [reflexivity|]. destruct (c =? 0x5F); [reflexivity|].
  destruct (c =? 0x2B); [reflexivity|]. destruct (c =? 0x25); [reflexivity|].
  discriminate.
Qed.

Lemma isFormUnit_not_separator (c : N) :
  isFormUnit c = true -> (0x26 =? c) = false /\ (0x3D =? c) = false.
Proof.
  unfold isFormUnit, isFormSafe, isAlpha, isDigit. intros H. nprop H.
  split; apply N.eqb_neq; lia.
Qed.

Lemma hexDigit_unit (d : N) : d < 16 -> isFormSafe (hexDigit d) = true.
Proof.
  intros H. unfold hexDigit, isFormSafe, isAlpha, isDigit.
  destruct (N.ltb_spec d 10).
  - replace ((0x30 <=? 0x30 + d) && (0x30 + d <=? 0x39)) with true;
      [now rewrite orb_true_r|].
    symmetry. apply andb_true_iff. split; apply N.leb_le; lia.
  - replace ((0x41 <=? 0x37 + d) && (0x37 + d <=? 0x5A)) with true; [reflexivity|].
    symmetry. apply andb_true_iff. split; apply N.leb_le; lia.
Qed.

Lemma hexDigit_not_separator (d : N) :
  (0x26 =? hexDigit d) = false /\ (0x3D =? hexDigit d) = false.
Proof.
  unfold hexDigit. destruct (N.ltb_spec d 10); split; apply N.eqb_neq; lia.
Qed.

Lemma formOctet_units (b : N) :
  b < 256 -> forallb isFormUnit (formOctet b) = true.
Proof.
  intros Hb. unfold formOctet.
  destruct (b =? 0x20); [reflexivity|].
  destruct (isAlpha b || isDigit b || (b =? 0x2A) || (b =? 0x2D) || (b =? 0x2E)
            || (b =? 0x5F)) eqn:Hs.
  - cbn [forallb]. unfold isFormUnit, isFormSafe. now rewrite Hs.
  - unfold escapeOctet. cbn [forallb]. unfold isFormUnit at 1.
    replace (percent =? 0x25) with true by reflexivity. rewrite orb_true_r.
    unfold isFormUnit.
    rewrite !hexDigit_unit; [reflexivity | nlia | nlia].
Qed.

Lemma formOctet_no_separator (c b : N) :
  c = 0x26 \/ c = 0x3D -> occurrences c (formOctet b) = 0%nat.
Proof.
  intros Hc. unfold formOctet.
  destruct (N.eqb_spec b 0x20) as [->|Hb].
  { destruct Hc as [->| ->]; reflexivity. }
  destruct (isAlpha b || isDigit b || (b =? 0x2A) || (b =? 0x2D) || (b =? 0x2E)
            || (b =? 0x5F)) eqn:Hs.
  - assert (Hu : isFormUnit b = true).
    { unfold isFormUnit, isFormSafe. now rewrite Hs. }
    apply isFormUnit_not_separator in Hu as [H1 H2].
    unfold occurrences. cbn [List.filter].
    destruct Hc as [->| ->]; [rewrite H1 | rewrite H2]; reflexivity.
  - unfold escapeOctet, occurrences. cbn [List.filter].
    destruct (hexDigit_not_separator (b / 16)) as [H1 H2].
    destruct (hexDigit_not_separator (b mod 16)) as [H3 H4].
    destruct Hc as [->| ->].
    + rewrite H1, H3. reflexivity.
    + rewrite H2, H4. reflexivity.
Qed.

Lemma formEncode_no_separator (c : N) (s : jsstring) :
  c = 0x26 \/ c = 0x3D -> occurrences c (formEncode s) = 0%nat.
Proof.
  intros Hc. unfold formEncode.
  induction (flat_map utf8 (toScalarValues s)) as [|b bs IH]; [reflexivity|].
  cbn [flat_map]. now rewrite occurrences_app, IH, formOctet_no_separator.
Qed.

(** The octets of a code point are octets. *)
Lemma utf8_octets (cp : N) :
  cp < 0x110000 -> Forall (fun b => b < 256) (utf8 cp).
Proof.
  intros H. unfold utf8.
  destruct (N.ltb_spec cp 0x80); [repeat constructor; lia|].
  destruct (N.ltb_spec cp 0x800); [repeat constructor; nlia|].
  destruct (N.ltb_spec cp 0x10000); repeat constructor; nlia.
Qed.

Lemma toScalarValues_bound :
  forall (n : nat) (s : jsstring),
    (List.length s <= n)%nat ->
    isString s = true -> Forall (fun cp => cp < 0x110000) (toScalarValues s).
Proof.
  induction n as [|n IH]; intros [|c r] Hlen Hs; try constructor;
    cbn [List.length] in Hlen; [lia|].
  cbn [isString forallb] in Hs. apply andb_prop in Hs as [Hc Hr].
  apply N.ltb_lt in Hc. fold (isString r) in Hr.
  cbn [toScalarValues].
  destruct (isLeadSurrogate c) eqn:Hlead.
  - destruct r as [|d r']; [repeat constructor; lia|].
    destruct (isTrailSurrogate d) eqn:Htrail.
    + constructor.
      * unfold pairToCodePoint, isLeadSurrogate, isTrailSurrogate in *.
        nprop Hlead. nprop Htrail. lia.
      * apply IH; [cbn [List.length] in *; lia|].
        cbn [isString forallb] in Hr. now apply andb_prop in Hr as [_ Hr].
    + constructor; [lia|]. apply IH; [lia | assumption].
  - destruct (isTrailSurrogate c).
    + constructor; [lia|]. apply IH; [lia | assumption].
    + constructor; [lia|]. apply IH; [lia | assumption].
Qed.

Lemma formEncode_units (s : jsstring) :
  isString s = true -> forallb isFormUnit (formEncode s) = true.
Proof.
  intros Hs. unfold formEncode.
  pose proof (toScalarValues_bound (List.length s) s (Nat.le_refl _) Hs) as Hcp.
  induction Hcp as [|cp cps Hlt _ IH]; [reflexivity|].
  cbn [flat_map]. rewrite flat_map_app.
  rewrite forallb_app, IH, andb_true_r.
  pose proof (utf8_octets cp Hlt) as Hoct.
  induction Hoct as [|b bs Hb _ IHb]; [reflexivity|].
  cbn [flat_map]. now rewrite forallb_app, IHb, formOctet_units.
Qed.

(** The serializer copies a string of letters, digits and [* - . _]. *)
Lemma formEncode_safe (s : jsstring) :
  forallb isFormSafe s = true -> formEncode s = s.
Proof.
  unfold formEncode. induction s as [|c r IH]; [reflexivity|].
  cbn [forallb]. intros H. apply andb_prop in H as [Hc Hr].
  assert (Hlt : c < 0x80).
  { unfold isFormSafe, isAlpha, isDigit in Hc. nprop Hc. lia. }
  pose proof (below_0x80_not_surrogate c Hlt) as Hsur.
  unfold isSurrogate in Hsur. apply orb_false_elim in Hsur as [Hlead Htrail].
  cbn [toScalarValues]. rewrite Hlead, Htrail. cbn [flat_map].
  unfold utf8 at 1. rewrite (proj2 (N.ltb_lt c 0x80) Hlt). cbn [app flat_map].
  rewrite (IH Hr). unfold formOctet.
  assert (Hsp : (c =? 0x20) = false).
  { apply N.eqb_neq. unfold isFormSafe, isAlpha, isDigit in Hc. nprop Hc. lia. }
  rewrite Hsp. unfold isFormSafe in Hc. now rewrite Hc.
Qed.

(** ** The text of a Number *)

Lemma isPlain_digits (s : Z) : isPlain (Number.digits s) = true.
Proof.
  unfold Number.digits, NilZero.string_of_uint.
  assert (H : forall d, isPlain (lit (NilEmpty.string_of_uint d)) = true).
  { unfold lit. induction d;
      cbn [NilEmpty.string_of_uint list_ascii_of_string List.map isPlain forallb];
      try fold (isPlain (List.map N_of_ascii
                           (list_ascii_of_string (NilEmpty.string_of_uint d))));
      rewrite ?IHd; reflexivity. }
  destruct (N.to_uint (Z.to_N s)); try apply H. reflexivity.
Qed.

Lemma isPlain_zeros (n : Z) : isPlain (Number.zeros n) = true.
Proof.
  unfold Number.zeros. induction (Z.to_nat n) as [|k IH]; [reflexivity|].
  cbn [repeat isPlain forallb]. exact IH.
Qed.

Lemma isPlain_firstn (n : nat) (s : jsstring) :
  isPlain s = true -> isPlain (firstn n s) = true.
Proof.
  unfold isPlain. rewrite !forallb_forall. intros H x Hx.
  apply H. rewrite <- (firstn_skipn n s). apply in_or_app. now left.
Qed.

Lemma isPlain_skipn (n : nat) (s : jsstring) :
  isPlain s = true -> isPlain (skipn n s) = true.
Proof.
  unfold isPlain. rewrite !forallb_forall. intros H x Hx.
  apply H. rewrite <- (firstn_skipn n s). apply in_or_app. now right.
Qed.

Lemma isPlain_layout (ds : jsstring) (n : Z) :
  isPlain ds = true -> isPlain (Number.layout ds n) = true.
Proof.
  intros Hds. unfold Number.layout. cbv zeta.
  repeat match goal with
         | |- context [if ?b then _ else _] =>
             lazymatch b with
             | (_ && _) => destruct b
             end
         end.
  - now rewrite isPlain_app, Hds, isPlain_zeros.
  - now rewrite !isPlain_app, isPlain_firstn, isPlain_skipn.
  - now rewrite !isPlain_app, isPlain_zeros, Hds.
  - destruct ds as [|d [|d' rest]]; [reflexivity| |].
    + rewrite !isPlain_app, isPlain_digits, Hds. now destruct (n - 1 <? 0)%Z.
    + assert (Hd : isPlain [d] = true /\ isPlain (d' :: rest) = true).
      { cbn [isPlain forallb] in *. apply andb_prop in Hds as [Hd Hr].
        now rewrite Hd, Hr. }
      destruct Hd as [Hd Hr].
      rewrite !isPlain_app, isPlain_digits, Hd, Hr. now destruct (n - 1 <? 0)%Z.
Qed.

(** The text of a Number is made of ASCII units, so it is a string. *)
Lemma isPlain_numberToString (x : Number.t) : isPlain (numberToString x) = true.
Proof.
  unfold numberToString, Number.toString.
  destruct x as [|[]|s [|m] e]; try reflexivity.
  destruct (Number.roundDouble (Z.of_N (N.pos m)) e) as [[M E]|];
    [|now destruct s].
  destruct (M =? 0)%Z; [reflexivity|].
  destruct (Number.shortest M E) as [digits n].
  rewrite isPlain_app, isPlain_layout by apply isPlain_digits.
  now destruct s.
Qed.

Lemma isString_numberToString (x : Number.t) : isString (numberToString x) = true.
Proof. apply isPlain_isString, isPlain_numberToString. Qed.

(** ** toString *)

Lemma join_snoc (sep : jsstring) (l : list jsstring) (x : jsstring) :
  l <> [] -> join sep (l ++ [x]) = join sep l ++ sep ++ x.
Proof.
  induction l as [|y l IH]; [congruence|]. intros _.
  destruct l as [|z l]; [reflexivity|].
  change (join sep ((y :: z :: l) ++ [x])) with (y ++ sep ++ join sep ((z :: l) ++ [x])).
  rewrite IH by discriminate.
  change (join sep (y :: z :: l)) with (y ++ sep ++ join sep (z :: l)).
  now rewrite <- !app_assoc.
Qed.

Lemma toString_snoc (params : URLSearchParams) (p : jsstring * jsstring) :
  params <> [] ->
  toString (params ++ [p]) = toString params ++ lit "&" ++ formPair p.
Proof.
  intros H. unfold toString. rewrite map_app. cbn [List.map].
  apply join_snoc. now destruct params.
Qed.

(** Setting a name no pair has appends the pair. *)
Lemma set_fresh (name value : jsstring) (params : URLSearchParams) :
  existsb (fun p => eqb_string (fst p) name) params = false ->
  set name value params = params ++ [(name, value)].
Proof. intros H. unfold set. now rewrite H. Qed.

Lemma formPair_units (p : jsstring * jsstring) :
  isString (fst p) = true -> isString (snd p) = true ->
  forallb isQueryUnit (formPair p) = true.
Proof.
  intros H1 H2. unfold formPair. rewrite !forallb_app.
  assert (Hq : forall s, forallb isFormUnit s = true -> forallb isQueryUnit s = true).
  { intros s Hs. rewrite forallb_forall in *. intros x Hx.
    now apply isFormUnit_query, Hs. }
  rewrite (Hq _ (formEncode_units _ H1)), (Hq _ (formEncode_units _ H2)).
  reflexivity.
Qed.

Lemma toString_units (params : URLSearchParams) :
  Forall (fun p => isString (fst p) = true /\ isString (snd p) = true) params ->
  forallb isQueryUnit (toString params) = true.
Proof.
  unfold toString. induction 1 as [|p ps [H1 H2] Hps IH]; [reflexivity|].
  cbn [List.map]. destruct ps as [|p' ps].
  - cbn [List.map join]. now apply formPair_units.
  - change (join (lit "&") (formPair p :: List.map formPair (p' :: ps)))
      with (formPair p ++ lit "&" ++ join (lit "&") (List.map formPair (p' :: ps))).
    rewrite !forallb_app, IH, formPair_units by assumption. reflexivity.
Qed.

Lemma formPair_separators (p : jsstring * jsstring) :
  occurrences 0x26 (formPair p) = 0%nat /\ occurrences 0x3D (formPair p) = 1%nat.
Proof.
  unfold formPair. rewrite !occurrences_app.
  rewrite !formEncode_no_separator by auto. split; reflexivity.
Qed.

(** The separators of a serialized list: one [=] in each pair and one [&]
    between two pairs, whatever the names and values hold. *)
Lemma toString_separators (params : URLSearchParams) :
  occurrences 0x26 (toString params) = (List.length params - 1)%nat
  /\ occurrences 0x3D (toString params) = List.length params.
Proof.
  unfold toString. induction params as [|p ps [IH1 IH2]]; [split; reflexivity|].
  destruct (formPair_separators p) as [H1 H2].
  destruct ps as [|p' ps].
  - cbn [List.map join List.length]. now rewrite H1, H2.
  - change (join (lit "&") (List.map formPair (p :: p' :: ps)))
      with (formPair p ++ lit "&" ++ join (lit "&") (List.map formPair (p' :: ps))).
    rewrite !occurrences_app, H1, H2, IH1, IH2.
    cbn [List.length]. split; cbn; lia.
Qed.

End UrlFacts.

(** * More facts about the retriever *)

Module RetrieverMoreFacts.

Import JS JSFacts NumberFacts MoreJSFacts ResourceSearch Vocabulary.
Import PlannerFacts UrlFacts RetrieverFacts.

(** ** The shape of a request URL *)

Lemma fold_append (name : jsstring) (parts : list jsstring) (acc : URLSearchParams) :
  fold_left (fun ps p => append name p ps) parts acc =
  acc ++ List.map (fun p => (name, p)) parts.
Proof.
  revert acc. induction parts as [|p parts IH]; intros acc; cbn [fold_left List.map].
  - now rewrite app_nil_r.
  - rewrite IH. unfold append. now rewrite <- app_assoc.
Qed.

Lemma split_nonempty (sep : N) (s : jsstring) : split sep s <> [].
Proof.
  induction s as [|c r IH]; cbn [split]; [discriminate|].
  destruct (c =? sep)%N; [discriminate|].
  destruct (split sep r); [congruence | discriminate].
Qed.

Lemma isString_split (sep : N) (s : jsstring) :
  isString s = true -> Forall (fun p => isString p = true) (split sep s).
Proof.
  induction s as [|c r IH]; cbn [split]; intros H; [repeat constructor|].
  cbn [isString forallb] in H. apply andb_prop in H as [Hc Hr].
  specialize (IH Hr).
  destruct (c =? sep)%N; [constructor; [reflexivity | assumption]|].
  destruct (split sep r) as [|piece pieces]; [repeat constructor; cbn; now rewrite Hc|].
  inversion IH as [|? ? Hp Hps]; subst. constructor; [|assumption].
  cbn [isString forallb]. now rewrite Hc.
Qed.

Lemma in_skipn {A : Type} (n : nat) (l : list A) (x : A) :
  In x (skipn n l) -> In x l.
Proof.
  intros H. rewrite <- (firstn_skipn n l). apply in_or_app. now right.
Qed.

Lemma in_firstn {A : Type} (n : nat) (l : list A) (x : A) :
  In x (firstn n l) -> In x l.
Proof.
  intros H. rewrite <- (firstn_skipn n l). apply in_or_app. now left.
Qed.

Lemma isString_removePrefix (p s : jsstring) :
  isString s = true -> isString (removePrefix p s) = true.
Proof.
  intros H. unfold removePrefix. destruct (startsWith p s); [|assumption].
  unfold isString in *. rewrite forallb_forall in *.
  intros x Hx. apply H. now apply (in_skipn (List.length p)).
Qed.

Lemma limit_pair (text : jsstring) :
  lit "&" ++ formPair (lit "limit", text) = lit "&limit=" ++ formEncode text.
Proof.
  unfold formPair. cbn [fst snd].
  replace (formEncode (lit "limit")) with (lit "limit") by (vm_compute; reflexivity).
  reflexivity.
Qed.

(** The URL of a subject attempt: the endpoint, the [subject] parameters and
    the limit, in units of a query when the decoded query is a string. *)
Lemma subjectUrl_shape (limit : Number.t) (decodedq : jsstring) :
  exists pre,
    subjectUrl limit decodedq =
    lit "https://openlibrary.org/search.json?" ++ pre
    ++ lit "&limit=" ++ formEncode (numberToString limit)
    /\ (isString decodedq = true -> forallb isQueryUnit pre = true).
Proof.
  unfold subjectUrl.
  set (parts := List.map (removePrefix (lit "subject:")) (split 43 decodedq)).
  exists (toString (List.map (fun p => (lit "subject", p)) parts)).
  assert (Hne : List.map (fun p => (lit "subject", p)) parts <> []).
  { unfold parts. pose proof (split_nonempty 43 decodedq) as H.
    destruct (split 43 decodedq); [congruence | discriminate]. }
  split.
  - rewrite fold_append. cbn [app]. rewrite set_fresh.
    + rewrite toString_snoc by assumption. now rewrite limit_pair.
    + clear Hne. induction parts as [|p ps IH]; [reflexivity|].
      cbn [List.map existsb fst]. rewrite IH.
      replace (eqb_string (lit "subject") (lit "limit")) with false
        by (vm_compute; reflexivity).
      reflexivity.
  - intros Hs. apply toString_units. unfold parts.
    apply Forall_map. apply Forall_map.
    eapply Forall_impl; [|exact (isString_split 43 decodedq Hs)].
    intros p Hp. cbn [fst snd]. split; [reflexivity|].
    now apply isString_removePrefix.
Qed.

Lemma keywordUrl_shape (limit : Number.t) (decodedq : jsstring) :
  exists pre,
    keywordUrl limit decodedq =
    lit "https://openlibrary.org/search.json?" ++ pre
    ++ lit "&limit=" ++ formEncode (numberToString limit)
    /\ (isString decodedq = true -> forallb isQueryUnit pre = true).
Proof.
  unfold keywordUrl. exists (formPair (lit "q", decodedq)). split.
  - rewrite (set_fresh (lit "q") decodedq []) by reflexivity. cbn [app].
    rewrite set_fresh.
    + rewrite (toString_snoc [(lit "q", decodedq)]) by discriminate.
      rewrite limit_pair. reflexivity.
    + cbn [existsb fst].
      replace (eqb_string (lit "q") (lit "limit")) with false
        by (vm_compute; reflexivity).
      reflexivity.
  - intros Hs. now apply formPair_units.
Qed.

Lemma requestUrl_shape (limit : Number.t) (a : Attempt.t) (u : jsstring) :
  requestUrl limit a = Ok u ->
  exists decodedq pre,
    decodeURIComponent (Attempt.q a) = Ok decodedq
    /\ u = lit "https://openlibrary.org/search.json?" ++ pre
           ++ lit "&limit=" ++ formEncode (numberToString limit)
    /\ (isString decodedq = true -> forallb isQueryUnit pre = true).
Proof.
  unfold requestUrl. intros H.
  destruct (decodeURIComponent (Attempt.q a)) as [dq|e] eqn:Hd.
  2:{ destruct (Attempt.type a); discriminate H. }
  destruct (Attempt.type a); cbn [bind] in H; injection H as <-.
  - destruct (subjectUrl_shape limit dq) as (pre & Hu & Hs). now exists dq, pre.
  - destruct (keywordUrl_shape limit dq) as (pre & Hu & Hs). now exists dq, pre.
Qed.

(** The query of a planned attempt decodes to a string. *)
Lemma planFor_decoded (m : ResourceMapEntry) (token : option jsstring) :
  plainEntry m = true ->
  (forall s, token = Some s -> isString s = true /\ isWellFormed s = true) ->
  forall a, In a (planFor m token) ->
    exists decodedq,
      decodeURIComponent (Attempt.q a) = Ok decodedq /\ isString decodedq = true.
Proof.
  intros Hp Htok a Ha. unfold plainEntry in Hp.
  apply andb_prop in Hp as [Hp _]. apply andb_prop in Hp as [Hp _].
  apply andb_prop in Hp as [Hslugs Hkw].
  rewrite forallb_forall in Hslugs.
  pose proof (isPlain_keywordPhrase m Hkw) as Hphrase.
  assert (Hslug : forall slug, In slug (slugs m) ->
             exists dq, decodeURIComponent (Attempt.q (slugAttempt slug (encoded slug)))
                        = Ok dq /\ isString dq = true).
  { intros slug Hin. eexists. split; [apply decode_slugAttempt; auto|].
    rewrite isString_app, (isPlain_isString _ (Hslugs slug Hin)). reflexivity. }
  assert (Hkey : exists dq,
             decodeURIComponent (Attempt.q (keywordAttempt m (encoded (keywordPhrase m))))
             = Ok dq /\ isString dq = true).
  { exists (keywordPhrase m). split; [|now apply isPlain_isString].
    apply decode_encoded; [now apply isPlain_isString | now apply isPlain_wellFormed]. }
  unfold planFor in Ha. destruct token as [s|].
  - destruct (Htok s eq_refl) as [Hs Hwf].
    apply in_app_or in Ha as [Ha|Ha].
    + apply in_flat_map in Ha as (slug & Hin & [<-|[<-|[]]]); [|now apply Hslug].
      eexists. split; [apply decode_combinedAttempt; auto|].
      rewrite !isString_app, Hs, (isPlain_isString _ (Hslugs slug Hin)). reflexivity.
    + destruct Ha as [<-|[<-|[]]]; [|exact Hkey].
      exists (keywordPhrase m ++ lit " " ++ s). split.
      * cbn [Attempt.q keywordSubjectAttempt]. apply decode_encoded.
        -- rewrite !isString_app, Hs, (isPlain_isString _ Hphrase). reflexivity.
        -- rewrite app_assoc, isWellFormed_app_l; [assumption|].
           apply isPlain_no_surrogates. now rewrite isPlain_app, Hphrase.
      * rewrite !isString_app, Hs, (isPlain_isString _ Hphrase). reflexivity.
  - apply in_app_or in Ha as [Ha|Ha].
    + apply in_map_iff in Ha as (slug & <- & Hin). now apply Hslug.
    + destruct Ha as [<-|[]]. exact Hkey.
Qed.

(** The description of a planned attempt is not that of the fallback. *)
Lemma planFor_description (m : ResourceMapEntry) (token : option jsstring)
  (a : Attempt.t) :
  In a (planFor m token) -> Attempt.description a <> lit "fallback".
Proof.
  intros Ha. unfold planFor in Ha.
  assert (Hs : forall x, lit "subject:" ++ x <> lit "fallback") by (intros x; discriminate).
  assert (Hq : forall x, lit "q: (" ++ x <> lit "fallback") by (intros x; discriminate).
  destruct token as [s|]; apply in_app_or in Ha as [Ha|Ha].
  - apply in_flat_map in Ha as (slug & _ & [<-|[<-|[]]]); apply Hs.
  - destruct Ha as [<-|[<-|[]]]; apply Hq.
  - apply in_map_iff in Ha as (slug & <- & _). apply Hs.
  - destruct Ha as [<-|[]]. apply Hq.
Qed.

(** ** The traces of the delays *)

Lemma paced_fetch (i : nat) (u : jsstring) (rest : list Event) :
  paced (S i) rest = true -> paced i (EvFetch u :: rest) = true.
Proof.
  intros H. cbn [paced]. destruct rest as [|[u'|ms] rest']; try assumption.
  discriminate H.
Qed.

Lemma paced_fetch_sleep (i : nat) (u : jsstring) (rest : list Event) :
  paced (S i) rest = true ->
  paced i (EvFetch u :: EvSleep (120 + Z.of_nat i * 30) :: rest) = true.
Proof. intros H. cbn [paced]. now rewrite Z.eqb_refl, H. Qed.

(** A trace without a delay holds its requests and nothing else. *)
Lemma quiet_trace (trace : list Event) :
  pauses trace = [] -> trace = List.map EvFetch (requests trace).
Proof.
  induction trace as [|[u|ms] trace IH]; cbn [pauses requests List.map];
    [reflexivity| |discriminate].
  intros H. now rewrite <- IH.
Qed.

(** ** The loop, one iteration at a time *)

Section Loop.

Variable Doc : Type.
Variable net : nat -> jsstring -> FetchResult Doc.
Variable aborted : nat -> bool.
Variable attempts : list Attempt.t.
Variable limit_ minResults_ maxAttempts_ : Number.t.
Variable filter_ : option (Doc -> bool).

Local Abbreviation loop :=
  (attemptLoop net aborted attempts limit_ minResults_ maxAttempts_ filter_).

(** The events of the loop: requests and delays by the schedule, no delay at
    all under a threshold that is not positive. *)
Lemma attemptLoop_events :
  forall (n i : nat) (lastResults : list Doc) (trace : list Event),
  exists ev,
    snd (loop n i lastResults trace) = trace ++ ev
    /\ paced i ev = true
    /\ Forall (fun ms => 120 <= ms <= 120 + 30 * (Z.of_nat (List.length attempts) - 1))%Z
              (pauses ev)
    /\ (Number.geb (Number.ofZ 0) minResults_ = true -> pauses ev = []).
Proof.
  induction n as [|n IH]; intros i lastResults trace.
  { exists []. cbn. rewrite app_nil_r. repeat split; constructor. }
  assert (Hstop : forall r : result (Outcome.t Doc),
             exists ev, snd (r, trace) = trace ++ ev /\ paced i ev = true
               /\ Forall (fun ms => 120 <= ms
                                    <= 120 + 30 * (Z.of_nat (List.length attempts) - 1))%Z
                         (pauses ev)
               /\ (Number.geb (Number.ofZ 0) minResults_ = true -> pauses ev = [])).
  { intros r. exists []. cbn. rewrite app_nil_r. repeat split; constructor. }
  rewrite attemptLoop_cases.
  destruct (Number.ltb (Number.ofNat i) maxAttempts_); [|apply Hstop].
  destruct (nth_error attempts i) as [a|] eqn:Ha; [|apply Hstop].
  assert (Hi : (i < List.length attempts)%nat).
  { apply nth_error_Some. congruence. }
  destruct (requestUrl limit_ a) as [u|e]; [|apply Hstop].
  destruct (readDocs filter_ (net (List.length (requests trace)) u)) as [d|].
  - destruct (Number.geb (Number.ofNat (List.length d)) minResults_) eqn:Hacc.
    + exists [EvFetch u]. cbn. repeat split; constructor.
    + destruct (IH (S i) d ((trace ++ [EvFetch u]) ++ [EvSleep (120 + Z.of_nat i * 30)]))
        as (ev & Hev & Hp & Hb & Hz).
      exists (EvFetch u :: EvSleep (120 + Z.of_nat i * 30) :: ev). splits.
      * rewrite Hev. now rewrite <- !app_assoc.
      * now apply paced_fetch_sleep.
      * cbn [pauses]. constructor; [lia | assumption].
      * intros Hmin. rewrite (geb_nonpositive _ (List.length d) Hmin) in Hacc.
        discriminate Hacc.
  - destruct (IH (S i) [] (trace ++ [EvFetch u])) as (ev & Hev & Hp & Hb & Hz).
    exists (EvFetch u :: ev). splits.
    + rewrite Hev. now rewrite <- app_assoc.
    + now apply paced_fetch.
    + exact Hb.
    + exact Hz.
Qed.

(** The ways the loop returns: the outcome of an accepted attempt, whose
    documents were read from a response, or the fallback after as many
    requests as the guard allows, whose documents are the initial ones (with
    no iteration), none, or those read from a response and found too few. *)
Lemma attemptLoop_Ok_inv :
  forall (n i : nat) (lastResults : list Doc) (trace : list Event)
         (out : Outcome.t Doc) (trace' : list Event),
    loop n i lastResults trace = (Ok out, trace') ->
    (exists k a u d r,
        (i <= k < i + iterations maxAttempts_ n i)%nat
        /\ nth_error attempts k = Some a
        /\ requestUrl limit_ a = Ok u
        /\ readDocs filter_ r = Some d
        /\ Number.geb (Number.ofNat (List.length d)) minResults_ = true
        /\ out = Outcome.mk d (Number.ofNat (k + 1)) (Attempt.description a) (Some u)
        /\ List.length (requests trace') =
           (List.length (requests trace) + (S k - i))%nat)
    \/ (exists d,
           out = Outcome.mk d maxAttempts_ (lit "fallback") None
           /\ List.length (requests trace') =
              (List.length (requests trace) + iterations maxAttempts_ n i)%nat
           /\ ((iterations maxAttempts_ n i = 0%nat /\ d = lastResults)
               \/ d = []
               \/ exists r,
                   readDocs filter_ r = Some d
                   /\ Number.geb (Number.ofNat (List.length d)) minResults_ = false)).
Proof.
  induction n as [|n IH]; intros i lastResults trace out trace' Hrun.
  { cbn in Hrun. injection Hrun as <- <-. right. exists lastResults.
    splits; [reflexivity | cbn; lia | now left]. }
  rewrite attemptLoop_cases in Hrun. cbn [iterations].
  destruct (Number.ltb (Number.ofNat i) maxAttempts_).
  2:{ injection Hrun as <- <-. right. exists lastResults.
      splits; [reflexivity | lia | now left]. }
  destruct (nth_error attempts i) as [a|] eqn:Ha; [|discriminate Hrun].
  destruct (requestUrl limit_ a) as [u|e] eqn:Hu; [|discriminate Hrun].
  assert (Hreq : List.length (requests (trace ++ [EvFetch u])) =
                 S (List.length (requests trace))).
  { rewrite requests_app, length_app. cbn. lia. }
  destruct (readDocs filter_ (net (List.length (requests trace)) u)) as [d|] eqn:Hd.
  - destruct (Number.geb (Number.ofNat (List.length d)) minResults_) eqn:Hacc.
    + injection Hrun as <- <-. left.
      exists i, a, u, d, (net (List.length (requests trace)) u). splits;
        try assumption; try reflexivity; try lia.
    + assert (Hreq2 : List.length (requests ((trace ++ [EvFetch u])
                         ++ [EvSleep (120 + Z.of_nat i * 30)])) =
                      S (List.length (requests trace))).
      { rewrite requests_app, length_app, Hreq. cbn. lia. }
      apply IH in Hrun as [(k & a' & u' & d' & r & Hk & Ha' & Hu' & Hr & Hmin & Hout & Hlen)
                          |(d' & Hout & Hlen & Hfrom)].
      * left. exists k, a', u', d', r. splits; try assumption; try lia.
      * right. exists d'. splits; [assumption | lia |].
        destruct Hfrom as [[_ ->]|[->|Hr]]; [|now right; left|now right; right].
        right. right. now exists (net (List.length (requests trace)) u).
  - apply IH in Hrun as [(k & a' & u' & d' & r & Hk & Ha' & Hu' & Hr & Hmin & Hout & Hlen)
                        |(d' & Hout & Hlen & Hfrom)].
    + left. exists k, a', u', d', r. splits; try assumption; try lia.
    + right. exists d'. splits; [assumption | lia |].
      destruct Hfrom as [[_ ->]|[->|Hr]]; [now right; left|now right; left|now right; right].
Qed.

End Loop.

(** Lowering the threshold never adds a request. *)
Lemma attemptLoop_threshold {Doc : Type} (net : nat -> jsstring -> FetchResult Doc)
  (aborted : nat -> bool) (attempts : list Attempt.t)
  (limit_ min min' maxAttempts_ : Number.t) (filter_ : option (Doc -> bool)) :
  Number.geb min min' = true ->
  forall (n i : nat) (last last' : list Doc) (trace trace' : list Event),
    List.length (requests trace') = List.length (requests trace) ->
    (List.length (requests (snd (attemptLoop net aborted attempts limit_ min'
                                   maxAttempts_ filter_ n i last' trace')))
     <= List.length (requests (snd (attemptLoop net aborted attempts limit_ min
                                      maxAttempts_ filter_ n i last trace))))%nat.
Proof.
  intros Hmin. induction n as [|n IH]; intros i last last' trace trace' Hlen.
  { cbn. lia. }
  rewrite !attemptLoop_cases. rewrite Hlen.
  destruct (Number.ltb (Number.ofNat i) maxAttempts_); [|cbn; lia].
  destruct (nth_error attempts i) as [a|]; [|cbn; lia].
  destruct (requestUrl limit_ a) as [u|e]; [|cbn; lia].
  assert (Hreq : forall t, List.length (requests (t ++ [EvFetch u])) =
                           S (List.length (requests t))).
  { intros t. rewrite requests_app, length_app. cbn. lia. }
  assert (Hreq2 : forall t ms, List.length (requests ((t ++ [EvFetch u]) ++ [EvSleep ms])) =
                               S (List.length (requests t))).
  { intros t ms. rewrite requests_app, length_app, Hreq. cbn. lia. }
  assert (Hgrow : forall n i l t,
             (List.length (requests t)
              <= List.length (requests (snd (attemptLoop net aborted attempts limit_ min
                                               maxAttempts_ filter_ n i l t))))%nat).
  { intros n0 i0 l t.
    destruct (attemptLoop_requests Doc net aborted attempts limit_ min
                maxAttempts_ filter_ n0 i0 l t) as (r & t' & us & Hrun & Htr & _).
    rewrite Hrun. cbn [snd]. rewrite Htr, length_app. lia. }
  destruct (readDocs filter_ (net (List.length (requests trace)) u)) as [d|].
  - destruct (Number.geb (Number.ofNat (List.length d)) min) eqn:Hacc.
    + rewrite (geb_trans _ _ _ Hacc Hmin).
      cbn [snd]. rewrite !Hreq. lia.
    + destruct (Number.geb (Number.ofNat (List.length d)) min').
      * cbn [snd]. rewrite Hreq, Hlen, <- (Hreq2 trace (120 + Z.of_nat i * 30)%Z).
        apply Hgrow.
      * apply IH. rewrite !Hreq2. lia.
  - apply IH. rewrite !Hreq. lia.
Qed.


(** What [readDocs] returns passed the filter. *)
Lemma readDocs_filtered {Doc : Type} (f : Doc -> bool) (r : FetchResult Doc)
  (d : list Doc) :
  readDocs (Some f) r = Some d -> Forall (fun x => f x = true) d.
Proof.
  unfold readDocs. destruct r as [res|]; [|discriminate].
  destruct (negb (ok res)); [discriminate|].
  destruct (json res) as [| |data]; try discriminate.
  intros [= <-]. apply Forall_forall. intros x Hx.
  now apply filter_In in Hx.
Qed.

Lemma Forall2_right {A B : Type} (R : A -> B -> Prop) (P : B -> Prop)
  (l1 : list A) (l2 : list B) :
  Forall2 R l1 l2 -> (forall a b, In a l1 -> R a b -> P b) -> Forall P l2.
Proof.
  induction 1 as [|a b l1 l2 Hab _ IH]; intros H; constructor.
  - apply (H a b); [now left | assumption].
  - apply IH. intros a' b' Hin. apply H. now right.
Qed.

(** ** The size of a plan *)

Lemma RESOURCE_MAP_slugs (key : jsstring) (e : ResourceMapEntry) :
  lookup RESOURCE_MAP key = Some e ->
  (2 <= List.length (slugs e) <= 4)%nat.
Proof.
  intros H. apply lookup_In in H.
  assert (Hall : forallb (fun e => Nat.leb 2 (List.length (slugs e))
                                   && Nat.leb (List.length (slugs e)) 4)
                         (List.map snd RESOURCE_MAP) = true)
    by (vm_compute; reflexivity).
  rewrite forallb_forall in Hall. specialize (Hall e H).
  apply andb_prop in Hall as [H1 H2].
  apply Nat.leb_le in H1. apply Nat.leb_le in H2. lia.
Qed.

Lemma planFor_length (m : ResourceMapEntry) (token : option jsstring) :
  List.length (planFor m token) =
  match token with
  | Some _ => (2 * List.length (slugs m) + 2)%nat
  | None => (List.length (slugs m) + 1)%nat
  end.
Proof.
  unfold planFor. destruct token as [s|]; rewrite length_app.
  - rewrite length_flat_map_pair. reflexivity.
  - rewrite length_map. reflexivity.
Qed.

End RetrieverMoreFacts.

(** * Facts about sort and Set *)

Module ArrayFacts.

Import JS JSArray MoreJSFacts.

(** ** Array.prototype.sort *)

Section Sort.

Variable A : Type.
Variable comparefn : A -> A -> number.

Local Abbreviation mayPrecede := (fun x y => (sortCompare comparefn x y <= 0)%Z).

(** The comparator is consistent. *)
Hypothesis asymmetric :
  forall x y, (0 < sortCompare comparefn x y)%Z -> mayPrecede y x.
Hypothesis transitive :
  forall x y z, mayPrecede x y -> mayPrecede y z -> mayPrecede x z.

Lemma insertSorted_permutation (x : A) (l : list A) :
  Permutation (x :: l) (insertSorted comparefn x l).
Proof.
  induction l as [|y r IH]; cbn [insertSorted]; [reflexivity|].
  destruct (0 <? sortCompare comparefn x y)%Z; [|reflexivity].
  rewrite perm_swap. now constructor.
Qed.

Lemma sort_permutation (l : list A) : Permutation l (sort comparefn l).
Proof.
  induction l as [|x r IH]; cbn [sort]; [reflexivity|].
  rewrite <- insertSorted_permutation. now constructor.
Qed.

Lemma insertSorted_sorted (x : A) (l : list A) :
  StronglySorted mayPrecede l ->
  StronglySorted mayPrecede (insertSorted comparefn x l).
Proof.
  induction 1 as [|y r Hr IH Hy]; cbn [insertSorted].
  { repeat constructor. }
  destruct (0 <? sortCompare comparefn x y)%Z eqn:Hc.
  - apply Z.ltb_lt in Hc. constructor; [exact IH|].
    apply (Permutation_Forall (insertSorted_permutation x r)).
    constructor; [now apply asymmetric | exact Hy].
  - apply Z.ltb_ge in Hc. constructor; [now constructor|].
    constructor; [exact Hc|].
    eapply Forall_impl; [|exact Hy]. cbn beta. intros z Hz.
    now apply (transitive x y z).
Qed.

Lemma sort_sorted (l : list A) : StronglySorted mayPrecede (sort comparefn l).
Proof.
  induction l as [|x r IH]; cbn [sort]; [constructor|].
  now apply insertSorted_sorted.
Qed.

(** The sort is stable: elements none of which has to follow another keep
    their order. *)
Lemma insertSorted_stable (p : A -> bool) (x : A) (l : list A) :
  (forall a b, p a = true -> p b = true -> mayPrecede a b) ->
  List.filter p (insertSorted comparefn x l) = List.filter p (x :: l).
Proof.
  intros Hp. induction l as [|y r IH]; cbn [insertSorted]; [reflexivity|].
  destruct (0 <? sortCompare comparefn x y)%Z eqn:Hc; [|reflexivity].
  apply Z.ltb_lt in Hc. cbn [List.filter] in *. rewrite IH.
  destruct (p x) eqn:Hx, (p y) eqn:Hy; try reflexivity.
  specialize (Hp x y Hx Hy). cbn beta in Hp. lia.
Qed.

Lemma sort_stable (p : A -> bool) (l : list A) :
  (forall a b, p a = true -> p b = true -> mayPrecede a b) ->
  List.filter p (sort comparefn l) = List.filter p l.
Proof.
  intros Hp. induction l as [|x r IH]; cbn [sort]; [reflexivity|].
  rewrite insertSorted_stable by assumption. cbn [List.filter]. now rewrite IH.
Qed.

End Sort.

Lemma StronglySorted_impl {A : Type} (R S : A -> A -> Prop) (l : list A) :
  (forall a b, R a b -> S a b) -> StronglySorted R l -> StronglySorted S l.
Proof.
  intros H. induction 1 as [|x l Hl IH Hx]; constructor; [assumption|].
  eapply Forall_impl; [|exact Hx]. apply H.
Qed.

(** ** Set *)

Lemma add_In (x y : jsstring) (l : list jsstring) :
  In y (add x l) <-> In y l \/ y = x.
Proof.
  unfold add. destruct (existsb (eqb_string x) l) eqn:He.
  - apply existsb_exists in He as (z & Hz & Heq). apply eqb_string_eq in Heq as ->.
    split; [now left | intros [H| ->]; assumption].
  - rewrite in_app_iff. cbn [In]. split.
    + intros [H|[<-|[]]]; [now left | now right].
    + intros [H| ->]; [now left | right; now left].
Qed.

Lemma add_NoDup (x : jsstring) (l : list jsstring) : NoDup l -> NoDup (add x l).
Proof.
  intros Hl. unfold add. destruct (existsb (eqb_string x) l) eqn:He; [assumption|].
  apply NoDup_app; [assumption | repeat constructor; intros [] |].
  intros y Hy [<-|[]].
  assert (Hex : existsb (eqb_string x) l = true).
  { apply existsb_exists. exists x. split; [assumption | apply eqb_string_refl]. }
  congruence.
Qed.

Lemma add_length (x : jsstring) (l : list jsstring) :
  (List.length (add x l) <= S (List.length l))%nat.
Proof.
  unfold add. destruct (existsb (eqb_string x) l); [lia|].
  rewrite length_app. cbn. lia.
Qed.

Lemma fold_add (l acc : list jsstring) :
  let s := fold_left (fun elements x => add x elements) l acc in
  (forall y, In y s <-> In y acc \/ In y l)
  /\ (NoDup acc -> NoDup s)
  /\ (List.length s <= List.length acc + List.length l)%nat.
Proof.
  revert acc. induction l as [|x l IH]; intros acc; cbn [fold_left].
  - cbn zeta. splits; [intros y; cbn; tauto | auto | lia].
  - destruct (IH (add x acc)) as (Hin & Hnd & Hlen). cbn zeta. splits.
    + intros y. rewrite Hin, add_In. cbn [In]. intuition congruence.
    + intros H. now apply Hnd, add_NoDup.
    + pose proof (add_length x acc). cbn [List.length]. lia.
Qed.

Lemma fromSet_spec (l : list jsstring) :
  (forall y, In y (fromSet l) <-> In y l)
  /\ NoDup (fromSet l)
  /\ (List.length (fromSet l) <= List.length l)%nat.
Proof.
  destruct (fold_add l []) as (Hin & Hnd & Hlen). unfold fromSet. splits.
  - intros y. rewrite Hin. cbn. tauto.
  - apply Hnd. constructor.
  - exact Hlen.
Qed.

End ArrayFacts.

(** * Facts about the search bar *)

Module SearchBarFacts.

Import JS ResourceSearch JSArray SearchResults Vocabulary.
Import JSFacts PlannerFacts RetrieverFacts MoreJSFacts UrlFacts ArrayFacts.

(** ** The suggestions *)

Lemma titles_spec (docs : list Doc.t) :
  (List.length (titles docs) <= 6)%nat
  /\ forall t, In t (titles docs) <->
               exists d, In d (firstn 6 docs)
                         /\ Doc.title d = Some t /\ t <> [].
Proof.
  unfold titles. split.
  - pose proof (firstn_le_length 6 docs) as Hlen.
    assert (H : forall ds : list Doc.t,
               (List.length
                  (flat_map (fun d => match truthy (Doc.title d) with
                                      | Some t => [t]
                                      | None => []
                                      end) ds) <= List.length ds)%nat).
    { induction ds as [|d ds IH]; cbn [flat_map List.length]; [lia|].
      rewrite length_app. destruct (truthy (Doc.title d)); cbn [List.length]; lia. }
    specialize (H (firstn 6 docs)). lia.
  - intros t. rewrite in_flat_map. split.
    + intros (d & Hd & Ht). exists d. split; [assumption|].
      destruct (Doc.title d) as [[|c s]|]; cbn [truthy] in Ht; try contradiction.
      destruct Ht as [<-|[]]. split; [reflexivity | discriminate].
    + intros (d & Hd & Ht & Hne). exists d. split; [assumption|].
      rewrite Ht. destruct t as [|c s]; [congruence|]. now left.
Qed.

(** ** mapDocsToBooks *)

Lemma bookKey_nonempty (d : Doc.t) : bookKey d <> [].
Proof.
  unfold bookKey.
  destruct (Doc.key d) as [[|c s]|]; cbn [truthy]; try discriminate;
    (destruct (Doc.cover_edition_key d) as [[|c' s']|]; cbn [truthy];
     try discriminate;
     destruct (nullish (Doc.title d) (lit "untitled")); discriminate).
Qed.

(** ** The format filter *)

Lemma filter_partition {A : Type} (p : A -> bool) (l : list A) :
  Permutation (List.filter p l ++ List.filter (fun x => negb (p x)) l) l.
Proof.
  induction l as [|x l IH]; [reflexivity|]. cbn [List.filter].
  destruct (p x); cbn [negb app].
  - now constructor.
  - rewrite <- Permutation_middle. now constructor.
Qed.

Lemma isLiteral_eq (value : option jsstring) (literal : string) :
  isLiteral value literal = true <-> value = Some (lit literal).
Proof.
  unfold isLiteral. destruct value as [v|]; [|split; discriminate].
  rewrite eqb_string_eq. split; congruence.
Qed.

Lemma flagged (books : list Book.t) :
  Forall (fun b => Book.has_fulltext b = Some true)
         (List.filter (fun b => flag (Book.has_fulltext b)) books)
  /\ Forall (fun b => Book.has_fulltext b <> Some true)
            (List.filter (fun b => negb (flag (Book.has_fulltext b))) books).
Proof.
  split; apply Forall_forall; intros b Hb; apply filter_In in Hb as [_ Hb];
    destruct (Book.has_fulltext b) as [[|]|]; try reflexivity; discriminate.
Qed.

Lemma byFormat_ebook (filters : Filters) (books : list Book.t) :
  isLiteral (format filters) "ebook" = true ->
  byFormat filters books = List.filter (fun b => flag (Book.has_fulltext b)) books.
Proof. intros H. unfold byFormat. now rewrite H. Qed.

Lemma byFormat_print (filters : Filters) (books : list Book.t) :
  isLiteral (format filters) "print" = true ->
  byFormat filters books =
  List.filter (fun b => negb (flag (Book.has_fulltext b))) books.
Proof.
  intros H. unfold byFormat. rewrite H.
  apply isLiteral_eq in H. rewrite H. reflexivity.
Qed.

(** ** The two comparators *)

Lemma newestFirst_compare (a b : Book.t) :
  sortCompare newestFirst a b = (yearOrZero b - yearOrZero a)%Z.
Proof. reflexivity. Qed.

Lemma oldestFirst_notLater (a b : Book.t) :
  (sortCompare oldestFirst a b <= 0)%Z <->
  notLater (Book.first_publish_year a) (Book.first_publish_year b).
Proof.
  unfold sortCompare, oldestFirst, yearOrInfinity, notLater.
  destruct (Book.first_publish_year a), (Book.first_publish_year b);
    cbn [minus]; lia.
Qed.

Lemma sort_newestFirst (books : list Book.t) :
  Permutation books (sort newestFirst books)
  /\ StronglySorted (fun a b => (yearOrZero b <= yearOrZero a)%Z)
                    (sort newestFirst books)
  /\ forall y, List.filter (fun b => (yearOrZero b =? y)%Z) (sort newestFirst books) =
               List.filter (fun b => (yearOrZero b =? y)%Z) books.
Proof.
  assert (Hasym : forall x y, (0 < sortCompare newestFirst x y)%Z ->
                              (sortCompare newestFirst y x <= 0)%Z).
  { intros x y. rewrite !newestFirst_compare. lia. }
  assert (Htrans : forall x y z, (sortCompare newestFirst x y <= 0)%Z ->
                                 (sortCompare newestFirst y z <= 0)%Z ->
                                 (sortCompare newestFirst x z <= 0)%Z).
  { intros x y z. rewrite !newestFirst_compare. lia. }
  splits.
  - apply sort_permutation.
  - eapply StronglySorted_impl;
      [|apply (sort_sorted _ newestFirst Hasym Htrans)].
    intros a b. cbn beta. rewrite newestFirst_compare. lia.
  - intros y. apply sort_stable. intros a b Ha Hb. rewrite newestFirst_compare.
    apply Z.eqb_eq in Ha, Hb. lia.
Qed.

Lemma sort_oldestFirst (books : list Book.t) :
  Permutation books (sort oldestFirst books)
  /\ StronglySorted (fun a b => notLater (Book.first_publish_year a)
                                         (Book.first_publish_year b))
                    (sort oldestFirst books)
  /\ forall y, List.filter (hasYear y) (sort oldestFirst books) =
               List.filter (hasYear y) books.
Proof.
  assert (Hasym : forall x y, (0 < sortCompare oldestFirst x y)%Z ->
                              (sortCompare oldestFirst y x <= 0)%Z).
  { intros x y. unfold sortCompare, oldestFirst, yearOrInfinity.
    destruct (Book.first_publish_year x), (Book.first_publish_year y);
      cbn [minus]; lia. }
  assert (Htrans : forall x y z, (sortCompare oldestFirst x y <= 0)%Z ->
                                 (sortCompare oldestFirst y z <= 0)%Z ->
                                 (sortCompare oldestFirst x z <= 0)%Z).
  { intros x y z. unfold sortCompare, oldestFirst, yearOrInfinity.
    destruct (Book.first_publish_year x), (Book.first_publish_year y),
      (Book.first_publish_year z); cbn [minus]; lia. }
  splits.
  - apply sort_permutation.
  - eapply StronglySorted_impl;
      [|apply (sort_sorted _ oldestFirst Hasym Htrans)].
    intros a b. apply oldestFirst_notLater.
  - intros y. apply sort_stable. intros a b Ha Hb. apply oldestFirst_notLater.
    unfold hasYear, notLater in *.
    destruct y, (Book.first_publish_year a), (Book.first_publish_year b);
      try discriminate; try exact I.
    apply Z.eqb_eq in Ha, Hb. lia.
Qed.

Lemma byYear_newest (filters : Filters) (books : list Book.t) :
  isLiteral (sortByYear filters) "newest" = true ->
  byYear filters books = sort newestFirst books.
Proof. intros H. unfold byYear. now rewrite H. Qed.

Lemma byYear_oldest (filters : Filters) (books : list Book.t) :
  isLiteral (sortByYear filters) "oldest" = true ->
  byYear filters books = sort oldestFirst books.
Proof.
  intros H. unfold byYear. rewrite H.
  apply isLiteral_eq in H. rewrite H. reflexivity.
Qed.

Lemma byYear_permutation (filters : Filters) (books : list Book.t) :
  Permutation books (byYear filters books).
Proof.
  unfold byYear.
  destruct (isLiteral (sortByYear filters) "newest"); [apply sort_permutation|].
  destruct (isLiteral (sortByYear filters) "oldest"); [apply sort_permutation|].
  reflexivity.
Qed.

(** What the list shown by [runSearch] is, when one is set: none, or the
    sorted and format-filtered part of a list of books. *)
Lemma booksToSet_cases (toLowerCase : jsstring -> jsstring) (filters : Filters)
  (awaited : result (SearchBar.Awaited Doc.t)) (shown : list Book.t) :
  booksToSet toLowerCase filters awaited = Some shown ->
  shown = [] \/ exists books, shown = byYear filters (byFormat filters books).
Proof.
  unfold booksToSet. destruct awaited as [[res|[res|[|]]]|e]; try discriminate.
  - intros [= <-]. right. now eexists.
  - destruct (json res); intros [= <-]; [now left | now left|].
    right. now eexists.
  - intros [= <-]. now left.
  - intros [= <-]. now left.
Qed.

End SearchBarFacts.

(** * Facts about the saved books *)

Module SavedBooksFacts.

Import JS AppContext BookCard Favorites.
Import MoreJSFacts.

Lemma sameKey_eq (book f : Book.t) :
  sameKey book f = true <-> Book.key f = Book.key book.
Proof. unfold sameKey. apply eqb_string_eq. Qed.

(** The list a toggle leaves. *)
Local Abbreviation toggled book l :=
  (if existsb (sameKey book) l
   then List.filter (fun r => negb (sameKey book r)) l
   else book :: l).

Lemma toggled_saved (book other : Book.t) (l : list Book.t) :
  existsb (sameKey other) (toggled book l) =
  if eqb_string (Book.key other) (Book.key book)
  then negb (existsb (sameKey other) l)
  else existsb (sameKey other) l.
Proof.
  assert (Hfilter : forall l,
             existsb (sameKey other) (List.filter (fun r => negb (sameKey book r)) l) =
             if eqb_string (Book.key other) (Book.key book) then false
             else existsb (sameKey other) l).
  { clear l. induction l as [|r l IH]; cbn [List.filter existsb].
    - now destruct (eqb_string _ _).
    - destruct (sameKey book r) eqn:Hr; cbn [negb existsb]; rewrite IH.
      + apply sameKey_eq in Hr.
        destruct (eqb_string (Book.key other) (Book.key book)) eqn:Ho.
        * reflexivity.
        * replace (sameKey other r) with false; [reflexivity|].
          symmetry. unfold sameKey. rewrite Hr, eqb_string_sym. exact Ho.
      + destruct (eqb_string (Book.key other) (Book.key book)) eqn:Ho;
          [|reflexivity].
        apply eqb_string_eq in Ho. unfold sameKey in *. rewrite Ho, Hr.
        reflexivity. }
  assert (Hsame : eqb_string (Book.key other) (Book.key book) = true ->
                  existsb (sameKey other) l = existsb (sameKey book) l).
  { intros Ho. apply eqb_string_eq in Ho. unfold sameKey. now rewrite Ho. }
  destruct (existsb (sameKey book) l) eqn:He.
  - rewrite Hfilter. destruct (eqb_string (Book.key other) (Book.key book)) eqn:Ho;
      [|reflexivity].
    now rewrite (Hsame eq_refl).
  - cbn [existsb]. unfold sameKey at 1. rewrite eqb_string_sym.
    destruct (eqb_string (Book.key other) (Book.key book)) eqn:Ho; [|reflexivity].
    now rewrite (Hsame eq_refl).
Qed.

Lemma filter_none {A : Type} (p : A -> bool) (l : list A) :
  existsb p l = false -> List.filter (fun x => negb (p x)) l = l.
Proof.
  induction l as [|x l IH]; [reflexivity|]. cbn [existsb List.filter].
  intros H. apply orb_false_elim in H as [Hx Hl].
  rewrite Hx. cbn [negb]. now rewrite IH.
Qed.

Lemma saved_then_removed (book : Book.t) (l : list Book.t) :
  existsb (sameKey book) l = false ->
  existsb (sameKey book) (book :: l) = true
  /\ List.filter (fun r => negb (sameKey book r)) (book :: l) = l
  /\ List.filter (fun b => negb (eqb_string (Book.key b) (Book.key book))) (book :: l) = l.
Proof.
  intros He.
  assert (Hb : sameKey book book = true) by (unfold sameKey; apply eqb_string_refl).
  change (fun b => negb (eqb_string (Book.key b) (Book.key book)))
    with (fun b => negb (sameKey book b)).
  cbn [existsb List.filter]. rewrite Hb. cbn [orb negb].
  rewrite (filter_none (sameKey book) l He). now splits.
Qed.

Lemma NoDup_map_filter {A B : Type} (f : A -> B) (p : A -> bool) (l : list A) :
  NoDup (List.map f l) -> NoDup (List.map f (List.filter p l)).
Proof.
  induction l as [|x l IH]; [intros; constructor|]. cbn [List.map List.filter].
  intros H. inversion H as [|? ? Hx Hl]; subst.
  destruct (p x); [|now apply IH]. cbn [List.map]. constructor; [|now apply IH].
  intros Hin. apply Hx. apply in_map_iff in Hin as (y & Hy & Hin).
  apply filter_In in Hin as [Hin _]. apply in_map_iff. now exists y.
Qed.

Lemma toggled_NoDup (book : Book.t) (l : list Book.t) :
  NoDup (List.map Book.key l) -> NoDup (List.map Book.key (toggled book l)).
Proof.
  intros H. destruct (existsb (sameKey book) l) eqn:He.
  - now apply NoDup_map_filter.
  - cbn [List.map]. constructor; [|assumption].
    intros Hin. apply in_map_iff in Hin as (y & Hy & Hin).
    assert (Hex : existsb (sameKey book) l = true).
    { apply existsb_exists. exists y. split; [assumption|]. now apply sameKey_eq. }
    congruence.
Qed.

End SavedBooksFacts.

(** * Facts about the controls *)

Module ControlsFacts.

Import JS ResourceSearch App.
Import JSFacts PlannerFacts RetrieverFacts MoreJSFacts.

Lemma offers_In (values : list jsstring) (value : jsstring) :
  offers values value = true -> In value values.
Proof.
  unfold offers. intros H. apply existsb_exists in H as (x & Hx & Heq).
  now apply eqb_string_eq in Heq as ->.
Qed.

(** The resource type and the subject of a pick: a resource type that has a
    profile, an ASCII subject. *)
Lemma pick_searchable (studentMode : bool) (index : nat) (p : Pick) (m : Meta) :
  nth_error (picks studentMode) index = Some p ->
  meta p = Some m ->
  (forall rt, truthy (metaResourceType m) = Some rt -> lookup RESOURCE_MAP rt <> None)
  /\ (forall s, truthy (metaSubject m) = Some s -> isPlain s = true).
Proof.
  intros Hp Hm. apply nth_error_In in Hp.
  assert (Hin : In p (studentPicks ++ normalPicks)).
  { apply in_or_app. destruct studentMode; [now left | now right]. }
  assert (Hall : forallb (fun p =>
                            match meta p with
                            | None => true
                            | Some m =>
                                match truthy (metaResourceType m) with
                                | Some rt =>
                                    match lookup RESOURCE_MAP rt with
                                    | Some _ => true
                                    | None => false
                                    end
                                | None => true
                                end
                                && match truthy (metaSubject m) with
                                   | Some s => isPlain s
                                   | None => true
                                   end
                            end) (studentPicks ++ normalPicks) = true)
    by (vm_compute; reflexivity).
  rewrite forallb_forall in Hall. specialize (Hall p Hin). rewrite Hm in Hall.
  apply andb_prop in Hall as [H1 H2]. split.
  - intros rt Hrt. rewrite Hrt in H1. now destruct (lookup RESOURCE_MAP rt).
  - intros s Hs. now rewrite Hs in H2.
Qed.

(** The filters a search can be run with: the resource type, when it is not
    empty, has a profile, and the category is an ASCII string. The controls
    keep them so. *)
Lemma step_searchable (studentMode : bool) (e : UiEvent) (ui : Ui) :
  (forall rt, truthy (resourceType (filters ui)) = Some rt ->
              lookup RESOURCE_MAP rt <> None) ->
  (forall c, category (filters ui) = Some c -> isPlain c = true) ->
  (forall rt, truthy (resourceType (filters (step studentMode e ui))) = Some rt ->
              lookup RESOURCE_MAP rt <> None)
  /\ (forall c, category (filters (step studentMode e ui)) = Some c ->
                isPlain c = true).
Proof.
  intros Hrt Hcat. destruct e as [index|c|text]; cbn [step].
  - destruct (nth_error (picks studentMode) index) as [p|] eqn:Hp; [|now split].
    unfold handlePickClick. cbn [filters].
    destruct (meta p) as [m|] eqn:Hm; [|now split].
    destruct (pick_searchable studentMode index p m Hp Hm) as [Hmrt Hms].
    destruct (truthy (metaResourceType m)) as [rt|] eqn:Hr;
      destruct (truthy (metaSubject m)) as [s|] eqn:Hs;
      cbn [resourceType category]; split; try assumption.
    + intros rt' Hrt'. destruct rt; cbn [truthy] in Hrt'; [discriminate|].
      injection Hrt' as <-. now apply Hmrt.
    + intros rt' Hrt'. destruct rt; cbn [truthy] in Hrt'; [discriminate|].
      injection Hrt' as <-. now apply Hmrt.
  - destruct (offered studentMode c) eqn:Hoff; [|now split].
    cbn [filters]. destruct c as [v|v|v|v|v]; cbn [onChange resourceType category];
      split; try assumption.
    + intros c' Hc'. injection Hc' as Hc'. subst c'.
      cbn [offered] in Hoff. apply offers_In in Hoff.
      assert (Hall : forallb isPlain (STUDENT_SUBJECTS ++ GENRES) = true)
        by (vm_compute; reflexivity).
      rewrite forallb_forall in Hall. apply Hall. apply in_or_app.
      destruct studentMode; [now left | now right].
    + intros rt' Hrt'. cbn [offered] in Hoff. apply andb_prop in Hoff as [_ Hoff].
      apply offers_In in Hoff.
      assert (Hall : forallb (fun v => match truthy (Some v) with
                                       | Some rt =>
                                           match lookup RESOURCE_MAP rt with
                                           | Some _ => true
                                           | None => false
                                           end
                                       | None => true
                                       end) RESOURCE_TYPES = true)
        by (vm_compute; reflexivity).
      rewrite forallb_forall in Hall. specialize (Hall v Hoff).
      rewrite Hrt' in Hall. now destruct (lookup RESOURCE_MAP rt').
  - now split.
Qed.

Lemma after_searchable (events : list (bool * UiEvent)) (ui : Ui) :
  (forall rt, truthy (resourceType (filters ui)) = Some rt ->
              lookup RESOURCE_MAP rt <> None) ->
  (forall c, category (filters ui) = Some c -> isPlain c = true) ->
  let ui' := fold_left (fun ui e => step (fst e) (snd e) ui) events ui in
  (forall rt, truthy (resourceType (filters ui')) = Some rt ->
              lookup RESOURCE_MAP rt <> None)
  /\ (forall c, category (filters ui') = Some c -> isPlain c = true).
Proof.
  revert ui. induction events as [|e events IH]; intros ui Hrt Hcat; [now split|].
  cbn [fold_left].
  destruct (step_searchable (fst e) (snd e) ui Hrt Hcat) as [Hrt' Hcat'].
  now apply IH.
Qed.

End ControlsFacts.

(** * Further properties of the retriever *)

Module RetrieverProperties.

Import JS ResourceSearch Scenario Vocabulary Examples.
Import JSFacts NumberFacts PlannerFacts RetrieverFacts MoreJSFacts UrlFacts.
Import RetrieverMoreFacts.

Section Retriever.

Variable Doc : Type.
Variable net : nat -> jsstring -> FetchResult Doc.
Variable aborted : nat -> bool.
Implicit Types opts : SearchOptions Doc.

(** X1. Every document [runSmartSearch] returns passed [clientSideFilter],
    whether the outcome is that of an accepted attempt or the fallback. *)
Theorem returned_documents_pass_the_filter
  (rt : jsstring) opts (f : Doc -> bool) (out : Outcome.t Doc) (trace : list Event) :
  clientSideFilter opts = Some f ->
  runSmartSearch net aborted rt opts [] = (Ok out, trace) ->
  Forall (fun d => f d = true) (Outcome.docs out).
Proof.
  intros Hf Hrun. unfold runSmartSearch, bindIO, lift in Hrun.
  destruct (buildQueryAttempts rt opts) as [plan|e]; [|discriminate Hrun].
  rewrite Hf in Hrun.
  apply attemptLoop_Ok_inv in Hrun
    as [(k & a & u & d & r & _ & _ & _ & Hr & _ & -> & _)|(d & -> & _ & Hfrom)];
    cbn [Outcome.docs].
  - exact (readDocs_filtered f r d Hr).
  - destruct Hfrom as [[_ ->]|[->|(r & Hr & _)]]; try constructor.
    exact (readDocs_filtered f r d Hr).
Qed.

(** X2. The caller can tell the fallback from an accepted attempt by either
    field: the outcome has no URL exactly when its description is
    "fallback"; no planned attempt has that description. *)
Theorem fallback_is_told_by_the_url
  (rt : jsstring) opts (out : Outcome.t Doc) (trace : list Event) :
  runSmartSearch net aborted rt opts [] = (Ok out, trace) ->
  Outcome.url out = None <-> Outcome.description out = lit "fallback".
Proof.
  intros Hrun. unfold runSmartSearch, bindIO, lift in Hrun.
  destruct (buildQueryAttempts rt opts) as [plan|e] eqn:Hb; [|discriminate Hrun].
  destruct (buildQueryAttempts_Ok_inv Doc rt opts plan Hb) as [m Hm].
  destruct (buildQueryAttempts_Ok_planFor Doc rt opts m plan Hm Hb) as [-> _].
  apply attemptLoop_Ok_inv in Hrun
    as [(k & a & u & d & r & _ & Ha & _ & _ & _ & -> & _)|(d & -> & _ & _)];
    cbn [Outcome.url Outcome.description].
  - apply nth_error_In in Ha. apply planFor_description in Ha.
    split; [discriminate | contradiction].
  - split; reflexivity.
Qed.


(** X4. The delays of an invocation follow a fixed schedule: nothing is
    waited for before the first request, a request is followed by at most
    one delay, the delay after the request of the attempt at index i is
    120 + 30 i milliseconds, and every delay is between 120 and 390
    milliseconds. *)
Theorem delays_follow_the_schedule (rt : jsstring) opts :
  paced 0 (snd (runSmartSearch net aborted rt opts [])) = true
  /\ Forall (fun ms => 120 <= ms <= 390)%Z
            (pauses (snd (runSmartSearch net aborted rt opts []))).
Proof.
  unfold runSmartSearch, bindIO, lift.
  destruct (buildQueryAttempts rt opts) as [plan|e] eqn:Hb;
    [|split; [reflexivity | constructor]].
  destruct (buildQueryAttempts_Ok_inv Doc rt opts plan Hb) as [m Hm].
  destruct (buildQueryAttempts_Ok_planFor Doc rt opts m plan Hm Hb) as [Hplan _].
  destruct (attemptLoop_events Doc net aborted plan (limitOf opts) (minResultsOf opts)
              (maxAttemptsOf opts plan) (clientSideFilter opts)
              (S (List.length plan)) 0 [] [])
    as (ev & -> & Hp & Hb' & _).
  cbn [app]. split; [exact Hp|].
  eapply Forall_impl; [|exact Hb']. cbn beta. intros ms Hms.
  assert (Hlen : (List.length plan <= 10)%nat).
  { rewrite Hplan, planFor_length. pose proof (RESOURCE_MAP_slugs rt m Hm).
    destruct (subjectToken opts); lia. }
  lia.
Qed.

(** X5. With a threshold that is not positive the first response that can
    be read is accepted whatever it holds: when the attempts before the one
    at index [i] all fail and that one, below the cap, is answered with a
    success status and a body with documents, or with none, the outcome is
    that attempt with its documents as [clientSideFilter] leaves them, and
    the invocation did nothing but request the attempts up to it, one after
    the other. No invocation ever waits, and a fallback outcome, which then
    arises only when every attempt failed, has no documents. *)
Theorem nonpositive_threshold_accepts_any_answer (rt : jsstring) opts :
  Number.geb (Number.ofZ 0) (minResultsOf opts) = true ->
  pauses (snd (runSmartSearch net aborted rt opts [])) = []
  /\ (forall out,
         fst (runSmartSearch net aborted rt opts []) = Ok out ->
         Outcome.url out = None -> Outcome.docs out = [])
  /\ (forall plan i a url raw,
         stringSubject opts = true ->
         buildQueryAttempts rt opts = Ok plan ->
         Number.ltb (Number.ofNat i) (maxAttemptsOf opts plan) = true ->
         nth_error plan i = Some a ->
         requestUrl (limitOf opts) a = Ok url ->
         net i url = Fulfilled {| ok := true; json := JsonValue raw |} ->
         (forall j b u,
             (j < i)%nat -> nth_error plan j = Some b ->
             requestUrl (limitOf opts) b = Ok u -> failed (net j u) = true) ->
         runSmartSearch net aborted rt opts [] =
         (Ok (Outcome.mk
                (match clientSideFilter opts with
                 | Some f => List.filter f (nullish raw [])
                 | None => nullish raw []
                 end)
                (Number.ofNat (i + 1)) (Attempt.description a) (Some url)),
          List.map EvFetch
                   (List.map (urlAt plan (limitOf opts)) (seq 0 (S i))))).
Proof.
  intros Hmin.
  assert (Hquiet : pauses (snd (runSmartSearch net aborted rt opts [])) = []).
  { unfold runSmartSearch, bindIO, lift.
    destruct (buildQueryAttempts rt opts) as [plan|e]; [|reflexivity].
    destruct (attemptLoop_events Doc net aborted plan (limitOf opts) (minResultsOf opts)
                (maxAttemptsOf opts plan) (clientSideFilter opts)
                (S (List.length plan)) 0 [] [])
      as (ev & -> & _ & _ & Hz).
    cbn [app]. now apply Hz. }
  splits.
  - exact Hquiet.
  - unfold runSmartSearch, bindIO, lift.
    destruct (buildQueryAttempts rt opts) as [plan|e]; [|discriminate].
    intros out Hout Hurl.
    destruct (attemptLoop net aborted plan (limitOf opts) (minResultsOf opts)
                (maxAttemptsOf opts plan) (clientSideFilter opts)
                (S (List.length plan)) 0 [] []) as [r trace] eqn:Hrun.
    cbn [fst] in Hout. subst r.
    apply attemptLoop_Ok_inv in Hrun
      as [(k & a & u & d & r & _ & _ & _ & _ & _ & -> & _)|(d & -> & _ & Hfrom)];
      cbn [Outcome.url Outcome.docs] in *; [discriminate Hurl|].
    destruct Hfrom as [[_ ->]|[->|(r & _ & Hlt)]]; try reflexivity.
    rewrite (geb_nonpositive _ (List.length d) Hmin) in Hlt. discriminate Hlt.
  - intros plan i a url raw Hv Hb Hi Ha Hu Hres Hbefore.
    pose proof (plan_urls_ok Doc rt opts plan Hv Hb) as Hurls.
    pose proof (docsAt_eq Doc net plan (limitOf opts) (clientSideFilter opts)
                  i a url Ha Hu) as Hdi.
    rewrite Hres in Hdi. cbn [readDocs ok json negb] in Hdi.
    assert (Hacc : acceptedAt net plan (limitOf opts) (minResultsOf opts)
                              (clientSideFilter opts) i = true).
    { unfold acceptedAt. rewrite Hdi. now apply geb_nonpositive. }
    destruct (runSmartSearch_spec Doc net aborted rt opts plan Hv Hb)
      as (out & trace & Hrun & [(k & a' & d' & Hk & Ha' & Hd' & _ & Hfirst & Hout & Htr)
                               |(Hnone & _)]).
    2:{ apply executed_lt in Hi. rewrite (Hnone i Hi) in Hacc. discriminate. }
    assert (Hki : k = i).
    { destruct (Nat.lt_trichotomy k i) as [Hlt|[Heq|Hgt]]; [|assumption|].
      - destruct (Hurls k a' Ha') as [u' Hu'].
        rewrite (docsAt_eq Doc net plan _ _ k a' u' Ha' Hu') in Hd'.
        pose proof (Hbefore k a' u' Hlt Ha' Hu') as Hf.
        apply readDocs_failed with (f := clientSideFilter opts) in Hf.
        rewrite Hf in Hd'. discriminate.
      - rewrite (Hfirst i Hgt) in Hacc. discriminate. }
    subst k. rewrite Ha in Ha'. injection Ha' as <-.
    rewrite Hdi in Hd'. injection Hd' as <-.
    rewrite (urlAt_eq plan (limitOf opts) i a url Ha Hu) in Hout.
    rewrite Hrun in Hquiet. cbn [snd] in Hquiet.
    rewrite Hrun, Hout, <- Htr, <- (quiet_trace trace Hquiet). reflexivity.
Qed.

(** X6. With a cap that is not positive no request is issued: the outcome is
    the fallback with no documents, and its [attempt] field is the cap
    itself, zero or negative. *)
Theorem nonpositive_cap_requests_nothing
  (rt : jsstring) opts (plan : list Attempt.t) (m : Number.t) :
  buildQueryAttempts rt opts = Ok plan ->
  maxAttempts opts = Some m -> Number.geb (Number.ofZ 0) m = true ->
  runSmartSearch net aborted rt opts [] =
  (Ok (Outcome.mk [] m (lit "fallback") None), []).
Proof.
  intros Hb Hm Hle. unfold runSmartSearch, bindIO, lift. rewrite Hb.
  assert (Hcap : maxAttemptsOf opts plan = m).
  { unfold maxAttemptsOf. rewrite Hm. cbn [nullish].
    apply min_nonpositive; [|exact Hle]. exact (plan_not_empty Doc rt opts plan Hb). }
  rewrite Hcap, attemptLoop_cases, (ltb_nonpositive m 0 Hle). reflexivity.
Qed.

(** X7. White space around the subject does not matter: the invocation with
    a subject and the one with the trimmed subject do the same, whatever
    the other options and the service. *)
Theorem surrounding_white_space_is_ignored
  (rt s : jsstring) (l mr ma : option Number.t) (f : option (Doc -> bool))
  (trace : list Event) :
  runSmartSearch net aborted rt
    {| subjectSlug := Some s; limit := l; minResults := mr; maxAttempts := ma;
       clientSideFilter := f |} trace =
  runSmartSearch net aborted rt
    {| subjectSlug := Some (trim s); limit := l; minResults := mr;
       maxAttempts := ma; clientSideFilter := f |} trace.
Proof.
  unfold runSmartSearch, buildQueryAttempts, limitOf, minResultsOf, maxAttemptsOf.
  cbn [subjectSlug limit minResults maxAttempts clientSideFilter option_map].
  now rewrite trim_idem.
Qed.

(** X8. Every request of an invocation goes to the search endpoint of Open
    Library and ends with the limit of the options as the form serializer
    writes its text (20 by default; a plus sign of an exponent becomes an
    escape); before it stand only units of a serialized query (ASCII
    letters and digits, [* - . _ + %] and the separators [&] and [=]),
    whatever the subject holds, and the limit itself is written in such
    units without a separator. *)
Theorem requests_are_queries_of_the_search_endpoint (rt : jsstring) opts :
  stringSubject opts = true ->
  Forall (fun u =>
            exists pre,
              u = lit "https://openlibrary.org/search.json?" ++ pre
                  ++ lit "&limit=" ++ formEncode (numberToString (limitOf opts))
              /\ forallb isQueryUnit pre = true)
         (requests (snd (runSmartSearch net aborted rt opts [])))
  /\ forallb isFormUnit (formEncode (numberToString (limitOf opts))) = true
  /\ (limit opts = None ->
      formEncode (numberToString (limitOf opts)) = lit "20").
Proof.
  intros Hs. splits.
  2:{ apply formEncode_units, isString_numberToString. }
  2:{ intros Hl. unfold limitOf. rewrite Hl. vm_compute. reflexivity. }
  destruct (buildQueryAttempts rt opts) as [plan|e] eqn:Hb.
  2:{ rewrite (runSmartSearch_throw Doc net aborted rt opts e Hb). constructor. }
  rewrite (runSmartSearch_loop Doc net aborted rt opts plan Hb).
  destruct (buildQueryAttempts_Ok_inv Doc rt opts plan Hb) as [m Hm].
  destruct (buildQueryAttempts_Ok_planFor Doc rt opts m plan Hm Hb) as [Hplan Hwf].
  destruct (attemptLoop_requests Doc net aborted plan (limitOf opts) (minResultsOf opts)
              (maxAttemptsOf opts plan) (clientSideFilter opts)
              (iterations (maxAttemptsOf opts plan) (S (List.length plan)) 0) 0 [] [])
    as (r & trace & us & -> & Htr & _ & Hall).
  cbn [snd]. rewrite Htr. cbn [requests app].
  apply (Forall2_right _ _ _ _ Hall). intros a u Hin Hu.
  apply in_firstn in Hin. cbn [skipn] in Hin.
  destruct (requestUrl_shape (limitOf opts) a u Hu) as (dq & pre & Hdq & -> & Hunits).
  exists pre. split; [reflexivity|]. apply Hunits.
  rewrite Hplan in Hin.
  destruct (planFor_decoded m (subjectToken opts) (RESOURCE_MAP_plain rt m Hm)) with (a := a)
    as (dq' & Hdq' & Hstr); [|assumption|congruence].
  intros s Htok. split; [now apply (stringSubject_token Doc opts) | now apply Hwf].
Qed.

(** X9. A subject token without a plus sign reaches the service unchanged:
    the attempt at position 2k asks for the k-th slug and the token as two
    [subject] parameters, each the original string, and the attempt at
    position 2k + 1 for the slug alone. *)
Theorem subject_without_plus_is_passed_unchanged
  (rt : jsstring) opts (m : ResourceMapEntry) (plan : list Attempt.t)
  (s slug : jsstring) (k : nat) :
  lookup RESOURCE_MAP rt = Some m ->
  stringSubject opts = true ->
  buildQueryAttempts rt opts = Ok plan ->
  subjectToken opts = Some s -> hasPlus s = false ->
  nth_error (slugs m) k = Some slug ->
  exists a b,
    nth_error plan (2 * k) = Some a /\ nth_error plan (2 * k + 1) = Some b
    /\ requestUrl (limitOf opts) a =
       Ok (lit "https://openlibrary.org/search.json?"
           ++ toString [(lit "subject", slug); (lit "subject", s);
                        (lit "limit", numberToString (limitOf opts))])
    /\ requestUrl (limitOf opts) b =
       Ok (lit "https://openlibrary.org/search.json?"
           ++ toString [(lit "subject", slug);
                        (lit "limit", numberToString (limitOf opts))]).
Proof.
  intros Hm Hs Hb Htok Hplus Hslug.
  destruct (buildQueryAttempts_Ok_planFor Doc rt opts m plan Hm Hb) as [-> Hwf].
  rewrite Htok. unfold planFor.
  destruct (nth_error_flat_map_pair _ _
              (fun slug => combinedAttempt slug s (encoded slug) (encoded s))
              (fun slug => slugAttempt slug (encoded slug))
              [keywordSubjectAttempt m s (encoded (keywordPhrase m ++ lit " " ++ s));
               keywordAttempt m (encoded (keywordPhrase m))]
              (slugs m) k slug Hslug) as [Ha Hb'].
  eexists _, _. split; [exact Ha|]. split; [exact Hb'|].
  pose proof (RESOURCE_MAP_plain rt m Hm) as Hp. unfold plainEntry in Hp.
  apply andb_prop in Hp as [Hp _]. apply andb_prop in Hp as [Hp _].
  apply andb_prop in Hp as [Hslugs _]. rewrite forallb_forall in Hslugs.
  pose proof (RESOURCE_MAP_no_plus rt m Hm) as Hnp. rewrite forallb_forall in Hnp.
  apply nth_error_In in Hslug.
  assert (Hnoplus : hasPlus slug = false).
  { specialize (Hnp slug Hslug). now apply negb_true_iff in Hnp. }
  split.
  - apply requestUrl_two_subjects; auto.
    now apply (stringSubject_token Doc opts).
  - apply requestUrl_one_subject; auto.
Qed.

(** X10. The two keyword attempts carry their text verbatim, plus signs
    included: the query of the first is the quoted keywords joined by OR, a
    space and the subject token; that of the second the quoted keywords
    alone. Encoding the text in the plan and decoding it for the request
    loses nothing. *)
Theorem keyword_queries_carry_the_subject_verbatim
  (rt : jsstring) opts (m : ResourceMapEntry) (plan : list Attempt.t)
  (s : jsstring) :
  lookup RESOURCE_MAP rt = Some m ->
  stringSubject opts = true ->
  buildQueryAttempts rt opts = Ok plan ->
  subjectToken opts = Some s ->
  exists a b,
    nth_error plan (2 * List.length (slugs m)) = Some a
    /\ nth_error plan (2 * List.length (slugs m) + 1) = Some b
    /\ requestUrl (limitOf opts) a =
       Ok (lit "https://openlibrary.org/search.json?"
           ++ toString [(lit "q", keywordPhrase m ++ lit " " ++ s);
                        (lit "limit", numberToString (limitOf opts))])
    /\ requestUrl (limitOf opts) b =
       Ok (lit "https://openlibrary.org/search.json?"
           ++ toString [(lit "q", keywordPhrase m);
                        (lit "limit", numberToString (limitOf opts))]).
Proof.
  intros Hm Hs Hb Htok.
  destruct (buildQueryAttempts_Ok_planFor Doc rt opts m plan Hm Hb) as [-> Hwf].
  rewrite Htok. unfold planFor.
  pose proof (length_flat_map_pair _ _
                (fun slug => combinedAttempt slug s (encoded slug) (encoded s))
                (fun slug => slugAttempt slug (encoded slug)) (slugs m)) as Hlen.
  pose proof (RESOURCE_MAP_plain rt m Hm) as Hp. unfold plainEntry in Hp.
  apply andb_prop in Hp as [Hp _]. apply andb_prop in Hp as [Hp _].
  apply andb_prop in Hp as [_ Hkw].
  pose proof (isPlain_keywordPhrase m Hkw) as Hphrase.
  pose proof (stringSubject_token Doc opts s Hs Htok) as Hstr.
  eexists _, _. splits.
  - rewrite <- Hlen, <- (Nat.add_0_r (List.length _)), nth_error_app_length.
    reflexivity.
  - rewrite <- Hlen, nth_error_app_length. reflexivity.
  - apply requestUrl_query.
    + rewrite !isString_app, Hstr, (isPlain_isString _ Hphrase). reflexivity.
    + rewrite app_assoc, isWellFormed_app_l; [now apply Hwf|].
      apply isPlain_no_surrogates. now rewrite isPlain_app, Hphrase.
  - apply requestUrl_query;
      [now apply isPlain_isString | now apply isPlain_wellFormed].
Qed.

(** X11. A plan has at least three and at most ten attempts, so an
    invocation issues at most ten requests, whatever the options, the
    subject and the service. *)
Theorem at_most_ten_requests (rt : jsstring) opts :
  (List.length (requests (snd (runSmartSearch net aborted rt opts []))) <= 10)%nat
  /\ forall plan,
      buildQueryAttempts rt opts = Ok plan ->
      (3 <= List.length plan <= 10)%nat.
Proof.
  assert (Hplan : forall plan, buildQueryAttempts rt opts = Ok plan ->
                               (3 <= List.length plan <= 10)%nat).
  { intros plan Hb.
    destruct (buildQueryAttempts_Ok_inv Doc rt opts plan Hb) as [m Hm].
    destruct (buildQueryAttempts_Ok_planFor Doc rt opts m plan Hm Hb) as [-> _].
    rewrite planFor_length. pose proof (RESOURCE_MAP_slugs rt m Hm).
    destruct (subjectToken opts); lia. }
  split; [|exact Hplan].
  destruct (buildQueryAttempts rt opts) as [plan|e] eqn:Hb.
  2:{ rewrite (runSmartSearch_throw Doc net aborted rt opts e Hb). cbn. lia. }
  rewrite (runSmartSearch_loop Doc net aborted rt opts plan Hb).
  destruct (attemptLoop_requests Doc net aborted plan (limitOf opts) (minResultsOf opts)
              (maxAttemptsOf opts plan) (clientSideFilter opts)
              (iterations (maxAttemptsOf opts plan) (S (List.length plan)) 0) 0 [] [])
    as (r & trace & us & -> & Htr & Hlen & _).
  cbn [snd]. rewrite Htr. cbn [requests app].
  pose proof (executed_le Doc opts plan). specialize (Hplan plan eq_refl). lia.
Qed.

(** X12. Lowering the threshold never costs a request: with everything else
    equal, and the service answering alike, the invocation with the lower
    [minResults] issues at most as many requests as the other. *)
Theorem lower_threshold_stops_no_later
  (rt : jsstring) (s : option jsstring) (l ma : option Number.t)
  (f : option (Doc -> bool)) (m m' : Number.t) :
  Number.geb m m' = true ->
  (List.length (requests (snd (runSmartSearch net aborted rt
      {| subjectSlug := s; limit := l; minResults := Some m';
         maxAttempts := ma; clientSideFilter := f |} [])))
   <= List.length (requests (snd (runSmartSearch net aborted rt
      {| subjectSlug := s; limit := l; minResults := Some m;
         maxAttempts := ma; clientSideFilter := f |} []))))%nat.
Proof.
  intros Hle. unfold runSmartSearch, bindIO, lift.
  unfold buildQueryAttempts, limitOf, minResultsOf, maxAttemptsOf.
  cbn [subjectSlug limit minResults maxAttempts clientSideFilter nullish].
  match goal with
  | |- context [match ?b with Ok _ => _ | Throw _ => _ end] => destruct b as [plan|e]
  end; [|cbn; lia].
  now apply attemptLoop_threshold.
Qed.

End Retriever.

(** ** Witnesses *)

Lemma returned_documents_pass_the_filter_witness :
  Forall (fun d => has_fulltext d = true) (docsOf true 7).
Proof.
  apply (returned_documents_pass_the_filter RawDoc mixedThenFull neverAborted
           (lit "study_guide") fullTextOnly has_fulltext
           (Outcome.mk (docsOf true 7) (Number.ofNat 2) (lit "subject:study-guides")
              (Some (lit "https://openlibrary.org/search.json?subject=study-guides&limit=20")))
           (snd (runSmartSearch mixedThenFull neverAborted (lit "study_guide")
                   fullTextOnly []))).
  - reflexivity.
  - vm_compute. reflexivity.
Defined.

Lemma fallback_is_told_by_the_url_witness :
  Outcome.url (Outcome.mk (@nil RawDoc) (Number.ofNat 6) (lit "fallback") None) = None
  <-> Outcome.description (Outcome.mk (@nil RawDoc) (Number.ofNat 6) (lit "fallback") None)
      = lit "fallback".
Proof.
  apply (fallback_is_told_by_the_url RawDoc nothingFound neverAborted
           (lit "study_guide") science
           (Outcome.mk [] (Number.ofNat 6) (lit "fallback") None)
           (snd (runSmartSearch nothingFound neverAborted (lit "study_guide")
                   science []))).
  vm_compute. reflexivity.
Defined.


Lemma nonpositive_threshold_accepts_any_answer_witness :
  runSmartSearch errorThenNothing neverAborted (lit "study_guide") anyAnswer [] =
  (Ok (Outcome.mk [] (Number.ofNat 2) (lit "subject:study-guides")
         (Some (lit "https://openlibrary.org/search.json?subject=study-guides&limit=20"))),
   [EvFetch (lit "https://openlibrary.org/search.json?subject=study+guides&limit=20");
    EvFetch (lit "https://openlibrary.org/search.json?subject=study-guides&limit=20")]).
Proof.
  apply (proj2 (proj2 (nonpositive_threshold_accepts_any_answer RawDoc errorThenNothing
                         neverAborted (lit "study_guide") anyAnswer eq_refl))
           (planOf (lit "study_guide") anyAnswer) 1
           (slugAttempt (lit "study-guides") (lit "study-guides"))
           (lit "https://openlibrary.org/search.json?subject=study-guides&limit=20")
           (Some [])).
  - reflexivity.
  - vm_compute. reflexivity.
  - vm_compute. reflexivity.
  - vm_compute. reflexivity.
  - vm_compute. reflexivity.
  - reflexivity.
  - intros j b u Hj _ _. destruct j as [|j]; [reflexivity | lia].
Defined.

Lemma nonpositive_cap_requests_nothing_witness :
  runSmartSearch nothingFound neverAborted (lit "study_guide") noAttempts [] =
  (Ok (Outcome.mk [] (Number.ofZ (-3)) (lit "fallback") None), []).
Proof.
  apply (nonpositive_cap_requests_nothing RawDoc nothingFound neverAborted
           (lit "study_guide") noAttempts
           (planOf (lit "study_guide") noAttempts) (Number.ofZ (-3))).
  - vm_compute. reflexivity.
  - reflexivity.
  - reflexivity.
Defined.

Lemma requests_are_queries_of_the_search_endpoint_witness :
  Forall (fun u =>
            exists pre,
              u = lit "https://openlibrary.org/search.json?" ++ pre
                  ++ lit "&limit=" ++ formEncode (numberToString (limitOf cPlusPlus))
              /\ forallb isQueryUnit pre = true)
         (requests (snd (runSmartSearch nothingFound neverAborted
                           (lit "study_guide") cPlusPlus [])))
  /\ forallb isFormUnit (formEncode (numberToString (limitOf cPlusPlus))) = true
  /\ (limit cPlusPlus = None ->
      formEncode (numberToString (limitOf cPlusPlus)) = lit "20").
Proof.
  apply (requests_are_queries_of_the_search_endpoint RawDoc nothingFound
           neverAborted (lit "study_guide") cPlusPlus).
  reflexivity.
Defined.

Lemma subject_without_plus_is_passed_unchanged_witness :
  exists a b,
    nth_error (planOf (lit "study_guide") science) 0 = Some a
    /\ nth_error (planOf (lit "study_guide") science) 1 = Some b
    /\ requestUrl (Number.ofZ 20) a =
       Ok (lit "https://openlibrary.org/search.json?"
           ++ toString [(lit "subject", lit "study guides");
                        (lit "subject", lit "science"); (lit "limit", lit "20")])
    /\ requestUrl (Number.ofZ 20) b =
       Ok (lit "https://openlibrary.org/search.json?"
           ++ toString [(lit "subject", lit "study guides");
                        (lit "limit", lit "20")]).
Proof.
  apply (subject_without_plus_is_passed_unchanged RawDoc (lit "study_guide") science
           studyGuideEntry (planOf (lit "study_guide") science)
           (lit "science") (lit "study guides") 0).
  - vm_compute. reflexivity.
  - reflexivity.
  - vm_compute. reflexivity.
  - vm_compute. reflexivity.
  - vm_compute. reflexivity.
  - reflexivity.
Defined.

Lemma keyword_queries_carry_the_subject_verbatim_witness :
  exists a b,
    nth_error (planOf (lit "study_guide") cPlusPlus) 4 = Some a
    /\ nth_error (planOf (lit "study_guide") cPlusPlus) 5 = Some b
    /\ requestUrl (Number.ofZ 20) a =
       Ok (lit "https://openlibrary.org/search.json?"
           ++ toString [(lit "q", keywordPhrase studyGuideEntry ++ lit " "
                                  ++ lit "c++");
                        (lit "limit", lit "20")])
    /\ requestUrl (Number.ofZ 20) b =
       Ok (lit "https://openlibrary.org/search.json?"
           ++ toString [(lit "q", keywordPhrase studyGuideEntry);
                        (lit "limit", lit "20")]).
Proof.
  apply (keyword_queries_carry_the_subject_verbatim RawDoc (lit "study_guide")
           cPlusPlus studyGuideEntry (planOf (lit "study_guide") cPlusPlus)
           (lit "c++")).
  - vm_compute. reflexivity.
  - reflexivity.
  - vm_compute. reflexivity.
  - vm_compute. reflexivity.
Defined.

Lemma lower_threshold_stops_no_later_witness :
  (List.length (requests (snd (runSmartSearch tenAtThird neverAborted
                                 (lit "past_papers") (threshold 3) [])))
   <= List.length (requests (snd (runSmartSearch tenAtThird neverAborted
                                    (lit "past_papers") (threshold 6) []))))%nat.
Proof.
  apply (lower_threshold_stops_no_later RawDoc tenAtThird neverAborted
           (lit "past_papers") None None None None (Number.ofZ 6) (Number.ofZ 3)).
  reflexivity.
Defined.

End RetrieverProperties.

(** * Properties of the search bar *)

Module SearchBarProperties.

Import JS ResourceSearch Scenario JSArray SearchResults Vocabulary Examples.
Import JSFacts PlannerFacts RetrieverFacts MoreJSFacts UrlFacts ArrayFacts.
Import SearchBarFacts.

(** ** buildSearchUrl *)

(** X13. The URL of a plain search has one pair for each parameter that is
    set and no other: [q] and [limit] always, [language] when it is not
    empty, [subject] when the category is not blank. Whatever the query and
    the filters hold, separators included, the query string has exactly
    that many [=] and one [&] less. *)
Theorem buildSearchUrl_has_one_pair_per_filter
  (query : jsstring) (filters : SearchBar.Filters) :
  exists qs,
    SearchBar.buildSearchUrl query filters =
    lit "https://openlibrary.org/search.json?" ++ qs
    /\ occurrences 0x3D qs =
       (2 + match truthy (SearchBar.language filters) with
            | Some _ => 1
            | None => 0
            end
          + match truthy (SearchBar.category filters) with
            | Some c => match trim c with [] => 0 | _ :: _ => 1 end
            | None => 0
            end)%nat
    /\ occurrences 0x26 qs = (occurrences 0x3D qs - 1)%nat.
Proof.
  assert (H : exists params,
             SearchBar.buildSearchUrl query filters =
             lit "https://openlibrary.org/search.json?" ++ toString params
             /\ List.length params =
                (2 + match truthy (SearchBar.language filters) with
                     | Some _ => 1
                     | None => 0
                     end
                   + match truthy (SearchBar.category filters) with
                     | Some c => match trim c with [] => 0 | _ :: _ => 1 end
                     | None => 0
                     end)%nat).
  { unfold SearchBar.buildSearchUrl.
    destruct (truthy (SearchBar.language filters)) as [l|];
      destruct (truthy (SearchBar.category filters)) as [c|];
      try destruct (trim c) as [|x t];
      eexists; split; reflexivity. }
  destruct H as (params & -> & Hlen).
  exists (toString params). destruct (toString_separators params) as [H1 H2].
  rewrite H1, H2, Hlen. splits; [reflexivity | reflexivity | lia].
Qed.

(** X14. White space around the category does not matter to the plain
    search, and a category of white space only is no category: the URL is
    that of the trimmed category, and that of no category when nothing is
    left of it. *)
Theorem buildSearchUrl_trims_the_category
  (query c : jsstring) (l rt : option jsstring) :
  SearchBar.buildSearchUrl query
    {| SearchBar.language := l; SearchBar.category := Some c;
       SearchBar.resourceType := rt |} =
  SearchBar.buildSearchUrl query
    {| SearchBar.language := l; SearchBar.category := Some (trim c);
       SearchBar.resourceType := rt |}
  /\ (forallb isWhiteSpace c = true ->
      SearchBar.buildSearchUrl query
        {| SearchBar.language := l; SearchBar.category := Some c;
           SearchBar.resourceType := rt |} =
      SearchBar.buildSearchUrl query
        {| SearchBar.language := l; SearchBar.category := None;
           SearchBar.resourceType := rt |}).
Proof.
  unfold SearchBar.buildSearchUrl. cbn [SearchBar.language SearchBar.category].
  split.
  - destruct c as [|x c]; [reflexivity|]. cbn [truthy].
    destruct (trim (x :: c)) as [|y t] eqn:Ht; [reflexivity|].
    cbn [truthy]. rewrite <- Ht, trim_idem, Ht. reflexivity.
  - intros Hws. destruct c as [|x c]; [reflexivity|]. cbn [truthy].
    now rewrite (trim_whiteSpace _ Hws).
Qed.

(** ** The suggestions *)

(** X15. The suggestions set from a response are the titles of its first
    six documents that have a non-empty one, each once: at most six
    suggestions, no duplicate, no empty text; and the list is shown when
    there is one. *)
Theorem suggestions_are_distinct_titles (docs : list Doc.t) (state : Suggest) :
  let state' := onSuggestions docs state in
  (List.length (suggestions state') <= 6)%nat
  /\ NoDup (suggestions state')
  /\ (forall t, In t (suggestions state') <->
                exists d, In d (firstn 6 docs)
                          /\ Doc.title d = Some t /\ t <> [])
  /\ (suggestions state' <> [] -> showSuggestions state' = true).
Proof.
  cbn zeta. unfold onSuggestions. cbn [suggestions showSuggestions].
  destruct (fromSet_spec (titles docs)) as (Hin & Hnd & Hlen).
  destruct (titles_spec docs) as (Hsix & Htitles).
  splits.
  - lia.
  - exact Hnd.
  - intros t. now rewrite Hin, Htitles.
  - intros Hne. destruct (titles docs) as [|t ts]; [|reflexivity].
    exfalso. apply Hne. reflexivity.
Qed.

(** X16. The text of the suggestions request is sent as typed: the [title]
    parameter of the URL decodes to the text, for every text without an
    unpaired surrogate. A text with one makes the effect raise URIError
    (the URL is built outside the promise chain), and a blank text issues
    no request. *)
Theorem suggestions_request_carries_the_text (debounced : jsstring) :
  (isWellFormed debounced = true ->
   exists etitle,
     suggestionsUrl debounced =
     Ok (lit "https://openlibrary.org/search.json?title=" ++ etitle
         ++ lit "&limit=8")
     /\ (isString debounced = true ->
         decodeURIComponent etitle = Ok debounced))
  /\ (isWellFormed debounced = false ->
      suggestionsUrl debounced = Throw URIError)
  /\ (forallb isWhiteSpace debounced = true -> suggests debounced = false).
Proof.
  unfold suggestionsUrl, suggests. splits.
  - intros Hwf. destruct (encode_wellFormed debounced Hwf) as [e He].
    exists e. rewrite He. split; [reflexivity|].
    intros Hs. now apply decode_encode.
  - intros Hwf. now rewrite (encode_illFormed debounced Hwf).
  - intros Hws. now rewrite (trim_whiteSpace _ Hws).
Qed.

(** ** mapDocsToBooks *)

(** X17. [mapDocsToBooks] gives one book for each document, in order, and
    every book a key that is not empty: the key of the document when it has
    a non-empty one, else its cover edition key when that is not empty,
    else the title, or "untitled" when there is none, a hyphen and the year
    as [String] writes it, or nothing when there is none. *)
Theorem mapDocsToBooks_gives_every_book_a_key (docs : list Doc.t) :
  List.length (mapDocsToBooks docs) = List.length docs
  /\ Forall (fun b => Book.key b <> []) (mapDocsToBooks docs)
  /\ forall i d,
      nth_error docs i = Some d ->
      exists b,
        nth_error (mapDocsToBooks docs) i = Some b
        /\ (forall k, truthy (Doc.key d) = Some k -> Book.key b = k)
        /\ (forall k, truthy (Doc.key d) = None ->
                      truthy (Doc.cover_edition_key d) = Some k ->
                      Book.key b = k)
        /\ (truthy (Doc.key d) = None ->
            truthy (Doc.cover_edition_key d) = None ->
            Book.key b =
            match Doc.title d with
            | Some title => title
            | None => lit "untitled"
            end
            ++ lit "-"
            ++ match Doc.first_publish_year d with
               | Some year => numberToString (Number.ofZ year)
               | None => []
               end).
Proof.
  unfold mapDocsToBooks. splits.
  - apply length_map.
  - apply Forall_map. apply Forall_forall. intros d _. apply bookKey_nonempty.
  - intros i d Hd. eexists. split; [apply map_nth_error; exact Hd|].
    cbn [Book.key toBook]. unfold bookKey. splits.
    + intros k ->. reflexivity.
    + intros k -> ->. reflexivity.
    + intros -> ->. reflexivity.
Qed.

(** ** The filters and the sort of runSearch *)

(** X18. The formats "ebook" and "print" split the books in two: every book
    is kept by exactly one of them, those with full text by "ebook" and the
    others, a book with no flag among them, by "print"; each keeps the
    order. *)
Theorem format_filter_splits_the_books
  (s l c rt : option jsstring) (books : list Book.t) :
  let ebooks :=
    byFormat {| sortByYear := s; language := l; category := c;
                format := Some (lit "ebook"); resourceType := rt |} books in
  let prints :=
    byFormat {| sortByYear := s; language := l; category := c;
                format := Some (lit "print"); resourceType := rt |} books in
  Permutation (ebooks ++ prints) books
  /\ ebooks = List.filter (fun b => flag (Book.has_fulltext b)) books
  /\ prints = List.filter (fun b => negb (flag (Book.has_fulltext b))) books
  /\ Forall (fun b => Book.has_fulltext b = Some true) ebooks
  /\ Forall (fun b => Book.has_fulltext b <> Some true) prints.
Proof.
  cbn zeta. rewrite byFormat_ebook, byFormat_print by reflexivity.
  destruct (flagged books) as [He Hp].
  splits; try reflexivity; try assumption. apply filter_partition.
Qed.

(** X19. Sorting "newest" first puts the books in order of descending year,
    a book without a year counting as year 0: the result is a rearrangement
    of the books, no book stands before one of a later year, and books of
    the same year keep their order. *)
Theorem newest_first_is_a_stable_sort
  (l c f rt : option jsstring) (books : list Book.t) :
  let shown :=
    byYear {| sortByYear := Some (lit "newest"); language := l; category := c;
              format := f; resourceType := rt |} books in
  Permutation books shown
  /\ StronglySorted (fun a b => (yearOrZero b <= yearOrZero a)%Z) shown
  /\ forall y, List.filter (fun b => (yearOrZero b =? y)%Z) shown =
               List.filter (fun b => (yearOrZero b =? y)%Z) books.
Proof.
  cbn zeta. rewrite byYear_newest by reflexivity. apply sort_newestFirst.
Qed.

(** X20. Sorting "oldest" first puts the books in order of ascending year
    with the books without a year last: the result is a rearrangement of
    the books, no book stands before one of an earlier year nor a book
    without a year before one with a year, and books of the same year, or
    all without one, keep their order. *)
Theorem oldest_first_puts_missing_years_last
  (l c f rt : option jsstring) (books : list Book.t) :
  let shown :=
    byYear {| sortByYear := Some (lit "oldest"); language := l; category := c;
              format := f; resourceType := rt |} books in
  Permutation books shown
  /\ StronglySorted (fun a b => notLater (Book.first_publish_year a)
                                         (Book.first_publish_year b)) shown
  /\ forall y, List.filter (hasYear y) shown = List.filter (hasYear y) books.
Proof.
  cbn zeta. rewrite byYear_oldest by reflexivity. apply sort_oldestFirst.
Qed.

(** X21. The category filter of the plain search is permissive: with a
    category that is not blank it shows the books one of whose subjects, in
    lower case, holds the trimmed category in lower case, all of them and
    in their order, and when there is no such book it shows all the books;
    with no category, or a blank one, it shows all the books. So it never
    turns a list that has books into an empty one. *)
Theorem category_filter_never_hides_everything
  (toLowerCase : jsstring -> jsstring) (filters : Filters) (mapped : list Book.t) :
  let shown := byCategory toLowerCase filters mapped in
  (mapped <> [] -> shown <> [])
  /\ (forall c,
         category filters = Some c -> trim c <> [] ->
         let matching :=
           List.filter (fun b =>
                          existsb (fun s => includes (toLowerCase s)
                                                     (toLowerCase (trim c)))
                                  (nullish (Book.subject b) []))
                       mapped in
         (matching <> [] -> shown = matching)
         /\ (matching = [] -> shown = mapped))
  /\ (category filters = None
      \/ (exists c, category filters = Some c /\ trim c = []) ->
      shown = mapped).
Proof.
  cbn zeta. unfold byCategory. splits.
  - destruct (truthy (category filters)) as [c|]; [|intros H; exact H].
    destruct (trim c) as [|x t]; [intros H; exact H|].
    destruct (List.filter (inCategory toLowerCase (toLowerCase (x :: t))) mapped)
      as [|b bs]; cbn [List.length Nat.eqb andb]; [|discriminate].
    destruct mapped as [|m ms]; cbn [List.length Nat.ltb Nat.leb];
      intros H; exact H.
  - intros c Hc Ht.
    assert (Htruthy : truthy (category filters) = Some c).
    { rewrite Hc. destruct c as [|x c']; [|reflexivity]. now destruct Ht. }
    rewrite Htruthy. destruct (trim c) as [|x t] eqn:Et; [now destruct Ht|].
    fold (inCategory toLowerCase (toLowerCase (x :: t))).
    destruct (List.filter (inCategory toLowerCase (toLowerCase (x :: t))) mapped)
      as [|b bs]; cbn [List.length Nat.eqb andb]; split; intros H;
      try reflexivity; try now destruct H.
    + destruct mapped; reflexivity.
    + discriminate H.
  - intros [Hc|(c & Hc & Ht)]; rewrite Hc; [reflexivity|].
    destruct c as [|x c']; [reflexivity|]. cbn [truthy]. now rewrite Ht.
Qed.

(** ** The keyboard *)

(** X22. While the suggestions are shown and the highlight is none or one
    of them, an arrow key moves it to one of them, and Enter searches for
    the highlighted suggestion when one is highlighted and for the query
    when none is; the query is set to the same text. *)
Theorem keyboard_keeps_the_highlight_on_a_suggestion (key : Key) (s : Keyboard) :
  showSuggestions (shown s) = true ->
  suggestions (shown s) <> [] ->
  (-1 <= highlight s < Z.of_nat (List.length (suggestions (shown s))))%Z ->
  let e := onKeyDown key s in
  (-1 <= highlight' e < Z.of_nat (List.length (suggestions (shown s))))%Z
  /\ (key = ArrowDown \/ key = ArrowUp -> (0 <= highlight' e)%Z)
  /\ (key = Enter ->
      exists text,
        search e = Some (Some text) /\ setQuery e = Some (Some text)
        /\ (highlight s = (-1)%Z -> text = query s)
        /\ ((0 <= highlight s)%Z ->
            nth_error (suggestions (shown s)) (Z.to_nat (highlight s))
            = Some text)).
Proof.
  intros Hshow Hne Hh. cbn zeta. unfold onKeyDown. rewrite Hshow. cbn [negb orb].
  assert (Hlen : (0 < Z.of_nat (List.length (suggestions (shown s))))%Z).
  { destruct (suggestions (shown s)); [congruence | cbn [List.length]; lia]. }
  replace (Z.of_nat (List.length (suggestions (shown s))) =? 0)%Z with false
    by (symmetry; apply Z.eqb_neq; lia).
  destruct key; cbn [highlight' search setQuery unchanged]; splits;
    try lia; try (intros [H|H]; discriminate H); try discriminate;
    try (intros _; lia).
  intros _. destruct (0 <=? highlight s)%Z eqn:Hz.
  - apply Z.leb_le in Hz.
    destruct (nth_error (suggestions (shown s)) (Z.to_nat (highlight s)))
      as [text|] eqn:Hn.
    + exists text. splits; try reflexivity. intros H. lia.
    + apply nth_error_None in Hn. lia.
  - apply Z.leb_gt in Hz. exists (query s). splits; try reflexivity.
    intros H. lia.
Qed.

(** ** runSearch *)

(** X23. An exception of the smart search does not leave [runSearch]: with
    a resource type that has no profile, or a category that holds an
    unpaired surrogate, no request is issued, the list of books is emptied
    and the loading flag is reset. *)
Theorem planner_errors_empty_the_list
  (toLowerCase : jsstring -> jsstring)
  (net : nat -> jsstring -> FetchResult Doc.t) (aborted : nat -> bool)
  (q : option jsstring) (query : jsstring) (filters : Filters) (view : View)
  (rt : jsstring) :
  truthy (resourceType filters) = Some rt ->
  (lookup RESOURCE_MAP rt = None
   \/ exists c, category filters = Some c /\ isWellFormed c = false) ->
  runSearch toLowerCase net aborted q query filters view [] =
  ({| books := []; loading := false |}, []).
Proof.
  intros Hrt Hbad. unfold runSearch, SearchBar.runSearch, requestFilters.
  cbn [SearchBar.resourceType]. rewrite Hrt.
  assert (Hthrow : exists e,
             buildQueryAttempts rt (SearchBar.smartOptions Doc.t
                                      {| SearchBar.language := language filters;
                                         SearchBar.category := category filters;
                                         SearchBar.resourceType := resourceType filters |})
             = Throw e).
  { destruct (lookup RESOURCE_MAP rt) as [m|] eqn:Hm.
    - destruct Hbad as [Hbad|(c & Hc & Hwf)]; [discriminate Hbad|].
      exists URIError.
      destruct (illFormed_subject_token Doc.t
                  (SearchBar.smartOptions Doc.t
                     {| SearchBar.language := language filters;
                        SearchBar.category := category filters;
                        SearchBar.resourceType := resourceType filters |}) c Hc Hwf)
        as [Htok Hwf'].
      exact (buildQueryAttempts_illFormed Doc.t rt _ m (trim c) Hm Htok Hwf').
    - exists TypeError. now apply buildQueryAttempts_unknown. }
  destruct Hthrow as [e He].
  unfold bindIO. rewrite (runSmartSearch_throw Doc.t net aborted rt _ e He).
  reflexivity.
Qed.

(** X24. A plain search issues one request, with the abort signal of the
    invocation, and resets the loading flag whatever happens. When the
    invocation is aborted the books stay as they are; when the request
    fails otherwise, or its body is not JSON or is [null], the list is
    emptied. *)
Theorem failed_plain_search_empties_the_list_unless_aborted
  (toLowerCase : jsstring -> jsstring)
  (net : nat -> jsstring -> FetchResult Doc.t) (aborted : nat -> bool)
  (q : option jsstring) (query : jsstring) (filters : Filters) (view : View) :
  truthy (resourceType filters) = None ->
  let url := SearchBar.buildSearchUrl (nullish q query) (requestFilters filters) in
  let after := runSearch toLowerCase net aborted q query filters view [] in
  snd after = [EvFetch url]
  /\ loading (fst after) = false
  /\ (aborted 0%nat = true -> books (fst after) = books view)
  /\ (aborted 0%nat = false ->
      (net 0%nat url = Rejected NetworkError
       \/ exists res, net 0%nat url = Fulfilled res
                      /\ (json res = JsonError \/ json res = JsonNull)) ->
      books (fst after) = []).
Proof.
  intros Hrt. cbn zeta. unfold runSearch, SearchBar.runSearch.
  replace (truthy (SearchBar.resourceType (requestFilters filters))) with (@None jsstring)
    by (symmetry; exact Hrt).
  unfold bindIO, fetch, ret. cbn [requests List.length andb app fst snd].
  splits; try reflexivity.
  - intros Hab. rewrite Hab. reflexivity.
  - intros Hab Hfail. rewrite Hab. cbn [books booksToSet nullish].
    destruct Hfail as [->|(res & -> & [Hj|Hj])]; [reflexivity| |];
      cbn [booksToSet]; rewrite Hj; reflexivity.
Qed.

(** X25. Whatever the await of [runSearch] yields, the list it shows
    honours the format and the order of the filters: with the format
    "ebook" every book shown has full text and with "print" none has; with
    the sort "newest" no book stands before one of a later year, and with
    "oldest" none before one of an earlier year, nor a book without a year
    before one with a year. *)
Theorem shown_books_honour_format_and_order
  (toLowerCase : jsstring -> jsstring) (filters : Filters)
  (awaited : result (SearchBar.Awaited Doc.t)) (shown : list Book.t) :
  booksToSet toLowerCase filters awaited = Some shown ->
  (isLiteral (format filters) "ebook" = true ->
   Forall (fun b => Book.has_fulltext b = Some true) shown)
  /\ (isLiteral (format filters) "print" = true ->
      Forall (fun b => Book.has_fulltext b <> Some true) shown)
  /\ (isLiteral (sortByYear filters) "newest" = true ->
      StronglySorted (fun a b => (yearOrZero b <= yearOrZero a)%Z) shown)
  /\ (isLiteral (sortByYear filters) "oldest" = true ->
      StronglySorted (fun a b => notLater (Book.first_publish_year a)
                                          (Book.first_publish_year b)) shown).
Proof.
  intros Hset.
  destruct (booksToSet_cases toLowerCase filters awaited shown Hset)
    as [->|(books & ->)].
  { splits; intros _; constructor. }
  splits.
  - intros H. apply (Permutation_Forall (byYear_permutation filters _)).
    rewrite byFormat_ebook by assumption. apply flagged.
  - intros H. apply (Permutation_Forall (byYear_permutation filters _)).
    rewrite byFormat_print by assumption. apply flagged.
  - intros H. rewrite byYear_newest by assumption. apply sort_newestFirst.
  - intros H. rewrite byYear_oldest by assumption. apply sort_oldestFirst.
Qed.

(** ** Witnesses *)

Lemma mapDocsToBooks_gives_every_book_a_key_witness :
  exists b,
    nth_error (mapDocsToBooks [emma; anonymous]) 1 = Some b
    /\ Book.key b = lit "untitled-1999".
Proof.
  destruct (mapDocsToBooks_gives_every_book_a_key [emma; anonymous])
    as (_ & _ & H).
  destruct (H 1%nat anonymous eq_refl) as (b & Hb & _ & _ & Hkey).
  exists b. split; [exact Hb|].
  rewrite (Hkey eq_refl eq_refl). vm_compute. reflexivity.
Defined.

Lemma category_filter_never_hides_everything_witness :
  byCategory (fun s => s) aboutHistory (mapDocsToBooks [emma; warAndPeace]) =
  mapDocsToBooks [warAndPeace].
Proof.
  destruct (category_filter_never_hides_everything (fun s => s) aboutHistory
              (mapDocsToBooks [emma; warAndPeace])) as (_ & H & _).
  destruct (H (lit " history ") eq_refl) as [Hsome _].
  - vm_compute. discriminate.
  - rewrite Hsome.
    + vm_compute. reflexivity.
    + vm_compute. discriminate.
Defined.

Lemma keyboard_keeps_the_highlight_on_a_suggestion_witness :
  search (onKeyDown Enter typing) = Some (Some (lit "dun"))
  /\ setQuery (onKeyDown Enter typing) = Some (Some (lit "dun")).
Proof.
  destruct (keyboard_keeps_the_highlight_on_a_suggestion Enter typing)
    as (_ & _ & H).
  - reflexivity.
  - discriminate.
  - cbn. lia.
  - destruct (H eq_refl) as (text & Hsearch & Hquery & Hnone & _).
    rewrite Hsearch, Hquery, (Hnone eq_refl). split; reflexivity.
Defined.

Lemma planner_errors_empty_the_list_witness :
  runSearch (fun s => s) offline neverAborted None (lit "thesis") thesis
            shownBefore [] =
  ({| books := []; loading := false |}, []).
Proof.
  apply (planner_errors_empty_the_list (fun s => s) offline neverAborted None
           (lit "thesis") thesis shownBefore (lit "thesis")).
  - reflexivity.
  - left. reflexivity.
Defined.

Lemma failed_plain_search_empties_the_list_unless_aborted_witness :
  snd (runSearch (fun s => s) offline neverAborted None (lit "dune") plain
                 shownBefore []) =
  [EvFetch (SearchBar.buildSearchUrl (lit "dune") (requestFilters plain))]
  /\ loading (fst (runSearch (fun s => s) offline neverAborted None (lit "dune")
                             plain shownBefore [])) = false
  /\ (neverAborted 0%nat = true ->
      books (fst (runSearch (fun s => s) offline neverAborted None (lit "dune")
                            plain shownBefore [])) = books shownBefore)
  /\ (neverAborted 0%nat = false ->
      (offline 0%nat (SearchBar.buildSearchUrl (lit "dune") (requestFilters plain))
       = Rejected NetworkError
       \/ exists res,
           offline 0%nat (SearchBar.buildSearchUrl (lit "dune") (requestFilters plain))
           = Fulfilled res
           /\ (json res = JsonError \/ json res = JsonNull)) ->
      books (fst (runSearch (fun s => s) offline neverAborted None (lit "dune")
                            plain shownBefore [])) = []).
Proof.
  apply (failed_plain_search_empties_the_list_unless_aborted (fun s => s) offline
           neverAborted None (lit "dune") plain shownBefore).
  reflexivity.
Defined.

Lemma shown_books_honour_format_and_order_witness :
  (isLiteral (format ebooksNewestFirst) "ebook" = true ->
   Forall (fun b => Book.has_fulltext b = Some true)
          (mapDocsToBooks [dune; undated]))
  /\ (isLiteral (format ebooksNewestFirst) "print" = true ->
      Forall (fun b => Book.has_fulltext b <> Some true)
             (mapDocsToBooks [dune; undated]))
  /\ (isLiteral (sortByYear ebooksNewestFirst) "newest" = true ->
      StronglySorted (fun a b => (yearOrZero b <= yearOrZero a)%Z)
                     (mapDocsToBooks [dune; undated]))
  /\ (isLiteral (sortByYear ebooksNewestFirst) "oldest" = true ->
      StronglySorted (fun a b => notLater (Book.first_publish_year a)
                                          (Book.first_publish_year b))
                     (mapDocsToBooks [dune; undated])).
Proof.
  apply (shown_books_honour_format_and_order (fun s => s) ebooksNewestFirst
           (Ok (SearchBar.Smart threeFound)) (mapDocsToBooks [dune; undated])).
  vm_compute. reflexivity.
Defined.

End SearchBarProperties.

(** * Properties of the saved books *)

Module SavedBooksProperties.

Import JS AppContext BookCard Favorites SearchResults Examples.
Import MoreJSFacts SavedBooksFacts.

(** X26. The save button of a card flips whether the books of its key are
    saved in the list of the current mode, favorites or repository, and
    nothing else: the saved state of a book of another key, the other list
    and the mode stay as they are. *)
Theorem toggleSave_flips_the_books_of_the_key
  (book other : Book.t) (ctx : AppContext.t) :
  isSaved (toggleSave book ctx) other =
  (if eqb_string (Book.key other) (Book.key book)
   then negb (isSaved ctx other)
   else isSaved ctx other)
  /\ studentMode (toggleSave book ctx) = studentMode ctx
  /\ (if studentMode ctx
      then favorites (toggleSave book ctx) = favorites ctx
      else repository (toggleSave book ctx) = repository ctx).
Proof.
  unfold isSaved, toggleSave. destruct ctx as [favs repo mode].
  cbn [studentMode favorites repository].
  destruct mode.
  - pose proof (toggled_saved book other repo) as H.
    destruct (existsb (sameKey book) repo);
      cbn [studentMode favorites repository]; now rewrite H.
  - pose proof (toggled_saved book other favs) as H.
    destruct (existsb (sameKey book) favs);
      cbn [studentMode favorites repository]; now rewrite H.
Qed.

(** X27. The save button keeps the keys of a list distinct: when no two
    saved books of the current mode share a key, none do after a toggle. *)
Theorem toggleSave_keeps_the_keys_distinct (book : Book.t) (ctx : AppContext.t) :
  NoDup (List.map Book.key (items ctx)) ->
  NoDup (List.map Book.key (items (toggleSave book ctx))).
Proof.
  unfold items, toggleSave. destruct ctx as [favs repo mode].
  cbn [studentMode favorites repository]. destruct mode; intros H.
  - pose proof (toggled_NoDup book repo H) as H'.
    destruct (existsb (sameKey book) repo);
      cbn [studentMode favorites repository]; exact H'.
  - pose proof (toggled_NoDup book favs H) as H'.
    destruct (existsb (sameKey book) favs);
      cbn [studentMode favorites repository]; exact H'.
Qed.

(** X28. Saving a book that is not saved is undone, with the lists exactly
    as they were, by the save button of its card and by the remove button
    of the favorites dialog alike. *)
Theorem saving_is_undone_by_either_button (book : Book.t) (ctx : AppContext.t) :
  isSaved ctx book = false ->
  toggleSave book (toggleSave book ctx) = ctx
  /\ remove (Book.key book) (toggleSave book ctx) = ctx.
Proof.
  unfold isSaved, remove, setItems, items, toggleSave.
  destruct ctx as [favs repo mode]. cbn [studentMode favorites repository].
  destruct mode; intros He; rewrite He;
    cbn [studentMode favorites repository];
    destruct (saved_then_removed book _ He) as (H1 & H2 & H3);
    rewrite H1, H2, H3; split; reflexivity.
Qed.

(** X29. The remove button of the favorites dialog takes every book of the
    key out of the list of the current mode and leaves the other books in
    their order; removing again changes nothing, the card of such a book
    then shows it as not saved, and the other list and the mode stay as
    they are. *)
Theorem remove_takes_out_the_books_of_the_key
  (key : jsstring) (ctx : AppContext.t) :
  items (remove key ctx) =
  List.filter (fun b => negb (eqb_string (Book.key b) key)) (items ctx)
  /\ (forall b, In b (items (remove key ctx)) <->
                In b (items ctx) /\ Book.key b <> key)
  /\ remove key (remove key ctx) = remove key ctx
  /\ (forall book, Book.key book = key -> isSaved (remove key ctx) book = false)
  /\ studentMode (remove key ctx) = studentMode ctx
  /\ (if studentMode ctx
      then favorites (remove key ctx) = favorites ctx
      else repository (remove key ctx) = repository ctx).
Proof.
  assert (Hitems : items (remove key ctx) =
                   List.filter (fun b => negb (eqb_string (Book.key b) key)) (items ctx)).
  { unfold remove, setItems, items. destruct ctx as [favs repo []]; reflexivity. }
  assert (Hidem : forall l : list Book.t,
             List.filter (fun b => negb (eqb_string (Book.key b) key))
               (List.filter (fun b => negb (eqb_string (Book.key b) key)) l) =
             List.filter (fun b => negb (eqb_string (Book.key b) key)) l).
  { intros l. induction l as [|b l IH]; [reflexivity|]. cbn [List.filter].
    destruct (negb (eqb_string (Book.key b) key)) eqn:Hb; [|exact IH].
    cbn [List.filter]. now rewrite Hb, IH. }
  splits.
  - exact Hitems.
  - intros b. rewrite Hitems, filter_In, negb_true_iff, eqb_string_neq. reflexivity.
  - unfold remove, setItems, items. destruct ctx as [favs repo []];
      cbn [studentMode favorites repository]; now rewrite Hidem.
  - intros book Hk. unfold isSaved.
    assert (Hl : (if studentMode (remove key ctx)
                  then repository (remove key ctx)
                  else favorites (remove key ctx)) = items (remove key ctx))
      by reflexivity.
    rewrite Hl, Hitems.
    destruct (existsb (sameKey book) _) eqn:He; [|reflexivity].
    apply existsb_exists in He as (b & Hb & Hs).
    apply filter_In in Hb as [_ Hb]. apply sameKey_eq in Hs.
    apply negb_true_iff, eqb_string_neq in Hb. congruence.
  - unfold remove, setItems. destruct ctx as [favs repo []]; reflexivity.
  - unfold remove, setItems. destruct ctx as [favs repo []]; reflexivity.
Qed.

(** ** Witnesses *)

Lemma toggleSave_keeps_the_keys_distinct_witness :
  NoDup (List.map Book.key (items (toggleSave (toBook dune) reader))).
Proof.
  apply (toggleSave_keeps_the_keys_distinct (toBook dune) reader).
  repeat constructor. intros [].
Defined.

Lemma saving_is_undone_by_either_button_witness :
  toggleSave (toBook dune) (toggleSave (toBook dune) reader) = reader
  /\ remove (Book.key (toBook dune)) (toggleSave (toBook dune) reader) = reader.
Proof.
  apply (saving_is_undone_by_either_button (toBook dune) reader).
  vm_compute. reflexivity.
Defined.

End SavedBooksProperties.

(** * Properties of the controls *)

Module ControlsProperties.

Import JS ResourceSearch App.
Import JSFacts PlannerFacts RetrieverFacts MoreJSFacts ControlsFacts.

(** X30. Whatever the user does with the picks, the filter panel and the
    search input, in either mode and in any order, the filters never hold
    what makes the plan builder raise: the category, if any, is made of
    ASCII units, and the resource type, if one is selected, has a profile.
    So the search that is then run for a selected resource type has a plan,
    and its await yields an outcome of the smart search, whatever the
    service does. *)
Theorem searches_from_the_controls_do_not_raise (events : list (bool * UiEvent)) :
  let f := filters (after events) in
  (forall c, category f = Some c -> isPlain c = true)
  /\ (forall rt,
         truthy (resourceType f) = Some rt ->
         lookup RESOURCE_MAP rt <> None
         /\ forall (Doc : Type) (net : nat -> jsstring -> FetchResult Doc)
                   (aborted : nat -> bool) (final : jsstring),
             (exists plan,
                 buildQueryAttempts rt
                   (SearchBar.smartOptions Doc
                      (SearchResults.requestFilters (searchBarFilters f)))
                 = Ok plan)
             /\ exists out trace,
                 SearchBar.runSearch net aborted final
                   (SearchResults.requestFilters (searchBarFilters f)) [] =
                 (Ok (SearchBar.Smart out), trace)).
Proof.
  cbn zeta.
  destruct (after_searchable events start) as [Hrt Hcat].
  { intros rt H. discriminate H. }
  { intros c H. discriminate H. }
  fold (after events) in Hrt, Hcat.
  split; [exact Hcat|]. intros rt Ht. split; [now apply Hrt|].
  intros Doc net aborted final.
  unfold SearchBar.runSearch, SearchResults.requestFilters, searchBarFilters.
  cbn [SearchBar.resourceType SearchResults.resourceType SearchResults.category
       SearchResults.language].
  rewrite Ht.
  set (opts := SearchBar.smartOptions Doc _).
  destruct (lookup RESOURCE_MAP rt) as [m|] eqn:Hm; [|now destruct (Hrt rt Ht)].
  assert (Hplain : forall c, subjectSlug opts = Some c -> isPlain c = true).
  { intros c Hc. now apply Hcat. }
  assert (Hs : stringSubject opts = true).
  { unfold stringSubject. destruct (subjectSlug opts) as [c|] eqn:Hc; [|reflexivity].
    now apply isPlain_isString, Hplain. }
  assert (Hwf : wellFormedSubject opts = true).
  { unfold wellFormedSubject. destruct (subjectSlug opts) as [c|] eqn:Hc; [|reflexivity].
    now apply isPlain_wellFormed, Hplain. }
  pose proof (buildQueryAttempts_wellFormed Doc rt opts m Hm Hwf) as Hb.
  split; [eexists; exact Hb|].
  destruct (runSmartSearch_spec Doc net aborted rt opts _ Hs Hb)
    as (out & trace & Hrun & _).
  exists out, trace. unfold bindIO. now rewrite Hrun.
Qed.

Lemma searches_from_the_controls_do_not_raise_witness :
  truthy (resourceType (filters (after [(true, PickClicked 0)]))) =
  Some (lit "textbook")
  /\ category (filters (after [(true, PickClicked 0)])) = Some (lit "science")
  /\ lookup RESOURCE_MAP (lit "textbook") <> None
  /\ exists out trace,
      SearchBar.runSearch Examples.offline Scenario.neverAborted (lit "textbook science")
        (SearchResults.requestFilters
           (searchBarFilters (filters (after [(true, PickClicked 0)])))) [] =
      (Ok (SearchBar.Smart out), trace).
Proof.
  destruct (searches_from_the_controls_do_not_raise [(true, PickClicked 0)])
    as [_ H].
  destruct (H (lit "textbook") eq_refl) as [Hrt Hrun].
  split; [reflexivity|]. split; [reflexivity|]. split; [exact Hrt|].
  exact (proj2 (Hrun Doc.t Examples.offline Scenario.neverAborted
                  (lit "textbook science"))).
Defined.

End ControlsProperties.
